(** * Tabular views of the threat-intelligence dashboard

    A shallow embedding of the filter / sort / paginate / aggregate code of
    the dashboard pages (software end-of-life tracker, data-breach database,
    Web3 threats) and of the edge proxy worker, together with the properties
    that the written specification states about them, and with properties
    of the rest of the pages: their cards, drop-downs, pagination controls
    and formatting helpers.

    JavaScript values are modelled as follows.
    - A number is [NaN], [Infinity] or an integer [Num z]; time values are
      integer milliseconds, and amounts and counts are taken as whole
      numbers, on which the arithmetic of doubles is exact up to 2^53.  A sum
      of amounts is stated as the code adds it up, from left to right.
    - A [Date] is its time value, [option Z], with [None] for an invalid date.
    - Strings are [string]; [null] and [undefined] fields are [None], except
      where the code tells them apart: the breach date of a leak is a
      [Js.field].
    - A call that can throw returns an [option] or a [Proxy.Outcome].
    - What ECMAScript leaves to the implementation (the fallback grammar of
      [Date.parse], [localeCompare], locale month names, the time zone) is a
      field of the [Runtime] class, so that every theorem holds for every
      engine unless it says otherwise. *)

From Stdlib Require Import ZArith String Ascii List Bool Lia Sorted Permutation.
From Stdlib Require Import DecimalString.
Import ListNotations.

Local Open Scope string_scope.
Local Open Scope Z_scope.

Set Implicit Arguments.

(** String equality test, the [===] of the pages on strings. *)
Local Infix "==" := String.eqb (at level 70, no associativity).

(* ===================================================================== *)
(** ** Numbers and arrays of the JavaScript runtime *)
(* ===================================================================== *)

Module Js.

(** A JavaScript number, as far as the pages use them. *)
Inductive number : Type :=
| NaN
| Num (z : Z)
| Infinity.

(** [a < b] on numbers: any comparison with [NaN] is false. *)
Definition lt (a b : number) : bool :=
  match a, b with
  | Num x, Num y => x <? y
  | Num _, Infinity => true
  | _, _ => false
  end.

Definition gt (a b : number) : bool := lt b a.

(** [a >= b] on numbers (false as soon as one side is [NaN]). *)
Definition ge (a b : number) : bool :=
  match a, b with
  | Num x, Num y => y <=? x
  | Infinity, Num _ => true
  | Infinity, Infinity => true
  | _, _ => false
  end.

Definition le (a b : number) : bool := ge b a.

(** Truthiness of a number: [0] and [NaN] are falsy. *)
Definition truthy (a : number) : bool :=
  match a with
  | NaN => false
  | Num z => negb (z =? 0)
  | Infinity => true
  end.

(** A string property as a page finds it in a record of a feed: the key can
    be absent ([undefined]), hold [null], or hold a string. *)
Inductive field : Type :=
| Absent
| Null
| Text (s : string).

(** The time value of a [Date] seen as a number ([getTime()]). *)
Definition of_time (t : option Z) : number :=
  match t with
  | Some z => Num z
  | None => NaN
  end.

(** [Math.ceil(n / d)] for an array length [n] and a positive integer [d].
    Both are below 2^53, so the floating-point quotient rounds to an
    integer only when the exact quotient is one. *)
Definition Math_ceil_div (n d : Z) : Z := - ((- n) / d).

Section Arrays.
Variable A : Type.

(** [Array.prototype.sort(cmp)] is a stable sort: an element moves behind
    another one only when the comparator returns a positive number for the
    pair.  It is modelled as the stable insertion sort that inserts the
    elements from the right. *)
Fixpoint insert (cmp : A -> A -> Z) (x : A) (l : list A) : list A :=
  match l with
  | [] => [x]
  | y :: l' => if 0 <? cmp x y then y :: insert cmp x l' else x :: l
  end.

Definition sort (cmp : A -> A -> Z) (l : list A) : list A :=
  fold_right (insert cmp) [] l.

(** [arr.slice(start, end)]: negative indices count from the end. *)
Definition slice_index (len i : Z) : Z :=
  if i <? 0 then Z.max (len + i) 0 else Z.min i len.

Definition slice (start stop : Z) (l : list A) : list A :=
  let len := Z.of_nat (length l) in
  let k := slice_index len start in
  let final := slice_index len stop in
  firstn (Z.to_nat (final - k)) (skipn (Z.to_nat k) l).

(** [arr.find(p)] *)
Definition find (p : A -> bool) (l : list A) : option A := List.find p l.

End Arrays.

End Js.

(* ===================================================================== *)
(** ** Strings *)
(* ===================================================================== *)

Module Str.

(** The value of a decimal digit, [None] for any other character ([\d]). *)
Definition digit_value (c : ascii) : option Z :=
  let n := Z.of_N (N_of_ascii c) in
  if (48 <=? n) && (n <=? 57) then Some (n - 48) else None.

Definition is_digit (c : ascii) : bool :=
  match digit_value c with Some _ => true | None => false end.

Fixpoint all_digits (s : string) : bool :=
  match s with
  | EmptyString => true
  | String c s' => is_digit c && all_digits s'
  end.

(** Decimal value of a string of digits, most significant digit first. *)
Fixpoint decimal_from (acc : Z) (s : string) : Z :=
  match s with
  | EmptyString => acc
  | String c s' =>
      match digit_value c with
      | Some d => decimal_from (10 * acc + d) s'
      | None => acc
      end
  end.

Definition decimal (s : string) : Z := decimal_from 0 s.

(** [s.split(sep)] for a one-character separator: never an empty array. *)
Fixpoint split (sep : ascii) (s : string) : list string :=
  match s with
  | EmptyString => [EmptyString]
  | String c s' =>
      if Ascii.eqb c sep then EmptyString :: split sep s'
      else match split sep s' with
           | [] => [String c EmptyString]
           | p :: ps => String c p :: ps
           end
  end.

(** [hay.includes(needle)] *)
Fixpoint includes (hay needle : string) : bool :=
  String.prefix needle hay ||
  match hay with
  | EmptyString => false
  | String _ hay' => includes hay' needle
  end.

(** [s.replace(/^\/+/, "")]: drop every leading copy of [c]. *)
Fixpoint drop_leading (c : ascii) (s : string) : string :=
  match s with
  | EmptyString => EmptyString
  | String c' s' => if Ascii.eqb c' c then drop_leading c s' else s
  end.

(** [s.replace(/\/+$/, "")]: drop every trailing copy of [c]. *)
Fixpoint drop_trailing (c : ascii) (s : string) : string :=
  match s with
  | EmptyString => EmptyString
  | String c' s' =>
      match drop_trailing c s' with
      | EmptyString => if Ascii.eqb c' c then EmptyString else String c' EmptyString
      | rest => String c' rest
      end
  end.

(** Decimal rendering of an integer, as in a template literal. *)
Definition of_Z (z : Z) : string := NilZero.string_of_int (Z.to_int z).

(** Truthiness of a string: only the empty string is falsy. *)
Definition truthy (s : string) : bool :=
  match s with EmptyString => false | _ => true end.

(** [/^\d{4}-\d{2}-\d{2}$/.test(s)] *)
Definition is_ymd_pattern (s : string) : bool :=
  match list_ascii_of_string s with
  | [y1; y2; y3; y4; h1; m1; m2; h2; d1; d2] =>
      is_digit y1 && is_digit y2 && is_digit y3 && is_digit y4 &&
      Ascii.eqb h1 "-" &&
      is_digit m1 && is_digit m2 &&
      Ascii.eqb h2 "-" &&
      is_digit d1 && is_digit d2
  | _ => false
  end.

(** [/^\d{4}\.json$/.test(s)] *)
Definition is_year_json (s : string) : bool :=
  match list_ascii_of_string s with
  | [y1; y2; y3; y4; dot; j; s'; o; n] =>
      is_digit y1 && is_digit y2 && is_digit y3 && is_digit y4 &&
      Ascii.eqb dot "." && Ascii.eqb j "j" && Ascii.eqb s' "s" &&
      Ascii.eqb o "o" && Ascii.eqb n "n"
  | _ => false
  end.

End Str.

(* ===================================================================== *)
(** ** Dates (ECMAScript time values) *)
(* ===================================================================== *)

(** What the language leaves to the engine, the locale and the clock. *)
Class Runtime : Type := {
  (** offset of local time from UTC in milliseconds (a fixed offset: daylight
      saving changes are not modelled) *)
  LocalTZA : Z;
  (** [Date.parse] on strings that are not a valid date-only ISO string *)
  Date_parse_fallback : string -> option Z;
  (** [Number(s)] on strings that are not plain decimal digits *)
  StringToNumber_fallback : string -> Js.number;
  (** [toLocaleString('default', { month: 'short' })] for a month index *)
  month_short : Z -> string;
  (** [a.localeCompare(b)] *)
  localeCompare : string -> string -> Z;
  (** [s.toLowerCase()] *)
  toLowerCase : string -> string;
  (** [s.trim()] *)
  trim : string -> string;
  (** [differenceInDays(left, right)] of the date-fns package *)
  differenceInDays : option Z -> option Z -> Js.number
}.

Module Date.

Definition msPerDay : Z := 86400000.

Definition DaysInYear (y : Z) : Z :=
  if negb (y mod 4 =? 0) then 365
  else if negb (y mod 100 =? 0) then 366
  else if negb (y mod 400 =? 0) then 365
  else 366.

Definition InLeapYear (y : Z) : Z := DaysInYear y - 365.

(** Day number of the first day of year [y] (1 January 1970 is day 0). *)
Definition DayFromYear (y : Z) : Z :=
  365 * (y - 1970) + (y - 1969) / 4 - (y - 1901) / 100 + (y - 1601) / 400.

(** Days before the first of month [m] (0 = January) within a year. *)
Definition month_offset (leap m : Z) : Z :=
  if m =? 0 then 0
  else if m =? 1 then 31
  else if m =? 2 then 59 + leap
  else if m =? 3 then 90 + leap
  else if m =? 4 then 120 + leap
  else if m =? 5 then 151 + leap
  else if m =? 6 then 181 + leap
  else if m =? 7 then 212 + leap
  else if m =? 8 then 243 + leap
  else if m =? 9 then 273 + leap
  else if m =? 10 then 304 + leap
  else 334 + leap.

(** [MakeDay(year, month, date)]: months outside 0..11 carry into the year,
    days outside the month carry into the neighbouring months. *)
Definition MakeDay (year month date : Z) : Z :=
  let ym := year + month / 12 in
  let mn := month mod 12 in
  DayFromYear ym + month_offset (InLeapYear ym) mn + date - 1.

Definition MakeDate (day time : Z) : Z := day * msPerDay + time.

(** [TimeClip]: time values beyond 8.64e15 ms are invalid. *)
Definition TimeClip (t : Z) : option Z :=
  if Z.abs t <=? 8640000000000000 then Some t else None.

Definition Day (t : Z) : Z := t / msPerDay.
Definition TimeWithinDay (t : Z) : Z := t mod msPerDay.

(** [YearFromTime]: the largest year whose first day is not after the day
    of [t], found by walking up from a lower estimate. *)
Fixpoint year_search (fuel : nat) (y day : Z) : Z :=
  match fuel with
  | O => y
  | S fuel' =>
      if DayFromYear (y + 1) <=? day then year_search fuel' (y + 1) day else y
  end.

Definition YearFromDay (day : Z) : Z :=
  let estimate := 1970 + (if 0 <=? day then day / 366 else day / 365) in
  year_search (Z.to_nat (Z.abs day / 100000 + 2)) estimate day.

Definition YearFromTime (t : Z) : Z := YearFromDay (Day t).

Definition DayWithinYear (t : Z) : Z := Day t - DayFromYear (YearFromTime t).

Definition MonthFromTime (t : Z) : Z :=
  let leap := InLeapYear (YearFromTime t) in
  let d := DayWithinYear t in
  if d <? 31 then 0
  else if d <? 59 + leap then 1
  else if d <? 90 + leap then 2
  else if d <? 120 + leap then 3
  else if d <? 151 + leap then 4
  else if d <? 181 + leap then 5
  else if d <? 212 + leap then 6
  else if d <? 243 + leap then 7
  else if d <? 273 + leap then 8
  else if d <? 304 + leap then 9
  else if d <? 334 + leap then 10
  else 11.

Definition DateFromTime (t : Z) : Z :=
  DayWithinYear t
  - month_offset (InLeapYear (YearFromTime t)) (MonthFromTime t) + 1.

Definition DaysInMonth (y m : Z) : Z :=
  let leap := InLeapYear y in
  (if m =? 11 then 365 + leap else month_offset leap (m + 1))
  - month_offset leap m.

Section WithRuntime.
Context {rt : Runtime}.

Definition LocalTime (t : Z) : Z := t + LocalTZA.
Definition UTC (t : Z) : Z := t - LocalTZA.

(** [new Date(year, monthIndex, day)]: a local calendar date.  A year in
    0..99 means 1900 + year. *)
Definition of_local_ymd (year month day : Js.number) : option Z :=
  match year, month, day with
  | Js.Num y, Js.Num m, Js.Num d =>
      let yr := if (0 <=? y) && (y <=? 99) then 1900 + y else y in
      TimeClip (UTC (MakeDate (MakeDay yr m d) 0))
  | _, _, _ => None
  end.

(** The date-only form [YYYY-MM-DD] of the ECMAScript date-time string
    format, which [Date.parse] reads as midnight UTC. *)
Definition parse_iso_date_only (s : string) : option Z :=
  if Str.is_ymd_pattern s then
    match Str.split "-" s with
    | [ys; ms; ds] =>
        let y := Str.decimal ys in
        let m := Str.decimal ms in
        let d := Str.decimal ds in
        if (1 <=? m) && (m <=? 12) && (1 <=? d) && (d <=? DaysInMonth y (m - 1))
        then Some (MakeDate (MakeDay y (m - 1) d) 0)
        else None
    | _ => None
    end
  else None.

(** [Date.parse(s)] *)
Definition parse (s : string) : option Z :=
  match parse_iso_date_only s with
  | Some t => Some t
  | None => Date_parse_fallback s
  end.

(** [new Date(v)] for a string property: a string is parsed, [null] is the
    number 0 and so the first instant of 1970, [undefined] is no date. *)
Definition of_field (v : Js.field) : option Z :=
  match v with
  | Js.Text s => parse s
  | Js.Null => Some 0
  | Js.Absent => None
  end.

Definition getFullYear (t : Z) : Z := YearFromTime (LocalTime t).
Definition getMonth (t : Z) : Z := MonthFromTime (LocalTime t).
Definition getDate (t : Z) : Z := DateFromTime (LocalTime t).

(** [d.setMonth(m)] and [d.setFullYear(y)] keep the local day of the month
    and the local time of day. *)
Definition setMonth (t m : Z) : option Z :=
  let l := LocalTime t in
  TimeClip (UTC (MakeDate (MakeDay (YearFromTime l) m (DateFromTime l))
                          (TimeWithinDay l))).

Definition setFullYear (t y : Z) : option Z :=
  let l := LocalTime t in
  TimeClip (UTC (MakeDate (MakeDay y (MonthFromTime l) (DateFromTime l))
                          (TimeWithinDay l))).

End WithRuntime.

End Date.

(** [Number(s)]: the empty string is 0 and a string of decimal digits is its
    value (exact up to 2^53; beyond that JavaScript rounds, which changes no
    comparison with a smaller integer).  Signs, spaces, fractions, exponents
    and the other numeric literals are left to the engine. *)
Definition Number {rt : Runtime} (s : string) : Js.number :=
  match s with
  | EmptyString => Js.Num 0
  | _ => if Str.all_digits s then Js.Num (Str.decimal s)
         else StringToNumber_fallback s
  end.

(** A value read out of a record by [record[key]]; a missing, [undefined]
    or [null] property is [None] at the use site. *)
Inductive prim : Type :=
| PBool (b : bool)
| PNum (n : Js.number)
| PStr (s : string)
| PArr (l : list string).

(** [ToPrimitive]: an array of strings turns into its elements joined by
    commas. *)
Definition ToPrimitive (v : prim) : prim :=
  match v with
  | PArr l => PStr (String.concat "," l)
  | other => other
  end.

Definition ToNumber {rt : Runtime} (v : prim) : Js.number :=
  match ToPrimitive v with
  | PBool b => Js.Num (if b then 1 else 0)
  | PNum n => n
  | PStr s => Number s
  | PArr _ => Js.NaN
  end.

(** [a < b]: two strings compare by code units, anything else is compared
    as numbers. *)
Definition prim_lt {rt : Runtime} (a b : prim) : bool :=
  match ToPrimitive a, ToPrimitive b with
  | PStr x, PStr y => String.ltb x y
  | _, _ => Js.lt (ToNumber a) (ToNumber b)
  end.

Definition prim_gt {rt : Runtime} (a b : prim) : bool := prim_lt b a.

(** Sort direction of a table column. *)
Inductive direction : Type := asc | desc.

Definition direction_eqb (a b : direction) : bool :=
  match a, b with
  | asc, asc | desc, desc => true
  | _, _ => false
  end.

(* ===================================================================== *)
(** ** Software end-of-life page *)
(* ===================================================================== *)

Module Eol.

Record SoftwareVersion : Type := {
  cycle : string;
  lts : option bool;
  releaseDate : option string;
  eol : option prim;                 (* string | boolean *)
  latest : option string;
  latestReleaseDate : option string;
  link : option string;
  codename : option string;
  support : option prim
}.

Record FlattenedSoftwareVersion : Type := {
  version : SoftwareVersion;
  name : string;
  displayName : string;
  daysRemaining : Js.number;
  status : string
}.

Record SortConfig : Type := { key : string; dir : direction }.

Section WithRuntime.
Context {rt : Runtime}.

(** The body of the inner [forEach] of [processData]. *)
Definition eolDate_of (v : SoftwareVersion) : option (option Z) :=
  match eol v with
  | Some (PStr s) => Some (Date.parse s)
  | _ => None
  end.

Definition daysRemaining_of (today : Z) (v : SoftwareVersion)
  : option Js.number :=
  match eolDate_of v with
  | Some d => Some (differenceInDays d (Some today))
  | None => None
  end.

(** [daysRemaining && daysRemaining < bound] *)
Definition below (d : option Js.number) (bound : Z) : bool :=
  match d with
  | Some n => Js.truthy n && Js.lt n (Js.Num bound)
  | None => false
  end.

Definition eol_is_false (v : SoftwareVersion) : bool :=
  match eol v with
  | Some (PBool false) => true
  | _ => false
  end.

Definition status_of (today : Z) (v : SoftwareVersion) : string :=
  let d := daysRemaining_of today v in
  match eolDate_of v with
  | None => "Active"
  | Some _ =>
      if eol_is_false v then "Active"
      else if below d 0 then "Expired"
      else if below d 30 then "Critical"
      else if below d 90 then "Warning"
      else if below d 180 then "Notice"
      else "Active"
  end.

Definition flatten_version (today : Z) (nm : string) (v : SoftwareVersion)
  : FlattenedSoftwareVersion :=
  {| version := v;
     name := nm;
     displayName :=
       nm ++ " " ++ cycle v ++
       (match lts v with Some true => " LTS" | _ => "" end);
     daysRemaining :=
       match daysRemaining_of today v with
       | Some n => n
       | None => Js.Infinity
       end;
     status := status_of today v |}.

(** [processData]: the value handed to [setFlattenedData]. *)
Definition processData (today : Z)
    (data : list (string * list SoftwareVersion))
  : list FlattenedSoftwareVersion :=
  flat_map (fun entry => map (flatten_version today (fst entry)) (snd entry))
           data.

(** [record[key]] for the properties of a flattened record. *)
Definition get (r : FlattenedSoftwareVersion) (k : string) : option prim :=
  let v := version r in
  if k == "cycle" then Some (PStr (cycle v))
  else if k == "lts" then option_map PBool (lts v)
  else if k == "releaseDate" then option_map PStr (releaseDate v)
  else if k == "eol" then eol v
  else if k == "latest" then option_map PStr (latest v)
  else if k == "latestReleaseDate" then option_map PStr (latestReleaseDate v)
  else if k == "link" then option_map PStr (link v)
  else if k == "codename" then option_map PStr (codename v)
  else if k == "support" then support v
  else if k == "name" then Some (PStr (name r))
  else if k == "displayName" then Some (PStr (displayName r))
  else if k == "daysRemaining" then Some (PNum (daysRemaining r))
  else if k == "status" then Some (PStr (status r))
  else None.

Definition is_date_key (k : string) : bool :=
  (k == "latestReleaseDate") || (k == "releaseDate") || (k == "eol").

(** The value the comparator works on: date columns that hold a string
    are replaced by their time value. *)
Definition sort_value (k : string) (r : FlattenedSoftwareVersion)
  : option prim :=
  match get r k with
  | Some (PStr s) =>
      if is_date_key k then Some (PNum (Js.of_time (Date.parse s)))
      else Some (PStr s)
  | v => v
  end.

(** The comparator of [sortedData]. *)
Definition compare (cfg : SortConfig) (a b : FlattenedSoftwareVersion) : Z :=
  match sort_value (key cfg) a with
  | None => match dir cfg with asc => -1 | desc => 1 end
  | Some aValue =>
      match sort_value (key cfg) b with
      | None => match dir cfg with asc => 1 | desc => -1 end
      | Some bValue =>
          if prim_lt aValue bValue
          then match dir cfg with asc => -1 | desc => 1 end
          else if prim_gt aValue bValue
          then match dir cfg with asc => 1 | desc => -1 end
          else 0
      end
  end.

Record State : Type := {
  flattenedData : list FlattenedSoftwareVersion;
  searchQuery : string;
  statusFilter : string;
  softwareFilter : string;
  sortConfig : SortConfig;
  currentPage : Z;
  itemsPerPage : Z
}.

Definition matchesSearch (q : string) (r : FlattenedSoftwareVersion) : bool :=
  (q == "")
  || Str.includes (toLowerCase (name r)) (toLowerCase q)
  || Str.includes (toLowerCase (cycle (version r))) (toLowerCase q)
  || Str.includes (toLowerCase (displayName r)) (toLowerCase q).

Definition matchesStatus (f : string) (r : FlattenedSoftwareVersion) : bool :=
  if negb (f == "all") then
    if f == "expired" then status r == "Expired"
    else if f == "critical" then status r == "Critical"
    else if f == "warning" then status r == "Warning"
    else if f == "notice" then status r == "Notice"
    else if f == "active" then status r == "Active"
    else true
  else true.

Definition matchesSoftware (f : string) (r : FlattenedSoftwareVersion) : bool :=
  if negb (f == "all") then name r == f else true.

Definition filteredData (s : State) : list FlattenedSoftwareVersion :=
  filter (fun r => matchesSearch (searchQuery s) r
                   && matchesStatus (statusFilter s) r
                   && matchesSoftware (softwareFilter s) r)
         (flattenedData s).

Definition sortedData (s : State) : list FlattenedSoftwareVersion :=
  Js.sort (compare (sortConfig s)) (filteredData s).

Definition totalPages (s : State) : Z :=
  Js.Math_ceil_div (Z.of_nat (length (filteredData s))) (itemsPerPage s).

Definition paginatedData (s : State) : list FlattenedSoftwareVersion :=
  Js.slice ((currentPage s - 1) * itemsPerPage s)
           (currentPage s * itemsPerPage s)
           (sortedData s).

(** *** State transitions *)

Definition with_currentPage (p : Z) (s : State) : State :=
  {| flattenedData := flattenedData s; searchQuery := searchQuery s;
     statusFilter := statusFilter s; softwareFilter := softwareFilter s;
     sortConfig := sortConfig s; currentPage := p;
     itemsPerPage := itemsPerPage s |}.

Definition with_searchQuery (q : string) (s : State) : State :=
  {| flattenedData := flattenedData s; searchQuery := q;
     statusFilter := statusFilter s; softwareFilter := softwareFilter s;
     sortConfig := sortConfig s; currentPage := currentPage s;
     itemsPerPage := itemsPerPage s |}.

Definition with_statusFilter (f : string) (s : State) : State :=
  {| flattenedData := flattenedData s; searchQuery := searchQuery s;
     statusFilter := f; softwareFilter := softwareFilter s;
     sortConfig := sortConfig s; currentPage := currentPage s;
     itemsPerPage := itemsPerPage s |}.

Definition with_softwareFilter (f : string) (s : State) : State :=
  {| flattenedData := flattenedData s; searchQuery := searchQuery s;
     statusFilter := statusFilter s; softwareFilter := f;
     sortConfig := sortConfig s; currentPage := currentPage s;
     itemsPerPage := itemsPerPage s |}.

Definition with_sortConfig (c : SortConfig) (s : State) : State :=
  {| flattenedData := flattenedData s; searchQuery := searchQuery s;
     statusFilter := statusFilter s; softwareFilter := softwareFilter s;
     sortConfig := c; currentPage := currentPage s;
     itemsPerPage := itemsPerPage s |}.

(** The updater passed to [setSortConfig] by [handleSortChange]. *)
Definition toggle (k : string) (prev : SortConfig) : SortConfig :=
  {| key := k;
     dir := if (key prev == k) && direction_eqb (dir prev) asc
            then desc else asc |}.

Definition handleSortChange (k : string) (s : State) : State :=
  with_sortConfig (toggle k (sortConfig s)) s.

(** What the user can do on the page. *)
Inductive Event : Type :=
| SetSearchQuery (q : string)
| SetStatusFilter (f : string)        (* also [scrollToTableWithFilter] *)
| SetSoftwareFilter (f : string)
| SortBy (k : string)
| GoToPage (p : Z)                    (* First, a page number, the select *)
| Previous
| Next
| Last.

Definition handle (e : Event) (s : State) : State :=
  match e with
  | SetSearchQuery q => with_searchQuery q s
  | SetStatusFilter f => with_statusFilter f s
  | SetSoftwareFilter f => with_softwareFilter f s
  | SortBy k => handleSortChange k s
  | GoToPage p => with_currentPage p s
  | Previous => with_currentPage (Z.max (currentPage s - 1) 1) s
  | Next => with_currentPage (Z.min (currentPage s + 1) (totalPages s)) s
  | Last => with_currentPage (totalPages s) s
  end.

(** The dependency list of the effect "Reset to first page when filters
    change". *)
Definition filters_changed (prev next : State) : bool :=
  negb ((searchQuery prev == searchQuery next)
        && (statusFilter prev == statusFilter next)
        && (softwareFilter prev == softwareFilter next)).

(** One interaction: the handler runs, the page renders, and the effect
    fires when one of its dependencies changed. *)
Definition step (s : State) (e : Event) : State :=
  let s' := handle e s in
  if filters_changed s s' then with_currentPage 1 s' else s'.

Definition initial (data : list FlattenedSoftwareVersion) : State :=
  {| flattenedData := data; searchQuery := ""; statusFilter := "all";
     softwareFilter := "all";
     sortConfig := {| key := "daysRemaining"; dir := asc |};
     currentPage := 1; itemsPerPage := 20 |}.

End WithRuntime.

End Eol.

(* ===================================================================== *)
(** ** Data-breach page *)
(* ===================================================================== *)

Module Leaks.

Record DataLeak : Type := {
  domain : string;
  breach_date : Js.field;
  data_leaked : string;
  leak_count : Js.number;
  description : string;
  name : string;
  references : list string
}.

Record DateRange : Type := { startDate : string; endDate : string }.

Record SortConfig : Type := { key : string; dir : direction }.

Record State : Type := {
  dataLeaks : list DataLeak;
  searchQuery : string;
  dataTypeFilter : string;
  dateRangeFilter : DateRange;
  sortConfig : SortConfig;
  currentPage : Z;
  itemsPerPage : Z
}.

Section WithRuntime.
Context {rt : Runtime}.

Definition get (r : DataLeak) (k : string) : option prim :=
  if k == "domain" then Some (PStr (domain r))
  else if k == "breach_date"
  then match breach_date r with Js.Text s => Some (PStr s) | _ => None end
  else if k == "data_leaked" then Some (PStr (data_leaked r))
  else if k == "leak_count" then Some (PNum (leak_count r))
  else if k == "description" then Some (PStr (description r))
  else if k == "name" then Some (PStr (name r))
  else if k == "references" then Some (PArr (references r))
  else None.

Definition matchesSearch (q : string) (leak : DataLeak) : bool :=
  Str.includes (toLowerCase (name leak)) (toLowerCase q)
  || Str.includes (toLowerCase (domain leak)) (toLowerCase q)
  || Str.includes (toLowerCase (data_leaked leak)) (toLowerCase q).

Definition matchesDataType (f : string) (leak : DataLeak) : bool :=
  Str.includes (toLowerCase (data_leaked leak)) (toLowerCase f).

(** [new Date(leak.breach_date) >= startDate] *)
Definition onOrAfter (bound : string) (leak : DataLeak) : bool :=
  Js.ge (Js.of_time (Date.of_field (breach_date leak)))
        (Js.of_time (Date.parse bound)).

(** [new Date(leak.breach_date) <= endDate] *)
Definition onOrBefore (bound : string) (leak : DataLeak) : bool :=
  Js.le (Js.of_time (Date.of_field (breach_date leak)))
        (Js.of_time (Date.parse bound)).

(** The date-range part of the filter effect, as a predicate on one
    record: each bound filters only when its string is non-empty. *)
Definition inDateRange (range : DateRange) (leak : DataLeak) : bool :=
  (if Str.truthy (startDate range) then onOrAfter (startDate range) leak
   else true)
  && (if Str.truthy (endDate range) then onOrBefore (endDate range) leak
      else true).

(** The comparator of the filter effect: a value that is missing makes
    both comparisons false. *)
Definition sort_value (k : string) (r : DataLeak) : option prim :=
  if k == "breach_date"
  then Some (PNum (Js.of_time (Date.of_field (breach_date r))))
  else if k == "leak_count" then Some (PNum (leak_count r))
  else get r k.

Definition value_lt (a b : option prim) : bool :=
  match a, b with
  | Some x, Some y => prim_lt x y
  | Some x, None => Js.lt (ToNumber x) Js.NaN
  | None, Some y => Js.lt Js.NaN (ToNumber y)
  | None, None => false
  end.

Definition compare (cfg : SortConfig) (a b : DataLeak) : Z :=
  let aValue := sort_value (key cfg) a in
  let bValue := sort_value (key cfg) b in
  if value_lt aValue bValue
  then match dir cfg with asc => -1 | desc => 1 end
  else if value_lt bValue aValue
  then match dir cfg with asc => 1 | desc => -1 end
  else 0.

(** The list handed to [setFilteredLeaks] by the filter effect. *)
Definition filteredLeaks (s : State) : list DataLeak :=
  let results := dataLeaks s in
  let results :=
    if Str.truthy (searchQuery s)
    then filter (matchesSearch (searchQuery s)) results else results in
  let results :=
    if negb (dataTypeFilter s == "all")
    then filter (matchesDataType (dataTypeFilter s)) results else results in
  let results :=
    if Str.truthy (startDate (dateRangeFilter s))
    then filter (onOrAfter (startDate (dateRangeFilter s))) results
    else results in
  let results :=
    if Str.truthy (endDate (dateRangeFilter s))
    then filter (onOrBefore (endDate (dateRangeFilter s))) results
    else results in
  Js.sort (compare (sortConfig s)) results.

Definition totalPages (s : State) : Z :=
  Js.Math_ceil_div (Z.of_nat (length (filteredLeaks s))) (itemsPerPage s).

Definition paginatedData (s : State) : list DataLeak :=
  Js.slice ((currentPage s - 1) * itemsPerPage s)
           (currentPage s * itemsPerPage s)
           (filteredLeaks s).

(** *** State transitions *)

Definition with_currentPage (p : Z) (s : State) : State :=
  {| dataLeaks := dataLeaks s; searchQuery := searchQuery s;
     dataTypeFilter := dataTypeFilter s;
     dateRangeFilter := dateRangeFilter s; sortConfig := sortConfig s;
     currentPage := p; itemsPerPage := itemsPerPage s |}.

Definition with_filters (q f : string) (range : DateRange) (s : State)
  : State :=
  {| dataLeaks := dataLeaks s; searchQuery := q; dataTypeFilter := f;
     dateRangeFilter := range; sortConfig := sortConfig s;
     currentPage := currentPage s; itemsPerPage := itemsPerPage s |}.

Definition with_sortConfig (c : SortConfig) (s : State) : State :=
  {| dataLeaks := dataLeaks s; searchQuery := searchQuery s;
     dataTypeFilter := dataTypeFilter s;
     dateRangeFilter := dateRangeFilter s; sortConfig := c;
     currentPage := currentPage s; itemsPerPage := itemsPerPage s |}.

Definition toggle (k : string) (prev : SortConfig) : SortConfig :=
  {| key := k;
     dir := if (key prev == k) && direction_eqb (dir prev) asc
            then desc else asc |}.

Definition handleSortChange (k : string) (s : State) : State :=
  with_sortConfig (toggle k (sortConfig s)) s.

Inductive Event : Type :=
| SetSearchQuery (q : string)
| SetDataTypeFilter (f : string)
| SetStartDate (d : string)
| SetEndDate (d : string)
| ResetFilters
| SortBy (k : string)
| GoToPage (p : Z)
| Previous
| Next
| Last.

Definition handle (e : Event) (s : State) : State :=
  match e with
  | SetSearchQuery q =>
      with_filters q (dataTypeFilter s) (dateRangeFilter s) s
  | SetDataTypeFilter f =>
      with_filters (searchQuery s) f (dateRangeFilter s) s
  | SetStartDate d =>
      with_filters (searchQuery s) (dataTypeFilter s)
        {| startDate := d; endDate := endDate (dateRangeFilter s) |} s
  | SetEndDate d =>
      with_filters (searchQuery s) (dataTypeFilter s)
        {| startDate := startDate (dateRangeFilter s); endDate := d |} s
  | ResetFilters =>
      with_filters "" "all" {| startDate := ""; endDate := "" |} s
  | SortBy k => handleSortChange k s
  | GoToPage p => with_currentPage p s
  | Previous => with_currentPage (Z.max (currentPage s - 1) 1) s
  | Next => with_currentPage (Z.min (currentPage s + 1) (totalPages s)) s
  | Last => with_currentPage (totalPages s) s
  end.

Definition filters_changed (prev next : State) : bool :=
  negb ((searchQuery prev == searchQuery next)
        && (dataTypeFilter prev == dataTypeFilter next)
        && (startDate (dateRangeFilter prev)
            == startDate (dateRangeFilter next))
        && (endDate (dateRangeFilter prev)
            == endDate (dateRangeFilter next))).

Definition step (s : State) (e : Event) : State :=
  let s' := handle e s in
  if filters_changed s s' then with_currentPage 1 s' else s'.

Definition initial (data : list DataLeak) : State :=
  {| dataLeaks := data; searchQuery := ""; dataTypeFilter := "all";
     dateRangeFilter := {| startDate := ""; endDate := "" |};
     sortConfig := {| key := "breach_date"; dir := desc |};
     currentPage := 1; itemsPerPage := 10 |}.

End WithRuntime.

End Leaks.

(* ===================================================================== *)
(** ** Web3 threats page *)
(* ===================================================================== *)

Module Web3.

Record ExploitDetail : Type := {
  project_name : option string;
  quick_summary : option string;
  details : option string;
  block_data : option (list string);
  proof_link : option string;
  funds_lost : option Z;
  date : option string;
  root_cause : option string;
  scam_type : option string;
  website_link : option string;
  name_categories : option string;
  chain : option string;
  token_name : option string;
  token_address : option string
}.

Inductive TimeFilter : Type := M3 | M6 | Y1 | All.

Record SortConfig : Type := { key : string; dir : direction }.

(** One point of the losses chart. *)
Record Point : Type := { label : string; value : Z }.

Record State : Type := {
  exploits : list ExploitDetail;
  currentPage : Z;
  timeFilter : TimeFilter;
  searchQuery : string;
  sortConfig : SortConfig;
  typeFilter : string;
  categoryFilter : string;
  projectFilter : string
}.

Section WithRuntime.
Context {rt : Runtime}.

(** [getStartDate]: the lower bound of the selected time range; [now] is
    the time value of [new Date()]. *)
Definition getStartDate (now : Z) (tf : TimeFilter) : option Z :=
  match tf with
  | M3 => Date.setMonth now (Date.getMonth now - 3)
  | M6 => Date.setMonth now (Date.getMonth now - 6)
  | Y1 => Date.setFullYear now (Date.getFullYear now - 1)
  | All => Some 0
  end.

(** The element at index [i] of [s.split('-').map(Number)]. *)
Definition component (s : string) (i : nat) : Js.number :=
  match nth_error (Str.split "-" s) i with
  | Some part => Number part
  | None => Js.NaN
  end.

Definition minus_one (n : Js.number) : Js.number :=
  match n with
  | Js.Num z => Js.Num (z - 1)
  | other => other
  end.

(** The date value a date string stands for in the time-range filter and
    in the date sort: [YYYY-MM-DD] is taken apart and built as a local
    date, anything else goes through [new Date(string)]. *)
Definition exploitDate (s : string) : option Z :=
  if Str.is_ymd_pattern s
  then Date.of_local_ymd (component s 0) (minus_one (component s 1))
                         (component s 2)
  else Date.parse s.

(** The leading component of the date, the [year] of the 2015 guard. *)
Definition leading_year (s : string) : Js.number := component s 0.

(** The callback of the [filter] in [getFilteredData]. *)
Definition inTimeRange (startDate : option Z) (exploit : ExploitDetail)
  : bool :=
  match date exploit with
  | None => false
  | Some s =>
      if negb (Str.truthy s) then false
      else if Js.lt (leading_year s) (Js.Num 2015) then false
      else
        match exploitDate s with
        | None => false
        | Some t => Js.ge (Js.Num t) (Js.of_time startDate)
        end
  end.

Definition getFilteredData (now : Z) (s : State) : list ExploitDetail :=
  match exploits s with
  | [] => []
  | _ => filter (inTimeRange (getStartDate now (timeFilter s))) (exploits s)
  end.

(** [field?.toLowerCase().includes(query)], falsy when the field is
    missing. *)
Definition field_includes (field : option string) (query : string) : bool :=
  match field with
  | Some v => Str.includes (toLowerCase v) query
  | None => false
  end.

Definition matchesSearch (q : string) (exploit : ExploitDetail) : bool :=
  if negb (Str.truthy (trim q)) then true
  else
    let query := toLowerCase q in
    field_includes (project_name exploit) query
    || field_includes (quick_summary exploit) query
    || field_includes (scam_type exploit) query.

Definition field_is (field : option string) (v : string) : bool :=
  match field with
  | Some x => x == v
  | None => false
  end.

Definition matchesType (f : string) (exploit : ExploitDetail) : bool :=
  if f == "all" then true else field_is (scam_type exploit) f.

Definition matchesCategory (f : string) (exploit : ExploitDetail) : bool :=
  if f == "all" then true
  else
    match name_categories exploit with
    | Some cats => existsb (fun cat => trim cat == f) (Str.split "," cats)
    | None => false
    end.

Definition matchesProject (f : string) (exploit : ExploitDetail) : bool :=
  if f == "all" then true else field_is (project_name exploit) f.

Definition filteredExploits (now : Z) (s : State) : list ExploitDetail :=
  getFilteredData now s.

Definition searchFilteredExploits (now : Z) (s : State) :=
  filter (matchesSearch (searchQuery s)) (filteredExploits now s).

Definition typeFilteredExploits (now : Z) (s : State) :=
  filter (matchesType (typeFilter s)) (searchFilteredExploits now s).

Definition categoryFilteredExploits (now : Z) (s : State) :=
  filter (matchesCategory (categoryFilter s)) (typeFilteredExploits now s).

Definition projectFilteredExploits (now : Z) (s : State) :=
  filter (matchesProject (projectFilter s)) (categoryFilteredExploits now s).

(** [exploit.funds_lost ?? 0] *)
Definition funds (exploit : ExploitDetail) : Z :=
  match funds_lost exploit with
  | Some v => v
  | None => 0
  end.

(** [list.reduce((sum, exploit) => sum + (exploit.funds_lost ?? 0), 0)] *)
Definition sum_funds (l : list ExploitDetail) : Z :=
  fold_left (fun sum exploit => sum + funds exploit) l 0.

Definition totalLosses (now : Z) (s : State) : Z :=
  sum_funds (projectFilteredExploits now s).

(** [record[key]] *)
Definition get (r : ExploitDetail) (k : string) : option prim :=
  let str := option_map PStr in
  if k == "project_name" then str (project_name r)
  else if k == "quick_summary" then str (quick_summary r)
  else if k == "details" then str (details r)
  else if k == "block_data" then option_map PArr (block_data r)
  else if k == "proof_link" then str (proof_link r)
  else if k == "funds_lost"
  then option_map (fun z => PNum (Js.Num z)) (funds_lost r)
  else if k == "date" then str (date r)
  else if k == "root_cause" then str (root_cause r)
  else if k == "scam_type" then str (scam_type r)
  else if k == "website_link" then str (website_link r)
  else if k == "name_categories" then str (name_categories r)
  else if k == "chain" then str (chain r)
  else if k == "token_name" then str (token_name r)
  else if k == "token_address" then str (token_address r)
  else None.

(** [String(a.date || '')] *)
Definition date_string (r : ExploitDetail) : string :=
  match date r with Some s => s | None => "" end.

(** [a.token_name?.split(',')[0]?.trim() || ''] *)
Definition first_token (r : ExploitDetail) : string :=
  match token_name r with
  | Some names =>
      match Str.split "," names with
      | first :: _ => trim first
      | [] => ""
      end
  | None => ""
  end.

Definition directed (d : direction) (x y : string) : Z :=
  match d with
  | asc => localeCompare x y
  | desc => localeCompare y x
  end.

(** The comparator of [sortedExploits]. *)
Definition compare (cfg : SortConfig) (a b : ExploitDetail) : Z :=
  match get a (key cfg) with
  | None => match dir cfg with asc => -1 | desc => 1 end
  | Some aValue =>
      match get b (key cfg) with
      | None => match dir cfg with asc => 1 | desc => -1 end
      | Some bValue =>
          if key cfg == "date" then
            match exploitDate (date_string a), exploitDate (date_string b) with
            | Some dateA, Some dateB =>
                match dir cfg with
                | asc => dateA - dateB
                | desc => dateB - dateA
                end
            | _, _ => directed (dir cfg) (date_string a) (date_string b)
            end
          else if key cfg == "funds_lost" then
            match dir cfg with
            | asc => funds a - funds b
            | desc => funds b - funds a
            end
          else if key cfg == "token_name" then
            directed (dir cfg) (first_token a) (first_token b)
          else
            match aValue, bValue with
            | PStr x, PStr y => directed (dir cfg) x y
            | _, _ => 0
            end
      end
  end.

Definition sortedExploits (now : Z) (s : State) : list ExploitDetail :=
  Js.sort (compare (sortConfig s)) (projectFilteredExploits now s).

(** "Mon YYYY", the bucket of the losses chart. *)
Definition monthYear (t : option Z) : string :=
  match t with
  | Some t => month_short (Date.getMonth t) ++ " " ++ Str.of_Z (Date.getFullYear t)
  | None => "Invalid Date NaN"
  end.

(** [existingMonth.value += amount] on the first point with that label. *)
Fixpoint add_to (lbl : string) (amount : Z) (acc : list Point) : list Point :=
  match acc with
  | [] => []
  | p :: acc' =>
      if label p == lbl
      then {| label := label p; value := value p + amount |} :: acc'
      else p :: add_to lbl amount acc'
  end.

(** The reducer of [lossesOverTimeData]. *)
Definition bucket (acc : list Point) (exploit : ExploitDetail) : list Point :=
  match date exploit with
  | None => acc
  | Some s =>
      if negb (Str.truthy s) then acc
      else
        let lbl := monthYear (Date.parse s) in
        match Js.find (fun item => label item == lbl) acc with
        | Some _ => add_to lbl (funds exploit) acc
        | None => acc ++ [{| label := lbl; value := funds exploit |}]
        end
  end.

(** The comparator of the chart: the difference of the parsed labels; a
    [NaN] difference counts as 0 for [sort]. *)
Definition compare_points (a b : Point) : Z :=
  match Date.parse (label a), Date.parse (label b) with
  | Some dateA, Some dateB => dateA - dateB
  | _, _ => 0
  end.

Definition lossesOverTime (l : list ExploitDetail) : list Point :=
  Js.sort compare_points (fold_left bucket l []).

Definition lossesOverTimeData (now : Z) (s : State) : list Point :=
  lossesOverTime (filteredExploits now s).

(** The page size is the constant 10 of the page; the view takes it as an
    argument. *)
Definition pageSize : Z := 10.

Definition totalPages (size : Z) (now : Z) (s : State) : Z :=
  Js.Math_ceil_div (Z.of_nat (length (sortedExploits now s))) size.

Definition paginatedExploits (size : Z) (now : Z) (s : State)
  : list ExploitDetail :=
  Js.slice ((currentPage s - 1) * size) (currentPage s * size)
           (sortedExploits now s).

(** What the page hands to its table, its statistics cards and its
    chart. *)
Record View : Type := {
  rows : list ExploitDetail;
  pages : Z;
  incidents : nat;
  losses : Z;
  chart : list Point
}.

Definition render (size : Z) (now : Z) (s : State) : View :=
  {| rows := paginatedExploits size now s;
     pages := totalPages size now s;
     incidents := length (filteredExploits now s);
     losses := totalLosses now s;
     chart := lossesOverTimeData now s |}.

(** *** State transitions *)

Definition with_currentPage (p : Z) (s : State) : State :=
  {| exploits := exploits s; currentPage := p; timeFilter := timeFilter s;
     searchQuery := searchQuery s; sortConfig := sortConfig s;
     typeFilter := typeFilter s; categoryFilter := categoryFilter s;
     projectFilter := projectFilter s |}.

Definition with_exploits (l : list ExploitDetail) (s : State) : State :=
  {| exploits := l; currentPage := currentPage s; timeFilter := timeFilter s;
     searchQuery := searchQuery s; sortConfig := sortConfig s;
     typeFilter := typeFilter s; categoryFilter := categoryFilter s;
     projectFilter := projectFilter s |}.

Definition with_timeFilter (tf : TimeFilter) (s : State) : State :=
  {| exploits := exploits s; currentPage := currentPage s; timeFilter := tf;
     searchQuery := searchQuery s; sortConfig := sortConfig s;
     typeFilter := typeFilter s; categoryFilter := categoryFilter s;
     projectFilter := projectFilter s |}.

Definition with_searchQuery (q : string) (s : State) : State :=
  {| exploits := exploits s; currentPage := currentPage s;
     timeFilter := timeFilter s; searchQuery := q;
     sortConfig := sortConfig s; typeFilter := typeFilter s;
     categoryFilter := categoryFilter s; projectFilter := projectFilter s |}.

Definition with_sortConfig (c : SortConfig) (s : State) : State :=
  {| exploits := exploits s; currentPage := currentPage s;
     timeFilter := timeFilter s; searchQuery := searchQuery s;
     sortConfig := c; typeFilter := typeFilter s;
     categoryFilter := categoryFilter s; projectFilter := projectFilter s |}.

Definition with_typeFilter (f : string) (s : State) : State :=
  {| exploits := exploits s; currentPage := currentPage s;
     timeFilter := timeFilter s; searchQuery := searchQuery s;
     sortConfig := sortConfig s; typeFilter := f;
     categoryFilter := categoryFilter s; projectFilter := projectFilter s |}.

Definition with_categoryFilter (f : string) (s : State) : State :=
  {| exploits := exploits s; currentPage := currentPage s;
     timeFilter := timeFilter s; searchQuery := searchQuery s;
     sortConfig := sortConfig s; typeFilter := typeFilter s;
     categoryFilter := f; projectFilter := projectFilter s |}.

Definition toggle (k : string) (prev : SortConfig) : SortConfig :=
  {| key := k;
     dir := if (key prev == k) && direction_eqb (dir prev) asc
            then desc else asc |}.

Definition handleSortChange (k : string) (s : State) : State :=
  with_currentPage 1 (with_sortConfig (toggle k (sortConfig s)) s).

Inductive Event : Type :=
| SetTimeFilter (tf : TimeFilter)
| SearchInput (q : string)
| SelectCategory (f : string)
| SelectType (f : string)
| SortBy (k : string)
| GoToPage (p : Z)
| Previous
| Next (now : Z)
| Last (now : Z).

Definition step (s : State) (e : Event) : State :=
  match e with
  | SetTimeFilter tf => with_timeFilter tf s
  | SearchInput q => with_currentPage 1 (with_searchQuery q s)
  | SelectCategory f => with_currentPage 1 (with_categoryFilter f s)
  | SelectType f => with_currentPage 1 (with_typeFilter f s)
  | SortBy k => handleSortChange k s
  | GoToPage p => with_currentPage p s
  | Previous => with_currentPage (Z.max (currentPage s - 1) 1) s
  | Next now =>
      with_currentPage
        (Z.min (currentPage s + 1) (totalPages pageSize now s)) s
  | Last now => with_currentPage (totalPages pageSize now s) s
  end.

Definition initial (data : list ExploitDetail) : State :=
  {| exploits := data; currentPage := 1; timeFilter := M3;
     searchQuery := ""; sortConfig := {| key := "date"; dir := desc |};
     typeFilter := "all"; categoryFilter := "all"; projectFilter := "all" |}.

End WithRuntime.

End Web3.

(* ===================================================================== *)
(** ** Edge proxy worker *)
(* ===================================================================== *)

Module Proxy.

(** The bindings of the worker; a binding that is not set is [None]. *)
Record Env : Type := {
  UPSTREAM_PROXY_TOKEN : option string;
  ORIGIN_BASE_URL : option string
}.

(** A header list with lower-case names, as a [Headers] object keeps it. *)
Definition Headers : Type := list (string * string).

Definition headers_get (name : string) (h : Headers) : option string :=
  match List.find (fun entry => fst entry == name) h with
  | Some entry => Some (snd entry)
  | None => None
  end.

Definition headers_delete (name : string) (h : Headers) : Headers :=
  filter (fun entry => negb (fst entry == name)) h.

(** [headers.set(name, value)]: the first entry of that name takes the
    value and the later ones go; a new name is appended. *)
Fixpoint headers_set (name value : string) (h : Headers) : Headers :=
  match h with
  | [] => [(name, value)]
  | entry :: rest =>
      if fst entry == name
      then (name, value) :: headers_delete name rest
      else entry :: headers_set name value rest
  end.

(** The incoming request: the [x-upstream-token] header ([None] when it is
    absent) and the path of its URL. *)
Record Request : Type := {
  x_upstream_token : option string;
  pathname : string
}.

(** What [fetch(target, ...)] resolves to. *)
Record Upstream : Type := {
  up_status : Z;
  up_headers : Headers;
  up_body : string
}.

(** [upstream.ok] *)
Definition ok (u : Upstream) : bool :=
  (200 <=? up_status u) && (up_status u <=? 299).

Record Response : Type := {
  status : Z;
  headers : Headers;
  body : string
}.

(** What can be thrown while a request is handled. *)
Inductive Exception : Type :=
| TypeError
| RangeError
| Rejected.                          (* the promise of [fetch] is rejected *)

(** A call either returns a response or throws. *)
Inductive Outcome : Type :=
| Returns (r : Response)
| Throws (e : Exception).

(** The worker either answers at once or asks the origin for [target] and
    answers from what comes back. *)
Inductive Action : Type :=
| Respond (r : Outcome)
| Forward (target : string) (k : Upstream -> Outcome).

Definition plain (text : string) (code : Z) : Response :=
  {| status := code;
     headers := [("content-type", "text/plain;charset=UTF-8")];
     body := text |}.

(** The statuses that admit no body. *)
Definition null_body_status (code : Z) : bool :=
  (code =? 101) || (code =? 103) || (code =? 204) || (code =? 205)
  || (code =? 304).

(** [new Response(text, { status: code })] for a string [text]: the
    constructor throws a [RangeError] unless the status is from 200 to 599,
    and a [TypeError] when the status admits no body. *)
Definition new_Response (text : string) (code : Z) : Outcome :=
  if negb ((200 <=? code) && (code <=? 599)) then Throws RangeError
  else if null_body_status code then Throws TypeError
  else Returns (plain text code).

Definition option_truthy (v : option string) : bool :=
  match v with
  | Some s => Str.truthy s
  | None => false
  end.

(** The first guard: [env.UPSTREAM_PROXY_TOKEN] is set and the header is
    missing, empty or a different string. *)
Definition unauthorized (request : Request) (env : Env) : bool :=
  match UPSTREAM_PROXY_TOKEN env with
  | Some token =>
      Str.truthy token
      && match x_upstream_token request with
         | Some provided => negb (Str.truthy provided) || negb (provided == token)
         | None => true
         end
  | None => false
  end.

(** [incoming.pathname.replace(/^\/+/, "")] *)
Definition path_of (request : Request) : string :=
  Str.drop_leading "/" (pathname request).

(** What the worker makes of the answer of the origin. *)
Definition relay (upstream : Upstream) : Outcome :=
  if negb (ok upstream)
  then new_Response "Upstream unavailable" (up_status upstream)
  else Returns {| status := 200;
                  headers :=
                    headers_delete "set-cookie"
                      (headers_set "cache-control" "public, max-age=300"
                         (up_headers upstream));
                  body := up_body upstream |}.

(** The [fetch] handler of the worker. *)
Definition fetch (request : Request) (env : Env) : Action :=
  if unauthorized request env then Respond (new_Response "Unauthorized" 401)
  else
    let path := path_of request in
    if negb (Str.is_year_json path) then Respond (new_Response "Not Found" 404)
    else
      match ORIGIN_BASE_URL env with
      | None => Respond (new_Response "Proxy not configured" 500)
      | Some origin =>
          if negb (Str.truthy origin)
          then Respond (new_Response "Proxy not configured" 500)
          else Forward (Str.drop_trailing "/" origin ++ "/" ++ path) relay
      end.

(** What leaves the handler when the origin behaves as [net]: [net target]
    is the response [fetch(target, ...)] resolves to, or [None] when its
    promise is rejected. *)
Definition run (net : string -> option Upstream) (a : Action) : Outcome :=
  match a with
  | Respond r => r
  | Forward target k =>
      match net target with
      | Some upstream => k upstream
      | None => Throws Rejected
      end
  end.

End Proxy.

(* ===================================================================== *)
(** ** A reference engine *)
(* ===================================================================== *)

(** An English-language engine at a fixed offset from UTC, used to run the
    pages on concrete data.  Its legacy date parser reads "Mon YYYY" as the
    first of that month, local time, and rejects everything else. *)
Module Engine.

Definition month_names : list string :=
  ["Jan"; "Feb"; "Mar"; "Apr"; "May"; "Jun";
   "Jul"; "Aug"; "Sep"; "Oct"; "Nov"; "Dec"].

Definition month_name (m : Z) : string :=
  nth (Z.to_nat m) month_names "".

Fixpoint index_of (x : string) (l : list string) (i : Z) : option Z :=
  match l with
  | [] => None
  | y :: l' => if x == y then Some i else index_of x l' (i + 1)
  end.

Definition parse_month_year (tza : Z) (s : string) : option Z :=
  match Str.split " " s with
  | [mon; yr] =>
      match index_of mon month_names 0 with
      | Some m =>
          if Str.truthy yr && Str.all_digits yr
          then Some (Date.MakeDate (Date.MakeDay (Str.decimal yr) m 1) 0 - tza)
          else None
      | None => None
      end
  | _ => None
  end.

Definition lower_char (c : ascii) : ascii :=
  let n := nat_of_ascii c in
  if (Nat.leb 65 n && Nat.leb n 90)%bool then ascii_of_nat (n + 32) else c.

Fixpoint lower (s : string) : string :=
  match s with
  | EmptyString => EmptyString
  | String c s' => String (lower_char c) (lower s')
  end.

Definition code_unit_compare (a b : string) : Z :=
  match String.compare a b with
  | Lt => -1
  | Eq => 0
  | Gt => 1
  end.

Definition whole_days (left right : option Z) : Js.number :=
  match left, right with
  | Some l, Some r => Js.Num (Z.quot (l - r) Date.msPerDay)
  | _, _ => Js.NaN
  end.

Definition english (tza : Z) : Runtime :=
  {| LocalTZA := tza;
     Date_parse_fallback := parse_month_year tza;
     StringToNumber_fallback := fun _ => Js.NaN;
     month_short := month_name;
     localeCompare := code_unit_compare;
     toLowerCase := lower;
     trim := fun s => Str.drop_trailing " " (Str.drop_leading " " s);
     differenceInDays := whole_days |}.

(** UTC, and New York in winter (five hours behind UTC). *)
Definition utc : Runtime := english 0.
Definition new_york : Runtime := english (- (5 * 3600000)).

End Engine.

(* ===================================================================== *)
(** ** Vocabulary of the statements *)
(* ===================================================================== *)

Local Open Scope list_scope.

Module Spec.

Section WithRuntime.
Context {rt : Runtime}.

(** A record of the end-of-life table has no value under the sort key
    ([null] or [undefined]). *)
Definition eol_missing (k : string) (r : Eol.FlattenedSoftwareVersion)
  : bool :=
  match Eol.sort_value k r with
  | None => true
  | Some _ => false
  end.

(** The key of the record is a date string that does not parse. *)
Definition eol_unparsable (k : string) (r : Eol.FlattenedSoftwareVersion)
  : bool :=
  match Eol.sort_value k r with
  | Some (PNum Js.NaN) => true
  | _ => false
  end.

(** The key of the record is a number that can be compared. *)
Definition eol_comparable (k : string) (r : Eol.FlattenedSoftwareVersion)
  : bool :=
  match Eol.sort_value k r with
  | Some (PNum (Js.Num _)) => true
  | _ => false
  end.

Definition web3_missing (k : string) (r : Web3.ExploitDetail) : bool :=
  match Web3.get r k with
  | None => true
  | Some _ => false
  end.

End WithRuntime.

(** The number of pages the specification asks for: the quotient of the
    record count by the page size, rounded up. *)
Definition ceiling (count size : Z) : Z := (count + size - 1) / size.

(** The three components of a date string of the form [YYYY-MM-DD]. *)
Definition year_of (s : string) : Z := Str.decimal (substring 0 4 s).
Definition month_of (s : string) : Z := Str.decimal (substring 5 2 s).
Definition day_of (s : string) : Z := Str.decimal (substring 8 2 s).

(** Midnight, local time, at the start of day [d] of month [m] (1 = January)
    of year [y]; a year below 100 counts from 1900, as in [new Date(y, m, d)]. *)
Definition local_midnight {rt : Runtime} (y m d : Z) : Z :=
  Date.MakeDay (if y <? 100 then 1900 + y else y) (m - 1) d * Date.msPerDay
  - LocalTZA.

(** A date-range bound of the data-breach page is active. *)
Definition bound_active (s : Leaks.State) : bool :=
  Str.truthy (Leaks.startDate (Leaks.dateRangeFilter s))
  || Str.truthy (Leaks.endDate (Leaks.dateRangeFilter s)).

(** The breach date of a leak cannot be read as a date: the key is absent,
    or its string does not parse. *)
Definition leaks_date_unreadable {rt : Runtime} (leak : Leaks.DataLeak)
  : bool :=
  match Leaks.breach_date leak with
  | Js.Absent => true
  | Js.Null => false
  | Js.Text s => match Date.parse s with None => true | Some _ => false end
  end.

(** The instant [t] lies within the active bounds of the date range; an
    active bound that is no date admits no instant. *)
Definition within_bounds {rt : Runtime} (t : Z) (s : Leaks.State) : bool :=
  (if Leaks.startDate (Leaks.dateRangeFilter s) == "" then true
   else match Date.parse (Leaks.startDate (Leaks.dateRangeFilter s)) with
        | Some bound => bound <=? t
        | None => false
        end)
  && (if Leaks.endDate (Leaks.dateRangeFilter s) == "" then true
      else match Date.parse (Leaks.endDate (Leaks.dateRangeFilter s)) with
           | Some bound => t <=? bound
           | None => false
           end).

(** The criteria of the data-breach page other than the date range. *)
Definition leaks_other_criteria {rt : Runtime} (s : Leaks.State)
    (leak : Leaks.DataLeak) : bool :=
  (if Str.truthy (Leaks.searchQuery s)
   then Leaks.matchesSearch (Leaks.searchQuery s) leak else true)
  && (if negb (Leaks.dataTypeFilter s == "all")
      then Leaks.matchesDataType (Leaks.dataTypeFilter s) leak else true).

(** The date of an exploit is missing, empty, or stands for no date. *)
Definition web3_date_unusable {rt : Runtime} (e : Web3.ExploitDetail) : bool :=
  match Web3.date e with
  | None => true
  | Some s =>
      negb (Str.truthy s)
      || match Web3.exploitDate s with None => true | Some _ => false end
  end.

(** An exploit meets every active filter of the Web3 page. *)
Definition web3_matches {rt : Runtime} (now : Z) (s : Web3.State)
    (e : Web3.ExploitDetail) : bool :=
  Web3.inTimeRange (Web3.getStartDate now (Web3.timeFilter s)) e
  && Web3.matchesSearch (Web3.searchQuery s) e
  && Web3.matchesType (Web3.typeFilter s) e
  && Web3.matchesCategory (Web3.categoryFilter s) e
  && Web3.matchesProject (Web3.projectFilter s) e.


(** The leading component of the date of an exploit reads as a number
    below 2015. *)
Definition before_2015 {rt : Runtime} (e : Web3.ExploitDetail) : bool :=
  match Web3.date e with
  | Some s =>
      match Str.split "-" s with
      | year :: _ => Js.lt (Number year) (Js.Num 2015)
      | [] => false
      end
  | None => false
  end.

(** A token is configured and the request does not carry it. *)
Definition token_rejected (request : Proxy.Request) (env : Proxy.Env) : bool :=
  match Proxy.UPSTREAM_PROXY_TOKEN env with
  | Some token =>
      negb (token == "")
      && match Proxy.x_upstream_token request with
         | Some provided => negb (provided == token)
         | None => true
         end
  | None => false
  end.

(** A status of the origin outside 200..299 that a response with a text
    can carry: 300 to 599, except 304. *)
Definition relayed_status (code : Z) : bool :=
  (300 <=? code) && (code <=? 599) && negb (code =? 304).

Definition origin_configured (env : Proxy.Env) : bool :=
  match Proxy.ORIGIN_BASE_URL env with
  | Some origin => negb (origin == "")
  | None => false
  end.

(** The literal pattern [/{4 digits}.json] on the path of a request. *)
Definition year_file_path (pathname : string) : bool :=
  match pathname with
  | String "/" file => Str.is_year_json file
  | _ => false
  end.












(** The components of a [YYYY-MM-DD] string name a day of the calendar (of
    a year from 100 on: [new Date(y, m, d)] reads a smaller year as
    1900 + y). *)
Definition calendar_date (s : string) : bool :=
  (100 <=? year_of s)
  && (1 <=? month_of s) && (month_of s <=? 12)
  && (1 <=? day_of s)
  && (day_of s <=? Date.DaysInMonth (year_of s) (month_of s - 1)).

(** The filter state of each page. *)
Definition eol_filters (s : Eol.State) : string * string * string :=
  (Eol.searchQuery s, Eol.statusFilter s, Eol.softwareFilter s).

Definition leaks_filters (s : Leaks.State)
  : string * string * string * string :=
  (Leaks.searchQuery s, Leaks.dataTypeFilter s,
   Leaks.startDate (Leaks.dateRangeFilter s),
   Leaks.endDate (Leaks.dateRangeFilter s)).

(** The inputs of the Web3 table: its search box, its category and type
    selects and its sortable column headers. *)
Definition web3_table_input (e : Web3.Event) : bool :=
  match e with
  | Web3.SearchInput _ | Web3.SelectCategory _ | Web3.SelectType _
  | Web3.SortBy _ => true
  | _ => false
  end.

(** The records of page [page] when pages hold [size] records. *)
Definition window (A : Type) (page size : Z) (l : list A) : list A :=
  firstn (Z.to_nat size) (skipn (Z.to_nat ((page - 1) * size)) l).

End Spec.

(** Concrete records for running the pages. *)
Module Sample.

Definition exploit (project : string) (amount : option Z) (day : option string)
  : Web3.ExploitDetail :=
  {| Web3.project_name := Some project; Web3.quick_summary := None;
     Web3.details := None; Web3.block_data := None; Web3.proof_link := None;
     Web3.funds_lost := amount; Web3.date := day; Web3.root_cause := None;
     Web3.scam_type := Some "Exploit"; Web3.website_link := None;
     Web3.name_categories := None; Web3.chain := None;
     Web3.token_name := None; Web3.token_address := None |}.

(** Noon UTC on 1 March 2024, the clock of the examples. *)
Definition now : Z := 1709294400000.

(** The three records [{v:5},{v:null},{v:1}] of the specification, as
    exploits of January 2024 sorted by [funds_lost]. *)
Definition five_null_one : list Web3.ExploitDetail :=
  [ exploit "a" (Some 5) (Some "2024-01-15");
    exploit "b" None (Some "2024-01-15");
    exploit "c" (Some 1) (Some "2024-01-15") ].

Definition web3_state (data : list Web3.ExploitDetail) (k : string)
    (d : direction) : Web3.State :=
  {| Web3.exploits := data; Web3.currentPage := 1; Web3.timeFilter := Web3.All;
     Web3.searchQuery := ""; Web3.sortConfig := {| Web3.key := k; Web3.dir := d |};
     Web3.typeFilter := "all"; Web3.categoryFilter := "all";
     Web3.projectFilter := "all" |}.

Definition release (nm : string) (released : option string)
  : Eol.FlattenedSoftwareVersion :=
  {| Eol.version :=
       {| Eol.cycle := "1"; Eol.lts := None; Eol.releaseDate := released;
          Eol.eol := Some (PBool false); Eol.latest := None;
          Eol.latestReleaseDate := None; Eol.link := None;
          Eol.codename := None; Eol.support := None |};
     Eol.name := nm; Eol.displayName := (nm ++ " 1")%string;
     Eol.daysRemaining := Js.Infinity; Eol.status := "Active" |}.

Definition eol_state (data : list Eol.FlattenedSoftwareVersion) (k : string)
    (d : direction) (page size : Z) : Eol.State :=
  {| Eol.flattenedData := data; Eol.searchQuery := "";
     Eol.statusFilter := "all"; Eol.softwareFilter := "all";
     Eol.sortConfig := {| Eol.key := k; Eol.dir := d |};
     Eol.currentPage := page; Eol.itemsPerPage := size |}.

(** Twenty-five releases: two pages of twenty. *)
Definition many_releases : list Eol.FlattenedSoftwareVersion :=
  repeat (release "x" None) 25.

Definition leak_with (nm : string) (day : Js.field) : Leaks.DataLeak :=
  {| Leaks.domain := (nm ++ ".example")%string; Leaks.breach_date := day;
     Leaks.data_leaked := "Email addresses, Passwords";
     Leaks.leak_count := Js.Num 1000; Leaks.description := "";
     Leaks.name := nm; Leaks.references := [] |}.

(** A leak with a breach date, or with no [breach_date] key at all. *)
Definition leak (nm : string) (day : option string) : Leaks.DataLeak :=
  leak_with nm (match day with Some d => Js.Text d | None => Js.Absent end).

(** Eleven leaks: two pages of ten. *)
Definition many_leaks : list Leaks.DataLeak :=
  repeat (leak "x" (Some "2024-01-15")) 11.

(** Page 2 of the end-of-life table and of the data-breach table, reached
    with the Next button from the pages as they start. *)
Definition eol_page_two : Eol.State :=
  Eol.step (rt := Engine.utc) (Eol.initial many_releases) Eol.Next.

Definition leaks_page_two : Leaks.State :=
  Leaks.step (rt := Engine.utc) (Leaks.initial many_leaks) Leaks.Next.

(** The data-breach page with a start date set, holding a leak without a
    breach date and a leak of May 2024. *)
Definition undated_leak : Leaks.DataLeak := leak "undated" None.

Definition leaks_since_2024 : Leaks.State :=
  Leaks.step (rt := Engine.utc)
    (Leaks.initial [undated_leak; leak "dated" (Some "2024-05-05")])
    (Leaks.SetStartDate "2024-01-01").

Definition undated_exploit : Web3.ExploitDetail := exploit "undated" (Some 7) None.

(** The data-breach page with an end date set, holding a leak whose
    [breach_date] is [null] and a leak of May 2024. *)
Definition null_dated_leak : Leaks.DataLeak := leak_with "nulled" Js.Null.

Definition leaks_until_2024 : Leaks.State :=
  Leaks.step (rt := Engine.utc)
    (Leaks.initial [null_dated_leak; leak "dated" (Some "2024-05-05")])
    (Leaks.SetEndDate "2024-12-31").

(** An exploit of 2014 among the exploits of January 2024. *)
Definition exploit_of_2014 : Web3.ExploitDetail :=
  exploit "old" (Some 9) (Some "2014-06-01").

(** A version that reaches its end of life on the day of the clock. *)
Definition ends_today : Eol.SoftwareVersion :=
  {| Eol.cycle := "3.2"; Eol.lts := Some true;
     Eol.releaseDate := Some "2021-03-01";
     Eol.eol := Some (PStr "2024-03-01"); Eol.latest := Some "3.2.9";
     Eol.latestReleaseDate := Some "2024-01-10"; Eol.link := None;
     Eol.codename := None; Eol.support := None |}.

Definition version_ending (day : string) : Eol.SoftwareVersion :=
  {| Eol.cycle := "1"; Eol.lts := None; Eol.releaseDate := None;
     Eol.eol := Some (PStr day); Eol.latest := None;
     Eol.latestReleaseDate := None; Eol.link := None;
     Eol.codename := None; Eol.support := None |}.

(** Twenty-five releases of one product on the day of the clock: seven
    that end within ten days, seven that ended ten days ago and eleven that
    end in 2026; and the table over them on its second page. *)
Definition mixed_releases : list Eol.FlattenedSoftwareVersion :=
  Eol.processData (rt := Engine.utc) now
    [("alpha",
      repeat (version_ending "2024-03-11") 7
      ++ repeat (version_ending "2024-02-20") 7
      ++ repeat (version_ending "2026-01-01") 11)].

Definition mixed_page_two : Eol.State :=
  Eol.step (rt := Engine.utc) (Eol.initial mixed_releases) Eol.Next.

(** A request for [//2026.json] to a proxy without a token, and an origin
    that answers 200 with a cookie. *)
Definition doubled_slash : Proxy.Request :=
  {| Proxy.x_upstream_token := None; Proxy.pathname := "//2026.json" |}.

Definition open_proxy : Proxy.Env :=
  {| Proxy.UPSTREAM_PROXY_TOKEN := None;
     Proxy.ORIGIN_BASE_URL := Some "https://origin.example/" |}.

Definition origin_ok (target : string) : option Proxy.Upstream :=
  Some {| Proxy.up_status := 200;
          Proxy.up_headers := [("content-type", "application/json");
                               ("set-cookie", "session=1")];
          Proxy.up_body := "[]" |}.

(** The exploits of the chart example of the specification, the January
    one loaded first, and one more without an amount. *)
Definition jan_then_dec : list Web3.ExploitDetail :=
  [ exploit "jan" (Some 5) (Some "2024-01-15");
    exploit "dec" (Some 3) (Some "2023-12-01");
    exploit "jan2" None (Some "2024-01-20") ].

(** The Web3 page over these exploits with "dec" typed into the search
    box, which only the exploit of December matches. *)
Definition searched_dec : Web3.State :=
  Web3.step (rt := Engine.utc) (web3_state jan_then_dec "date" desc)
            (Web3.SearchInput "dec").

(** A dated release in front of one without a release date, and a release
    whose date does not parse in front of a dated one. *)
Definition dated_then_undated : list Eol.FlattenedSoftwareVersion :=
  [ release "dated" (Some "2024-01-15"); release "undated" None ].

Definition garbled_then_dated : list Eol.FlattenedSoftwareVersion :=
  [ release "garbled" (Some "soon"); release "dated" (Some "2024-01-15") ].

End Sample.

(* ===================================================================== *)
(** ** The rest of the pages: cards, drop-downs and pagination controls *)
(* ===================================================================== *)

(** More of the runtime: [Set], the default [sort()] and [Array.from]. *)
Module Arr.

(** [Array.from({ length: n }, (_, i) => f(i))] *)
Definition from_length (A : Type) (n : Z) (f : Z -> A) : list A :=
  map (fun i => f (Z.of_nat i)) (seq 0 (Z.to_nat n)).

Section Sets.
Variable A : Type.
(** The equality of [Set] members. *)
Variable same : A -> A -> bool.

(** [set.add(x)]: a [Set] keeps its members in insertion order. *)
Definition add (set : list A) (x : A) : list A :=
  if existsb (same x) set then set else set ++ [x].

(** [Array.from(new Set(l))] *)
Definition unique (l : list A) : list A := fold_left add l [].

End Sets.

(** Equality of two optional strings as members of a [Set]. *)
Definition same_field (a b : option string) : bool :=
  match a, b with
  | Some x, Some y => x == y
  | None, None => true
  | _, _ => false
  end.

(** [l.filter(Boolean) as string[]] on optional strings. *)
Definition truthy_strings (l : list (option string)) : list string :=
  flat_map (fun field =>
              match field with
              | Some v => if Str.truthy v then [v] else []
              | None => []
              end) l.

(** The comparator [sort()] uses when it is given none: strings are
    compared character by character. *)
Definition SortCompare (x y : string) : Z :=
  match String.compare x y with
  | Lt => -1
  | Eq => 0
  | Gt => 1
  end.

Definition sort_strings (l : list string) : list string :=
  Js.sort SortCompare l.

(** [x || 0] on a number. *)
Definition or_zero (x : Js.number) : Js.number :=
  if Js.truthy x then x else Js.Num 0.

(** [x - y] as a comparator result: an integer of the same sign as the
    difference, 0 where the difference is [NaN] ([sort] reads only the
    sign, and [NaN] as 0). *)
Definition minus (x y : Js.number) : Z :=
  match x, y with
  | Js.Num a, Js.Num b => a - b
  | Js.Infinity, Js.Num _ => 1
  | Js.Num _, Js.Infinity => -1
  | _, _ => 0
  end.

End Arr.

(** The pagination controls, the same code on the three pages. *)
Module Pager.

(** The number on the [i]-th page button. *)
Definition pageNum (totalPages currentPage i : Z) : Z :=
  if totalPages <=? 5 then i + 1
  else if currentPage <=? 3 then i + 1
  else if totalPages - 2 <=? currentPage then totalPages - 4 + i
  else currentPage - 2 + i.

Definition pageButtons (totalPages currentPage : Z) : list Z :=
  Arr.from_length (Z.min 5 totalPages) (pageNum totalPages currentPage).

(** The options of the page select. *)
Definition pageOptions (totalPages : Z) : list Z :=
  Arr.from_length totalPages (fun i => i + 1).

(** "Showing [showingFrom] to [showingTo] of [n]". *)
Definition showingFrom (currentPage itemsPerPage : Z) : Z :=
  (currentPage - 1) * itemsPerPage + 1.

Definition showingTo (currentPage itemsPerPage : Z) (n : nat) : Z :=
  Z.min (currentPage * itemsPerPage) (Z.of_nat n).

(** The pages [setCurrentPage] can be called with from the controls: the
    First button, a page button or the select. *)
Definition selectable (totalPages currentPage p : Z) : Prop :=
  (p = 1 /\ currentPage <> 1)
  \/ In p (pageButtons totalPages currentPage)
  \/ In p (pageOptions totalPages).

End Pager.

(** The cards and the software drop-down of the end-of-life page. *)
Module EolPage.

Definition days (r : Eol.FlattenedSoftwareVersion) : Js.number :=
  Arr.or_zero (Eol.daysRemaining r).

Definition expiredSoftware (s : Eol.State)
  : list Eol.FlattenedSoftwareVersion :=
  Js.sort (fun a b => Arr.minus (days b) (days a))
          (filter (fun software => Eol.status software == "Expired")
                  (Eol.flattenedData s)).

Definition expiringSoon (s : Eol.State)
  : list Eol.FlattenedSoftwareVersion :=
  Js.sort (fun a b => Arr.minus (days a) (days b))
          (filter (fun software => Eol.status software == "Critical")
                  (Eol.flattenedData s)).

Definition totalActiveSoftware (s : Eol.State) : nat :=
  length (filter (fun r => negb (Eol.status r == "Expired"))
                 (Eol.flattenedData s)).

Definition totalExpiringSoon (s : Eol.State) : nat := length (expiringSoon s).

Definition totalExpired (s : Eol.State) : nat := length (expiredSoftware s).

Definition uniqueSoftwareNames (s : Eol.State) : list string :=
  Arr.sort_strings (Arr.unique String.eqb (map Eol.name (Eol.flattenedData s))).

(** [setFlattenedData(flattened)] *)
Definition with_flattenedData (data : list Eol.FlattenedSoftwareVersion)
    (s : Eol.State) : Eol.State :=
  {| Eol.flattenedData := data; Eol.searchQuery := Eol.searchQuery s;
     Eol.statusFilter := Eol.statusFilter s;
     Eol.softwareFilter := Eol.softwareFilter s;
     Eol.sortConfig := Eol.sortConfig s; Eol.currentPage := Eol.currentPage s;
     Eol.itemsPerPage := Eol.itemsPerPage s |}.

Section WithRuntime.
Context {rt : Runtime}.

(** The events the rendered page lets the user raise: the pagination
    controls are rendered only when there is more than one page, First and
    Previous are disabled on page 1, Next and Last on the last page. *)
Definition offered (s : Eol.State) (e : Eol.Event) : Prop :=
  match e with
  | Eol.GoToPage p =>
      1 < Eol.totalPages s
      /\ Pager.selectable (Eol.totalPages s) (Eol.currentPage s) p
  | Eol.Previous => 1 < Eol.totalPages s /\ Eol.currentPage s <> 1
  | Eol.Next | Eol.Last =>
      1 < Eol.totalPages s /\ Eol.currentPage s <> Eol.totalPages s
  | _ => True
  end.

(** The states of the page: it starts without data, the data arrive once,
    and the user raises events the page offers. *)
Inductive reachable : Eol.State -> Prop :=
| reach_start : reachable (Eol.initial [])
| reach_load (s : Eol.State) (data : list Eol.FlattenedSoftwareVersion) :
    reachable s -> Eol.flattenedData s = [] ->
    reachable (with_flattenedData data s)
| reach_step (s : Eol.State) (e : Eol.Event) :
    reachable s -> offered s e -> reachable (Eol.step s e).

End WithRuntime.

End EolPage.

(** The data-type drop-down, the number format and the controls of the
    data-breach page. *)
Module LeaksPage.

(** [\w]: a letter, a digit or the underscore. *)
Definition is_word (c : ascii) : bool :=
  let n := Z.of_N (N_of_ascii c) in
  Str.is_digit c
  || ((65 <=? n) && (n <=? 90))
  || ((97 <=? n) && (n <=? 122))
  || (n =? 95).

(** The length of the run of digits a string starts with. *)
Fixpoint digit_run (s : string) : nat :=
  match s with
  | EmptyString => O
  | String c s' => if Str.is_digit c then S (digit_run s') else O
  end.

(** [(?=(\d{3})+(?!\d))]: what follows starts with three digits, or six,
    or nine, ..., and then goes on with no digit. *)
Definition groups_ahead (s : string) : bool :=
  Nat.ltb 0 (digit_run s) && Nat.eqb (Nat.modulo (digit_run s) 3) 0.

(** [s.replace(/\B(?=(\d{3})+(?!\d))/g, ",")]: a comma goes in front of
    every character where the pattern matches; [prev_word] tells whether
    the character in front of [s] is a word character ([\B] holds between
    two word characters and between two others). *)
Fixpoint group_digits (prev_word : bool) (s : string) : string :=
  match s with
  | EmptyString => EmptyString
  | String c s' =>
      let rest := String c (group_digits (is_word c) s') in
      if Bool.eqb prev_word (is_word c) && groups_ahead s
      then String "," rest else rest
  end.

Section Numbers.
(** [num.toString()] of an integer beyond 2^53, where it prints the
    shortest digits that read back as the same double, and from 10^21 on
    with an exponent. *)
Variable toString_large : Z -> string.

(** [num.toString()]: the decimal digits of an integer up to 2^53 in
    absolute value. *)
Definition toString (num : Js.number) : string :=
  match num with
  | Js.Num z =>
      if Z.abs z <=? 2 ^ 53 then Str.of_Z z else toString_large z
  | Js.NaN => "NaN"
  | Js.Infinity => "Infinity"
  end.

Definition formatNumber (num : Js.number) : string :=
  group_digits false (toString num).

End Numbers.

Section Dates.
(** [format(parseISO(s), 'MMM d, yyyy')] of the date-fns package for a
    string [s]: the formatted date, or [None] when [format] throws its
    [RangeError] because [parseISO] does not read [s] as a date. *)
Variable format_parseISO : string -> option string.

(** [formatDate]: for a string, the formatted date or, from the [catch]
    block, what stands before the first [T].  For a value that is not a
    string [parseISO] gives an invalid date, [format] throws, and
    [dateString.split] in the [catch] block throws a [TypeError], which
    leaves the function: [None]. *)
Definition formatDate (dateString : Js.field) : option string :=
  match dateString with
  | Js.Text s =>
      match format_parseISO s with
      | Some formatted => Some formatted
      | None => Some (hd EmptyString (Str.split "T" s))
      end
  | _ => None
  end.

End Dates.

(** [[a-z]], [[A-Z]] and [[a-zA-Z]] *)
Definition is_lower (c : ascii) : bool :=
  let n := Z.of_N (N_of_ascii c) in (97 <=? n) && (n <=? 122).

Definition is_upper (c : ascii) : bool :=
  let n := Z.of_N (N_of_ascii c) in (65 <=? n) && (n <=? 90).

Definition is_letter (c : ascii) : bool := is_lower c || is_upper c.

(** [s.replace(/(X)(Y)/g, '$1 $2')] for two character classes: the
    search goes on behind the two characters of a match. *)
Fixpoint space_between (X Y : ascii -> bool) (s : string) : string :=
  match s with
  | String a s' =>
      match s' with
      | String b rest =>
          if X a && Y b
          then String a (String " " (String b (space_between X Y rest)))
          else String a (space_between X Y s')
      | EmptyString => s
      end
  | EmptyString => s
  end.

(** The [result] of [camelCaseToTitleCase]. *)
Definition spaced (str : string) : string :=
  space_between is_letter Str.is_digit (space_between is_lower is_upper str).

Section Capital.
(** [s.toUpperCase()] *)
Variable toUpperCase : string -> string.

(** [result.charAt(0).toUpperCase() + result.slice(1)] *)
Definition camelCaseToTitleCase (str : string) : string :=
  let result := spaced str in
  toUpperCase (substring 0 1 result)
  ++ substring 1 (String.length result - 1) result.

End Capital.

(** A character of class [X] is directly followed by one of class [Y]. *)
Fixpoint adjacent (X Y : ascii -> bool) (s : string) : bool :=
  match s with
  | String a s' =>
      match s' with
      | String b _ => (X a && Y b) || adjacent X Y s'
      | EmptyString => false
      end
  | EmptyString => false
  end.

(** The string without its spaces. *)
Fixpoint unspaced (s : string) : string :=
  match s with
  | String c s' => if Ascii.eqb c " " then unspaced s' else String c (unspaced s')
  | EmptyString => EmptyString
  end.

(** The groups of a formatted number: what stands between its commas. *)
Definition groups (formatted : string) : list string :=
  Str.split "," formatted.

Definition with_dataLeaks (data : list Leaks.DataLeak) (s : Leaks.State)
  : Leaks.State :=
  {| Leaks.dataLeaks := data; Leaks.searchQuery := Leaks.searchQuery s;
     Leaks.dataTypeFilter := Leaks.dataTypeFilter s;
     Leaks.dateRangeFilter := Leaks.dateRangeFilter s;
     Leaks.sortConfig := Leaks.sortConfig s;
     Leaks.currentPage := Leaks.currentPage s;
     Leaks.itemsPerPage := Leaks.itemsPerPage s |}.

Section WithRuntime.
Context {rt : Runtime}.

(** [getUniqueDataTypes] *)
Definition getUniqueDataTypes (s : Leaks.State) : list string :=
  Arr.sort_strings
    (Arr.unique String.eqb
       (flat_map (fun leak => map trim (Str.split "," (Leaks.data_leaked leak)))
                 (Leaks.dataLeaks s))).

Definition offered (s : Leaks.State) (e : Leaks.Event) : Prop :=
  match e with
  | Leaks.GoToPage p =>
      1 < Leaks.totalPages s
      /\ Pager.selectable (Leaks.totalPages s) (Leaks.currentPage s) p
  | Leaks.Previous => 1 < Leaks.totalPages s /\ Leaks.currentPage s <> 1
  | Leaks.Next | Leaks.Last =>
      1 < Leaks.totalPages s /\ Leaks.currentPage s <> Leaks.totalPages s
  | _ => True
  end.

Inductive reachable : Leaks.State -> Prop :=
| reach_start : reachable (Leaks.initial [])
| reach_load (s : Leaks.State) (data : list Leaks.DataLeak) :
    reachable s -> Leaks.dataLeaks s = [] ->
    reachable (with_dataLeaks data s)
| reach_step (s : Leaks.State) (e : Leaks.Event) :
    reachable s -> offered s e -> reachable (Leaks.step s e).

End WithRuntime.

End LeaksPage.

(** The drop-downs, the comparison periods and the "Showing" line of the
    Web3 page. *)
Module Web3Page.

Section WithRuntime.
Context {rt : Runtime}.

Definition scamTypes (now : Z) (s : Web3.State) : list string :=
  Arr.truthy_strings
    (Arr.unique Arr.same_field
       (map Web3.scam_type (Web3.filteredExploits now s))).

(** [exploit.name_categories ? exploit.name_categories.split(',').map(c =>
    c.trim()) : []] *)
Definition categories_of (exploit : Web3.ExploitDetail) : list string :=
  match Web3.name_categories exploit with
  | Some cats => if Str.truthy cats then map trim (Str.split "," cats) else []
  | None => []
  end.

Definition categories (now : Z) (s : Web3.State) : list string :=
  Arr.sort_strings
    (filter Str.truthy
       (Arr.unique String.eqb
          (flat_map categories_of (Web3.filteredExploits now s)))).

(** [sortedExploits.length > 0 ? (currentPage - 1) * pageSize + 1 : 0] *)
Definition showingFrom (size : Z) (now : Z) (s : Web3.State) : Z :=
  if (0 <? Z.of_nat (length (Web3.sortedExploits now s)))
  then (Web3.currentPage s - 1) * size + 1 else 0.

Definition showingTo (size : Z) (now : Z) (s : Web3.State) : Z :=
  Z.min (Web3.currentPage s * size)
        (Z.of_nat (length (Web3.sortedExploits now s))).

(** The start dates of [calculateDelta]: of the current period and of the
    one before it; there is none for 'all'. *)
Definition periodStarts (now : Z) (tf : Web3.TimeFilter)
  : option (option Z * option Z) :=
  match tf with
  | Web3.M3 => Some (Date.setMonth now (Date.getMonth now - 3),
                     Date.setMonth now (Date.getMonth now - 6))
  | Web3.M6 => Some (Date.setMonth now (Date.getMonth now - 6),
                     Date.setFullYear now (Date.getFullYear now - 1))
  | Web3.Y1 => Some (Date.setFullYear now (Date.getFullYear now - 1),
                     Some 0)
  | Web3.All => None
  end.

(** The callback of [currentPeriodExploits]. *)
Definition inCurrentPeriod (currentStartDate : option Z)
    (exploit : Web3.ExploitDetail) : bool :=
  match Web3.date exploit with
  | None => false
  | Some s =>
      if negb (Str.truthy s) then false
      else
        match Web3.exploitDate s with
        | None => false
        | Some t => Js.ge (Js.Num t) (Js.of_time currentStartDate)
        end
  end.

(** The callback of [previousPeriodExploits]. *)
Definition inPreviousPeriod (prevStartDate currentStartDate : option Z)
    (exploit : Web3.ExploitDetail) : bool :=
  match Web3.date exploit with
  | None => false
  | Some s =>
      if negb (Str.truthy s) then false
      else
        match Web3.exploitDate s with
        | None => false
        | Some t =>
            Js.ge (Js.Num t) (Js.of_time prevStartDate)
            && Js.lt (Js.Num t) (Js.of_time currentStartDate)
        end
  end.

Definition currentPeriodExploits (currentStartDate : option Z)
    (exploits : list Web3.ExploitDetail) : list Web3.ExploitDetail :=
  filter (inCurrentPeriod currentStartDate) exploits.

Definition previousPeriodExploits (prevStartDate currentStartDate : option Z)
    (exploits : list Web3.ExploitDetail) : list Web3.ExploitDetail :=
  filter (inPreviousPeriod prevStartDate currentStartDate) exploits.

End WithRuntime.

End Web3Page.

(** The orders the tables and the drop-downs are sorted by. *)
Module Ord.

(** Strings in the order of [sort()]. *)
Definition string_le (a b : string) : Prop := String.compare a b <> Gt.

(** Optional amounts: a missing amount comes before every amount. *)
Definition amount_le (a b : option Z) : Prop :=
  match a, b with
  | None, _ => True
  | Some _, None => False
  | Some x, Some y => x <= y
  end.

Definition directed (A : Type) (d : direction) (le : A -> A -> Prop)
    (a b : A) : Prop :=
  match d with
  | asc => le a b
  | desc => le b a
  end.

Section WithRuntime.
Context {rt : Runtime}.

(** The exploit carries a date that stands for the time value [t]. *)
Definition dated (e : Web3.ExploitDetail) (t : Z) : Prop :=
  exists s, Web3.date e = Some s /\ Web3.exploitDate s = Some t.

Definition date_le (a b : Web3.ExploitDetail) : Prop :=
  exists x y, dated a x /\ dated b y /\ x <= y.

End WithRuntime.

End Ord.

(** Positions in a list: every element of class [late] stands behind every
    element of class [early]. *)
Definition placed_after (A : Type) (late early : A -> bool) (l : list A)
  : Prop :=
  forall i j x y,
    nth_error l i = Some x -> nth_error l j = Some y ->
    late x = true -> early y = true -> (j < i)%nat.

Unset Implicit Arguments.

(* ===================================================================== *)
(** ** Facts about [sort], [slice] and [Math.ceil] *)
(* ===================================================================== *)

Section SortFacts.
Variable A : Type.
Variable cmp : A -> A -> Z.

Lemma insert_perm (x : A) (l : list A) :
  Permutation (Js.insert cmp x l) (x :: l).
Proof.
  induction l as [|y l IH]; simpl.
  - apply Permutation_refl.
  - destruct (0 <? cmp x y).
    + apply Permutation_trans with (y :: x :: l).
      * now apply perm_skip.
      * apply perm_swap.
    + apply Permutation_refl.
Qed.

Lemma sort_perm (l : list A) : Permutation (Js.sort cmp l) l.
Proof.
  induction l as [|x l IH]; simpl.
  - apply perm_nil.
  - apply Permutation_trans with (x :: Js.sort cmp l).
    + apply insert_perm.
    + now apply perm_skip.
Qed.

Lemma sort_length (l : list A) : length (Js.sort cmp l) = length l.
Proof. apply Permutation_length, sort_perm. Qed.

Lemma insert_Forall (P : A -> Prop) (x : A) (l : list A) :
  P x -> Forall P l -> Forall P (Js.insert cmp x l).
Proof.
  intros Hx Hl.
  apply (Permutation_Forall (Permutation_sym (insert_perm x l))).
  now constructor.
Qed.

(** The inserted element stops in front of a suffix it does not exceed. *)
Lemma insert_app_stop (x : A) (front back : list A) :
  (forall y, In y back -> cmp x y <= 0) ->
  Js.insert cmp x (front ++ back) = Js.insert cmp x front ++ back.
Proof.
  intros Hback.
  induction front as [|y front IH]; simpl.
  - destruct back as [|b back]; simpl; [reflexivity|].
    assert (Hb : cmp x b <= 0) by (apply Hback; now left).
    destruct (Z.ltb_spec 0 (cmp x b)); [lia | reflexivity].
  - destruct (0 <? cmp x y); [now rewrite IH | reflexivity].
Qed.

(** The inserted element walks past a prefix it exceeds. *)
Lemma insert_app_pass (x : A) (front back : list A) :
  (forall y, In y front -> 0 < cmp x y) ->
  Js.insert cmp x (front ++ back) = front ++ Js.insert cmp x back.
Proof.
  induction front as [|y front IH]; simpl; intros Hfront.
  - reflexivity.
  - assert (Hy : 0 < cmp x y) by (apply Hfront; now left).
    destruct (Z.ltb_spec 0 (cmp x y)); [|lia].
    rewrite IH; [reflexivity|].
    intros z Hz. apply Hfront. now right.
Qed.

Section LastClass.
(** A class of elements that the comparator sends behind everything,
    while no other element goes behind one of them. *)
Variable late : A -> bool.
Hypothesis late_goes_behind : forall a b, late a = true -> 0 < cmp a b.
Hypothesis others_stay_ahead :
  forall a b, late a = false -> late b = true -> cmp a b <= 0.

Lemma sort_late_last (l : list A) :
  exists front back,
    Js.sort cmp l = front ++ back
    /\ Forall (fun x => late x = false) front
    /\ Forall (fun x => late x = true) back.
Proof.
  induction l as [|x l (front & back & Heq & Hf & Hb)]; simpl.
  - exists [], []. now repeat split.
  - rewrite Heq. destruct (late x) eqn:Hx.
    + exists front, (back ++ [x]). repeat split; trivial.
      * rewrite app_assoc.
        rewrite <- (app_nil_r (front ++ back)) at 1.
        rewrite insert_app_pass; [reflexivity|].
        intros y _. now apply late_goes_behind.
      * apply Forall_app. split; [assumption | now constructor].
    + exists (Js.insert cmp x front), back. repeat split; trivial.
      * apply insert_app_stop. intros y Hy.
        apply others_stay_ahead; [assumption|].
        rewrite Forall_forall in Hb. now apply Hb.
      * now apply insert_Forall.
Qed.
End LastClass.

Section FirstClass.
(** A class of elements that never go behind anything, while every
    other element goes behind them. *)
Variable first : A -> bool.
Hypothesis first_stays_ahead : forall a b, first a = true -> cmp a b <= 0.
Hypothesis others_go_behind :
  forall a b, first a = false -> first b = true -> 0 < cmp a b.

Lemma sort_first_first (l : list A) :
  exists front back,
    Js.sort cmp l = front ++ back
    /\ Forall (fun x => first x = true) front
    /\ Forall (fun x => first x = false) back.
Proof.
  induction l as [|x l (front & back & Heq & Hf & Hb)]; simpl.
  - exists [], []. now repeat split.
  - rewrite Heq. destruct (first x) eqn:Hx.
    + exists (x :: front), back. repeat split; trivial.
      * apply (insert_app_stop x [] (front ++ back)).
        intros y _. now apply first_stays_ahead.
      * now constructor.
    + exists front, (Js.insert cmp x back). repeat split; trivial.
      * apply insert_app_pass. intros y Hy.
        apply others_go_behind; [assumption|].
        rewrite Forall_forall in Hf. now apply Hf.
      * now apply insert_Forall.
Qed.
End FirstClass.

(** A list cut into a front part without [late] elements and a back part
    without [early] elements has every [late] element behind every
    [early] one. *)
Lemma split_placed_after (late early : A -> bool) (front back : list A) :
  Forall (fun x => late x = false) front ->
  Forall (fun x => early x = false) back ->
  placed_after late early (front ++ back).
Proof.
  intros Hf Hb i j x y Hi Hj Hlate Hearly.
  rewrite Forall_forall in Hf, Hb.
  destruct (Nat.lt_ge_cases i (length front)) as [Hlt | Hge].
  - rewrite nth_error_app1 in Hi by assumption.
    apply nth_error_In in Hi. apply Hf in Hi. congruence.
  - destruct (Nat.lt_ge_cases j (length front)) as [Hlt' | Hge'].
    + lia.
    + rewrite nth_error_app2 in Hj by assumption.
      apply nth_error_In in Hj. apply Hb in Hj. congruence.
Qed.

End SortFacts.

Lemma Math_ceil_div_ceiling (n d : Z) :
  0 < d -> Js.Math_ceil_div n d = Spec.ceiling n d.
Proof.
  intros Hd. unfold Js.Math_ceil_div, Spec.ceiling.
  pose proof (Z.div_mod (- n) d) as H1.
  pose proof (Z.mod_pos_bound (- n) d Hd) as H2.
  pose proof (Z.div_mod (n + d - 1) d) as H3.
  pose proof (Z.mod_pos_bound (n + d - 1) d Hd) as H4.
  nia.
Qed.

(** [ceiling n d] is the least number of pages of [d] records that hold
    [n] records. *)
Lemma ceiling_spec (n d : Z) :
  0 < d -> (Spec.ceiling n d - 1) * d < n <= Spec.ceiling n d * d.
Proof.
  intros Hd. unfold Spec.ceiling.
  pose proof (Z.div_mod (n + d - 1) d) as H3.
  pose proof (Z.mod_pos_bound (n + d - 1) d Hd) as H4.
  nia.
Qed.

Lemma ceiling_zero (d : Z) : 0 < d -> Spec.ceiling 0 d = 0.
Proof.
  intros Hd. pose proof (ceiling_spec 0 d Hd). nia.
Qed.

Lemma ceiling_positive (n d : Z) : 0 < d -> 0 < n -> 1 <= Spec.ceiling n d.
Proof.
  intros Hd Hn. pose proof (ceiling_spec n d Hd). nia.
Qed.

Section SliceFacts.
Variable A : Type.

Lemma slice_firstn_skipn (a b : Z) (l : list A) :
  0 <= a <= b ->
  Js.slice a b l = firstn (Z.to_nat (b - a)) (skipn (Z.to_nat a) l).
Proof.
  intros Hab. unfold Js.slice, Js.slice_index.
  destruct (Z.ltb_spec a 0); [lia|].
  destruct (Z.ltb_spec b 0); [lia|].
  set (len := Z.of_nat (length l)).
  assert (Hlen : length l = Z.to_nat len) by (unfold len; lia).
  destruct (Z.le_gt_cases len a) as [Hfar | Hnear].
  - rewrite (Z.min_r a len), (Z.min_r b len) by lia.
    rewrite (skipn_all2 (n := Z.to_nat a)) by lia.
    rewrite (skipn_all2 (n := Z.to_nat len)) by lia.
    now rewrite !firstn_nil.
  - rewrite (Z.min_l a len) by lia.
    destruct (Z.le_gt_cases len b) as [Hend | Hend].
    + rewrite (Z.min_r b len) by lia.
      rewrite !firstn_all2; trivial; rewrite length_skipn; lia.
    + now rewrite (Z.min_l b len) by lia.
Qed.

Lemma window_is_slice (page size : Z) (l : list A) :
  1 <= page -> 1 <= size ->
  Js.slice ((page - 1) * size) (page * size) l = Spec.window page size l.
Proof.
  intros Hp Hs. unfold Spec.window.
  rewrite slice_firstn_skipn by nia.
  do 2 f_equal. lia.
Qed.

Lemma window_length (page size : Z) (l : list A) :
  1 <= size ->
  1 <= page <= Spec.ceiling (Z.of_nat (length l)) size ->
  1 <= Z.of_nat (length (Spec.window page size l)) <= size.
Proof.
  intros Hs Hp. unfold Spec.window.
  pose proof (ceiling_spec (Z.of_nat (length l)) size ltac:(lia)) as Hc.
  rewrite length_firstn, length_skipn.
  assert ((page - 1) * size < Z.of_nat (length l)) by nia.
  assert (0 <= (page - 1) * size) by nia.
  lia.
Qed.

End SliceFacts.

(* ===================================================================== *)
(** ** Where records without a sort key end up *)
(* ===================================================================== *)

Section NullPlacement.
Context {rt : Runtime}.

Lemma eol_compare_missing_left cfg a b :
  Spec.eol_missing (Eol.key cfg) a = true ->
  Eol.compare cfg a b = match Eol.dir cfg with asc => -1 | desc => 1 end.
Proof.
  unfold Spec.eol_missing, Eol.compare.
  destruct (Eol.sort_value (Eol.key cfg) a); [discriminate | reflexivity].
Qed.

Lemma eol_compare_missing_right cfg a b :
  Spec.eol_missing (Eol.key cfg) a = false ->
  Spec.eol_missing (Eol.key cfg) b = true ->
  Eol.compare cfg a b = match Eol.dir cfg with asc => 1 | desc => -1 end.
Proof.
  unfold Spec.eol_missing, Eol.compare.
  destruct (Eol.sort_value (Eol.key cfg) a); [|discriminate].
  destruct (Eol.sort_value (Eol.key cfg) b); [discriminate | reflexivity].
Qed.

Lemma web3_compare_missing_left cfg a b :
  Spec.web3_missing (Web3.key cfg) a = true ->
  Web3.compare cfg a b = match Web3.dir cfg with asc => -1 | desc => 1 end.
Proof.
  unfold Spec.web3_missing, Web3.compare.
  destruct (Web3.get a (Web3.key cfg)); [discriminate | reflexivity].
Qed.

Lemma web3_compare_missing_right cfg a b :
  Spec.web3_missing (Web3.key cfg) a = false ->
  Spec.web3_missing (Web3.key cfg) b = true ->
  Web3.compare cfg a b = match Web3.dir cfg with asc => 1 | desc => -1 end.
Proof.
  unfold Spec.web3_missing, Web3.compare.
  destruct (Web3.get a (Web3.key cfg)); [|discriminate].
  destruct (Web3.get b (Web3.key cfg)); [discriminate | reflexivity].
Qed.

(** Sorting with a comparator that treats a class as the greatest
    (descending) or the least (ascending) value. *)
Lemma sorted_by_direction (A : Type) (cmp : A -> A -> Z)
      (missing : A -> bool) (d : direction) (l : list A) :
  (forall a b, missing a = true ->
               cmp a b = match d with asc => -1 | desc => 1 end) ->
  (forall a b, missing a = false -> missing b = true ->
               cmp a b = match d with asc => 1 | desc => -1 end) ->
  match d with
  | desc => placed_after missing (fun r => negb (missing r)) (Js.sort cmp l)
  | asc => placed_after (fun r => negb (missing r)) missing (Js.sort cmp l)
  end.
Proof.
  intros Hleft Hright. destruct d.
  - destruct (sort_first_first A cmp missing) with (l := l)
      as (front & back & Heq & Hf & Hb).
    + intros a b Ha. rewrite (Hleft a b Ha). lia.
    + intros a b Ha Hb. rewrite (Hright a b Ha Hb). lia.
    + rewrite Heq. apply split_placed_after.
      * eapply Forall_impl; [|exact Hf]. simpl. now intros a ->.
      * exact Hb.
  - destruct (sort_late_last A cmp missing) with (l := l)
      as (front & back & Heq & Hf & Hb).
    + intros a b Ha. rewrite (Hleft a b Ha). lia.
    + intros a b Ha Hb. rewrite (Hright a b Ha Hb). lia.
    + rewrite Heq. apply split_placed_after.
      * exact Hf.
      * eapply Forall_impl; [|exact Hb]. simpl. now intros a ->.
Qed.

End NullPlacement.

(** C1 (as amended).  On the end-of-life table and on the Web3 table a
    record whose sort key is [null] or [undefined] is ordered as the least
    value: in descending order every such record stands behind every record
    that has a key, in ascending order it stands in front of them.  This
    holds for every sort key and every record list. *)
Theorem nulls_follow_direction (rt : Runtime) :
  (forall s : Eol.State,
      let k := Eol.key (Eol.sortConfig s) in
      match Eol.dir (Eol.sortConfig s) with
      | desc => placed_after (Spec.eol_missing k)
                             (fun r => negb (Spec.eol_missing k r))
                             (Eol.sortedData s)
      | asc => placed_after (fun r => negb (Spec.eol_missing k r))
                            (Spec.eol_missing k)
                            (Eol.sortedData s)
      end)
  /\ (forall (now : Z) (s : Web3.State),
         let k := Web3.key (Web3.sortConfig s) in
         match Web3.dir (Web3.sortConfig s) with
         | desc => placed_after (Spec.web3_missing k)
                                (fun r => negb (Spec.web3_missing k r))
                                (Web3.sortedExploits now s)
         | asc => placed_after (fun r => negb (Spec.web3_missing k r))
                               (Spec.web3_missing k)
                               (Web3.sortedExploits now s)
         end).
Proof.
  split.
  - intros s k. unfold Eol.sortedData.
    apply (sorted_by_direction _ (Eol.compare (Eol.sortConfig s))
             (Spec.eol_missing k) (Eol.dir (Eol.sortConfig s))).
    + intros a b. apply eol_compare_missing_left.
    + intros a b. apply eol_compare_missing_right.
  - intros now s k. unfold Web3.sortedExploits.
    apply (sorted_by_direction _ (Web3.compare (Web3.sortConfig s))
             (Spec.web3_missing k) (Web3.dir (Web3.sortConfig s))).
    + intros a b. apply web3_compare_missing_left.
    + intros a b. apply web3_compare_missing_right.
Qed.

(** C1 (as stated) fails.  The three records [5, null, 1] of the
    specification, sorted ascending by [funds_lost] on the Web3 table, come
    out as [null, 1, 5]: the record without a value is first, not last.  The
    same happens on the end-of-life table for a release without a release
    date, and there a date that does not parse compares equal to everything
    and keeps its place in front of a dated release in either direction. *)
Lemma nulls_last_fails_when_ascending :
  map Web3.funds_lost
      (Web3.sortedExploits (rt := Engine.utc) Sample.now
         (Sample.web3_state Sample.five_null_one "funds_lost" asc))
  = [None; Some 1; Some 5]
  /\ ~ placed_after (Spec.web3_missing "funds_lost")
                    (fun r => negb (Spec.web3_missing "funds_lost" r))
                    (Web3.sortedExploits (rt := Engine.utc) Sample.now
                       (Sample.web3_state Sample.five_null_one "funds_lost" asc))
  /\ ~ placed_after (Spec.eol_missing (rt := Engine.utc) "releaseDate")
                    (Spec.eol_comparable (rt := Engine.utc) "releaseDate")
                    (Eol.sortedData (rt := Engine.utc)
                       (Sample.eol_state Sample.dated_then_undated
                          "releaseDate" asc 1 20))
  /\ ~ placed_after (Spec.eol_unparsable (rt := Engine.utc) "releaseDate")
                    (Spec.eol_comparable (rt := Engine.utc) "releaseDate")
                    (Eol.sortedData (rt := Engine.utc)
                       (Sample.eol_state Sample.garbled_then_dated
                          "releaseDate" desc 1 20)).
Proof.
  split; [reflexivity|].
  repeat split; intro H;
    pose proof (H 0%nat 1%nat _ _ eq_refl eq_refl eq_refl eq_refl) as C;
    lia.
Qed.

(* ===================================================================== *)
(** ** Pagination *)
(* ===================================================================== *)

(** What the two pagination lines of a page compute, for any record list:
    [pages] is [Math.ceil(count / size)] and [shown] is the slice at the
    stored page. *)
Lemma pagination_facts (A : Type) (counted sorted : list A) (page size : Z) :
  length sorted = length counted ->
  1 <= size ->
  let n := Z.of_nat (length counted) in
  let pages := Js.Math_ceil_div n size in
  let shown := Js.slice ((page - 1) * size) (page * size) sorted in
  pages = Spec.ceiling n size
  /\ pages = (if n =? 0 then 0 else Z.max 1 (Spec.ceiling n size))
  /\ (1 <= page -> shown = Spec.window page size sorted)
  /\ (1 <= page <= pages -> 1 <= Z.of_nat (length shown) <= size).
Proof.
  intros Hlen Hsize n pages shown.
  assert (Hpages : pages = Spec.ceiling n size)
    by (apply Math_ceil_div_ceiling; lia).
  repeat split.
  - exact Hpages.
  - rewrite Hpages. destruct (Z.eqb_spec n 0) as [-> | Hn].
    + apply ceiling_zero. lia.
    + pose proof (ceiling_positive n size) as Hpos. unfold n in *. lia.
  - intros Hp. now apply window_is_slice.
  - unfold shown. rewrite window_is_slice by lia.
    apply window_length; [lia|]. rewrite Hlen. fold n. lia.
  - unfold shown. rewrite window_is_slice by lia.
    apply window_length; [lia|]. rewrite Hlen. fold n. lia.
Qed.

(** C2 (as amended).  On the end-of-life page and on the data-breach page,
    for every page size of at least 1 and every filtered record list,
    [totalPages] is the record count divided by the page size and rounded
    up: 0 for the empty list, and [max(1, ceil(count / size))] for every
    other list.  The window is sliced at the stored [currentPage], which is
    not clamped; when that page lies in [1, totalPages] the window holds
    between 1 and [size] records. *)
Theorem totalPages_is_ceiling (rt : Runtime) (s : Eol.State) (t : Leaks.State) :
  1 <= Eol.itemsPerPage s ->
  1 <= Leaks.itemsPerPage t ->
  (let n := Z.of_nat (length (Eol.filteredData s)) in
   let size := Eol.itemsPerPage s in
   Eol.totalPages s = Spec.ceiling n size
   /\ Eol.totalPages s = (if n =? 0 then 0 else Z.max 1 (Spec.ceiling n size))
   /\ (1 <= Eol.currentPage s ->
       Eol.paginatedData s
       = Spec.window (Eol.currentPage s) size (Eol.sortedData s))
   /\ (1 <= Eol.currentPage s <= Eol.totalPages s ->
       1 <= Z.of_nat (length (Eol.paginatedData s)) <= size))
  /\
  (let n := Z.of_nat (length (Leaks.filteredLeaks t)) in
   let size := Leaks.itemsPerPage t in
   Leaks.totalPages t = Spec.ceiling n size
   /\ Leaks.totalPages t = (if n =? 0 then 0 else Z.max 1 (Spec.ceiling n size))
   /\ (1 <= Leaks.currentPage t ->
       Leaks.paginatedData t
       = Spec.window (Leaks.currentPage t) size (Leaks.filteredLeaks t))
   /\ (1 <= Leaks.currentPage t <= Leaks.totalPages t ->
       1 <= Z.of_nat (length (Leaks.paginatedData t)) <= size)).
Proof.
  intros Hs Ht. split.
  - apply (pagination_facts _ (Eol.filteredData s) (Eol.sortedData s)
             (Eol.currentPage s) (Eol.itemsPerPage s)); [|exact Hs].
    apply sort_length.
  - apply (pagination_facts _ (Leaks.filteredLeaks t) (Leaks.filteredLeaks t)
             (Leaks.currentPage t) (Leaks.itemsPerPage t)); [reflexivity|exact Ht].
Qed.

(** The page sizes of the two pages are at least 1, so the theorem applies
    to the pages as they start, here with three releases and no leaks. *)
Lemma totalPages_is_ceiling_witness :
  Eol.totalPages (rt := Engine.utc)
    (Eol.initial (Sample.dated_then_undated ++ Sample.garbled_then_dated))
  = Spec.ceiling 4 20
  /\ Leaks.totalPages (rt := Engine.utc) (Leaks.initial []) = Spec.ceiling 0 10.
Proof.
  destruct (totalPages_is_ceiling Engine.utc
              (Eol.initial (Sample.dated_then_undated ++ Sample.garbled_then_dated))
              (Leaks.initial []))
    as [[He _] [Hl _]].
  - simpl. lia.
  - simpl. lia.
  - split; [exact He | exact Hl].
Defined.

(** C2 (as stated) fails on the empty list: a page that holds no record has
    0 pages, not [max(1, ceil(0 / 20)) = 1], and the stored page 1 is then
    outside [1, totalPages]. *)
Lemma totalPages_of_no_records_is_zero :
  Eol.totalPages (rt := Engine.utc) (Eol.initial []) = 0
  /\ Z.max 1 (Spec.ceiling 0 (Eol.itemsPerPage (Eol.initial []))) = 1
  /\ ~ (1 <= Eol.currentPage (Eol.initial [])
          <= Eol.totalPages (rt := Engine.utc) (Eol.initial []))
  /\ Leaks.totalPages (rt := Engine.utc) (Leaks.initial []) = 0
  /\ ~ (1 <= Leaks.currentPage (Leaks.initial [])
          <= Leaks.totalPages (rt := Engine.utc) (Leaks.initial [])).
Proof.
  repeat split; try reflexivity; vm_compute; intros [_ H]; now apply H.
Qed.

(* ===================================================================== *)
(** ** The current page after an interaction *)
(* ===================================================================== *)

Section PageReset.
Context {rt : Runtime}.

Lemma eol_filters_unchanged (s s' : Eol.State) :
  Eol.filters_changed s s' = false -> Spec.eol_filters s' = Spec.eol_filters s.
Proof.
  unfold Eol.filters_changed, Spec.eol_filters. intros H.
  apply negb_false_iff in H.
  apply andb_prop in H as [H H3]. apply andb_prop in H as [H1 H2].
  apply String.eqb_eq in H1, H2, H3. congruence.
Qed.

Lemma leaks_filters_unchanged (s s' : Leaks.State) :
  Leaks.filters_changed s s' = false ->
  Spec.leaks_filters s' = Spec.leaks_filters s.
Proof.
  unfold Leaks.filters_changed, Spec.leaks_filters. intros H.
  apply negb_false_iff in H.
  apply andb_prop in H as [H H4]. apply andb_prop in H as [H H3].
  apply andb_prop in H as [H1 H2].
  apply String.eqb_eq in H1, H2, H3, H4. congruence.
Qed.

Lemma eol_step_resets (s : Eol.State) (e : Eol.Event) :
  Spec.eol_filters (Eol.step s e) <> Spec.eol_filters s ->
  Eol.currentPage (Eol.step s e) = 1.
Proof.
  unfold Eol.step.
  destruct (Eol.filters_changed s (Eol.handle e s)) eqn:Hc; intros Hne.
  - reflexivity.
  - exfalso. apply Hne. now apply eol_filters_unchanged.
Qed.

Lemma leaks_step_resets (s : Leaks.State) (e : Leaks.Event) :
  Spec.leaks_filters (Leaks.step s e) <> Spec.leaks_filters s ->
  Leaks.currentPage (Leaks.step s e) = 1.
Proof.
  unfold Leaks.step.
  destruct (Leaks.filters_changed s (Leaks.handle e s)) eqn:Hc; intros Hne.
  - reflexivity.
  - exfalso. apply Hne. now apply leaks_filters_unchanged.
Qed.

Lemma eol_sort_keeps_page (s : Eol.State) (k : string) :
  Eol.currentPage (Eol.step s (Eol.SortBy k)) = Eol.currentPage s.
Proof.
  unfold Eol.step, Eol.filters_changed. simpl.
  now rewrite !String.eqb_refl.
Qed.

Lemma leaks_sort_keeps_page (s : Leaks.State) (k : string) :
  Leaks.currentPage (Leaks.step s (Leaks.SortBy k)) = Leaks.currentPage s.
Proof.
  unfold Leaks.step, Leaks.filters_changed. simpl.
  now rewrite !String.eqb_refl.
Qed.

End PageReset.

(** C3 (as amended).  After every transition that changes the filter state
    of the end-of-life page (search, status, software) or of the data-breach
    page (search, data type, start and end date), [currentPage] is 1.  On
    the Web3 page [currentPage] is 1 after every input of the table: its
    search box, its category and type selects, and a click on a sortable
    column.  A sort change on the end-of-life page and on the data-breach
    page leaves [currentPage] as it is. *)
Theorem page_after_filter_or_sort_change (rt : Runtime)
    (s : Eol.State) (e : Eol.Event) (t : Leaks.State) (f : Leaks.Event)
    (u : Web3.State) (g : Web3.Event) (k : string) :
  Spec.eol_filters (Eol.step s e) <> Spec.eol_filters s ->
  Spec.leaks_filters (Leaks.step t f) <> Spec.leaks_filters t ->
  Spec.web3_table_input g = true ->
  Eol.currentPage (Eol.step s e) = 1
  /\ Leaks.currentPage (Leaks.step t f) = 1
  /\ Web3.currentPage (Web3.step u g) = 1
  /\ Eol.currentPage (Eol.step s (Eol.SortBy k)) = Eol.currentPage s
  /\ Leaks.currentPage (Leaks.step t (Leaks.SortBy k)) = Leaks.currentPage t.
Proof.
  intros He Hf Hg. repeat split.
  - now apply eol_step_resets.
  - now apply leaks_step_resets.
  - destruct g; try discriminate; reflexivity.
  - apply eol_sort_keeps_page.
  - apply leaks_sort_keeps_page.
Qed.

(** From page 2 of the end-of-life table, typing a search resets the page;
    so does picking a data type on the data-breach page and sorting the
    Web3 table. *)
Lemma page_after_filter_or_sort_change_witness :
  Eol.currentPage
    (Eol.step (rt := Engine.utc) Sample.eol_page_two (Eol.SetSearchQuery "x"))
  = 1
  /\ Leaks.currentPage
       (Leaks.step (rt := Engine.utc) (Leaks.initial [])
          (Leaks.SetDataTypeFilter "Passwords")) = 1
  /\ Web3.currentPage
       (Web3.step (rt := Engine.utc)
          (Sample.web3_state Sample.five_null_one "date" desc)
          (Web3.SortBy "funds_lost")) = 1.
Proof.
  destruct (page_after_filter_or_sort_change Engine.utc
              Sample.eol_page_two (Eol.SetSearchQuery "x")
              (Leaks.initial []) (Leaks.SetDataTypeFilter "Passwords")
              (Sample.web3_state Sample.five_null_one "date" desc)
              (Web3.SortBy "funds_lost") "status")
    as (He & Hl & Hw & _).
  - vm_compute. discriminate.
  - vm_compute. discriminate.
  - reflexivity.
  - repeat split; assumption.
Defined.

(** C3 (as stated) fails for sort changes on two of the three pages.  With
    twenty-five releases the user goes to page 2 and clicks the Status
    column: the sort state changes and the page is still 2.  The same on the
    data-breach page. *)
Lemma sort_change_keeps_current_page :
  Eol.currentPage Sample.eol_page_two = 2
  /\ Eol.sortConfig
       (Eol.step (rt := Engine.utc) Sample.eol_page_two (Eol.SortBy "status"))
     <> Eol.sortConfig Sample.eol_page_two
  /\ Eol.currentPage
       (Eol.step (rt := Engine.utc) Sample.eol_page_two (Eol.SortBy "status"))
     <> 1
  /\ Leaks.currentPage Sample.leaks_page_two = 2
  /\ Leaks.sortConfig
       (Leaks.step (rt := Engine.utc) Sample.leaks_page_two (Leaks.SortBy "name"))
     <> Leaks.sortConfig Sample.leaks_page_two
  /\ Leaks.currentPage
       (Leaks.step (rt := Engine.utc) Sample.leaks_page_two (Leaks.SortBy "name"))
     <> 1.
Proof.
  repeat split; try reflexivity; vm_compute; discriminate.
Qed.

(* ===================================================================== *)
(** ** Date strings *)
(* ===================================================================== *)

Lemma digit_value_bounds (c : ascii) (d : Z) :
  Str.digit_value c = Some d -> 0 <= d <= 9.
Proof.
  unfold Str.digit_value.
  destruct (Z.leb_spec 48 (Z.of_N (N_of_ascii c)));
    destruct (Z.leb_spec (Z.of_N (N_of_ascii c)) 57); simpl;
    intros E; inversion E; lia.
Qed.

Lemma is_digit_value (c : ascii) :
  Str.is_digit c = true -> exists d, Str.digit_value c = Some d /\ 0 <= d <= 9.
Proof.
  unfold Str.is_digit. destruct (Str.digit_value c) as [d|] eqn:E.
  - intros _. exists d. split; [reflexivity | exact (digit_value_bounds c d E)].
  - discriminate.
Qed.

Lemma digit_is_not (c sep : ascii) :
  Str.is_digit sep = false -> Str.is_digit c = true -> Ascii.eqb c sep = false.
Proof.
  intros Hsep Hc. destruct (Ascii.eqb_spec c sep) as [-> | _].
  - congruence.
  - reflexivity.
Qed.

(** The shape of the strings accepted by [/^\d{4}-\d{2}-\d{2}$/]. *)
Lemma ymd_pattern_shape (s : string) :
  Str.is_ymd_pattern s = true ->
  exists y1 y2 y3 y4 m1 m2 d1 d2,
    s = String y1 (String y2 (String y3 (String y4 (String "-"
          (String m1 (String m2 (String "-" (String d1 (String d2 "")))))))))
    /\ Forall (fun c => Str.is_digit c = true) [y1; y2; y3; y4; m1; m2; d1; d2].
Proof.
  unfold Str.is_ymd_pattern.
  do 10 (destruct s as [|? s]; [discriminate|]).
  destruct s; [|discriminate]. simpl.
  intros H.
  repeat match goal with
         | E : _ && _ = true |- _ => apply andb_prop in E; destruct E
         end.
  repeat match goal with
         | E : Ascii.eqb _ _ = true |- _ => apply Ascii.eqb_eq in E; subst
         end.
  do 8 eexists. split; [reflexivity|].
  repeat constructor; assumption.
Qed.

Section DateStrings.
Context {rt : Runtime}.

Lemma Number_digits (s : string) :
  s <> "" -> Str.all_digits s = true -> Number s = Js.Num (Str.decimal s).
Proof.
  intros Hne Hd. unfold Number. destruct s; [congruence|]. now rewrite Hd.
Qed.

(** On a [YYYY-MM-DD] string the three numbers of
    [s.split('-').map(Number)] are its year, month and day, all in range. *)
Lemma ymd_components (s : string) :
  Str.is_ymd_pattern s = true ->
  Web3.component s 0 = Js.Num (Spec.year_of s)
  /\ Web3.component s 1 = Js.Num (Spec.month_of s)
  /\ Web3.component s 2 = Js.Num (Spec.day_of s)
  /\ 0 <= Spec.year_of s <= 9999
  /\ 0 <= Spec.month_of s <= 99
  /\ 0 <= Spec.day_of s <= 99.
Proof.
  intros Hp.
  destruct (ymd_pattern_shape s Hp)
    as (y1 & y2 & y3 & y4 & m1 & m2 & d1 & d2 & -> & Hd).
  repeat match goal with
         | H : Forall _ (_ :: _) |- _ => inversion H; subst; clear H
         end.
  assert (Hdash : Str.is_digit "-" = false) by reflexivity.
  unfold Web3.component. cbn [Str.split].
  repeat match goal with
         | H : Str.is_digit ?c = true |- context [Ascii.eqb ?c "-"] =>
             rewrite (digit_is_not c "-" Hdash H)
         end.
  cbn [Ascii.eqb Bool.eqb Str.split nth_error].
  unfold Spec.year_of, Spec.month_of, Spec.day_of. cbn [substring].
  rewrite !Number_digits;
    try discriminate;
    try (cbn [Str.all_digits];
         repeat match goal with H : Str.is_digit _ = true |- _ => rewrite H end;
         reflexivity).
  repeat match goal with
         | H : Str.is_digit ?c = true |- _ =>
             destruct (is_digit_value c H) as (? & ? & ?); clear H
         end.
  unfold Str.decimal. cbn [Str.decimal_from].
  repeat match goal with H : Str.digit_value _ = Some _ |- _ => rewrite H end.
  repeat split; lia.
Qed.

End DateStrings.

(* ===================================================================== *)
(** ** Calendar arithmetic *)
(* ===================================================================== *)

Lemma InLeapYear_bounds (y : Z) : 0 <= Date.InLeapYear y <= 1.
Proof.
  unfold Date.InLeapYear, Date.DaysInYear.
  destruct (y mod 4 =? 0), (y mod 100 =? 0), (y mod 400 =? 0); simpl; lia.
Qed.

Lemma month_offset_bounds (leap m : Z) :
  0 <= leap <= 1 -> 0 <= Date.month_offset leap m <= 335.
Proof.
  intros Hl. unfold Date.month_offset.
  repeat match goal with
         | |- context [if ?b then _ else _] => destruct b
         end; lia.
Qed.

Lemma DayFromYear_bounds (y : Z) :
  -2 <= y <= 10010 -> -800000 <= Date.DayFromYear y <= 3000000.
Proof.
  intros Hy. unfold Date.DayFromYear.
  Z.div_mod_to_equations. lia.
Qed.

Lemma MakeDay_bounds (y m d : Z) :
  0 <= y <= 9999 -> -1 <= m <= 98 -> 0 <= d <= 99 ->
  -801000 <= Date.MakeDay y m d <= 3001000.
Proof.
  intros Hy Hm Hd. unfold Date.MakeDay.
  assert (Hq : -1 <= m / 12 <= 8) by (Z.div_mod_to_equations; lia).
  pose proof (DayFromYear_bounds (y + m / 12) ltac:(lia)).
  pose proof (month_offset_bounds (Date.InLeapYear (y + m / 12)) (m mod 12)
                (InLeapYear_bounds _)).
  lia.
Qed.

Lemma DayFromYear_succ (y : Z) :
  Date.DayFromYear (y + 1) = Date.DayFromYear y + Date.DaysInYear y.
Proof.
  unfold Date.DayFromYear, Date.DaysInYear.
  destruct (Z.eqb_spec (y mod 4) 0), (Z.eqb_spec (y mod 100) 0),
    (Z.eqb_spec (y mod 400) 0); cbn [negb];
    Z.div_mod_to_equations; lia.
Qed.

Lemma DayFromYear_monotone (y y' : Z) :
  y <= y' -> Date.DayFromYear y <= Date.DayFromYear y'.
Proof.
  intros H. unfold Date.DayFromYear. Z.div_mod_to_equations. lia.
Qed.

(** Walking up from a year that is not too late reaches the year of the
    day. *)
Lemma year_search_correct (fuel : nat) (y day target : Z) :
  y <= target -> target - y <= Z.of_nat fuel ->
  Date.DayFromYear target <= day < Date.DayFromYear (target + 1) ->
  Date.year_search fuel y day = target.
Proof.
  revert y. induction fuel as [|fuel IH]; intros y Hle Hfuel Hday.
  - simpl. lia.
  - cbn [Date.year_search].
    destruct (Z.leb_spec (Date.DayFromYear (y + 1)) day) as [Hnext | Hhere].
    + assert (y <> target) by (intros ->; lia).
      apply IH; [lia | lia | exact Hday].
    + destruct (Z.eq_dec y target) as [-> | Hne]; [reflexivity|].
      pose proof (DayFromYear_monotone (y + 1) target ltac:(lia)). lia.
Qed.

Lemma YearFromDay_correct (day target : Z) :
  Date.DayFromYear target <= day < Date.DayFromYear (target + 1) ->
  Date.YearFromDay day = target.
Proof.
  intros Hday. unfold Date.YearFromDay.
  assert (Hlow : 365 * (target - 1970) + (target - 1969) / 4
                 - (target - 1901) / 100 + (target - 1601) / 400 <= day)
    by (unfold Date.DayFromYear in Hday; lia).
  assert (Hhigh : day < 365 * (target + 1 - 1970) + (target + 1 - 1969) / 4
                        - (target + 1 - 1901) / 100 + (target + 1 - 1601) / 400)
    by (unfold Date.DayFromYear in Hday; lia).
  apply year_search_correct; [| | exact Hday].
  - destruct (Z.leb_spec 0 day); Z.div_mod_to_equations; lia.
  - rewrite Z2Nat.id by (Z.div_mod_to_equations; lia).
    destruct (Z.leb_spec 0 day); Z.div_mod_to_equations; lia.
Qed.

(** The calendar fields of a day given by year, month and day of month. *)
Lemma MakeDay_fields (y m d : Z) :
  0 <= m < 12 -> 1 <= d <= Date.DaysInMonth y m ->
  let t := Date.MakeDay y m d * Date.msPerDay in
  Date.YearFromTime t = y
  /\ Date.MonthFromTime t = m
  /\ Date.DateFromTime t = d.
Proof.
  intros Hm Hd t.
  pose proof (InLeapYear_bounds y) as Hleap.
  assert (Hq : m / 12 = 0) by (Z.div_mod_to_equations; lia).
  assert (Hr : m mod 12 = m) by (Z.div_mod_to_equations; lia).
  assert (Hday : Date.Day t
                 = Date.DayFromYear y + Date.month_offset (Date.InLeapYear y) m
                   + d - 1).
  { unfold Date.Day, t, Date.msPerDay. rewrite Z.div_mul by lia.
    unfold Date.MakeDay. now rewrite Hq, Hr, Z.add_0_r. }
  assert (Hinside : 0 <= Date.month_offset (Date.InLeapYear y) m + d - 1
                    < Date.DaysInYear y).
  { unfold Date.DaysInMonth, Date.InLeapYear in *. unfold Date.month_offset in *.
    repeat match goal with
           | H : context [?a =? ?b] |- _ => destruct (Z.eqb_spec a b)
           | |- context [?a =? ?b] => destruct (Z.eqb_spec a b)
           end; lia. }
  assert (Hyear : Date.YearFromTime t = y).
  { unfold Date.YearFromTime. apply YearFromDay_correct.
    rewrite DayFromYear_succ, Hday. lia. }
  assert (Hwithin : Date.DayWithinYear t
                    = Date.month_offset (Date.InLeapYear y) m + d - 1).
  { unfold Date.DayWithinYear. rewrite Hyear, Hday. lia. }
  assert (Hmonth : Date.MonthFromTime t = m).
  { unfold Date.MonthFromTime. rewrite Hwithin, Hyear.
    unfold Date.DaysInMonth, Date.month_offset in *.
    repeat match goal with
           | H : context [?a =? ?b] |- _ => destruct (Z.eqb_spec a b)
           | |- context [?a =? ?b] => destruct (Z.eqb_spec a b)
           end;
      repeat match goal with
             | |- context [?a <? ?b] => destruct (Z.ltb_spec a b)
             end; lia. }
  split; [exact Hyear|]. split; [exact Hmonth|].
  unfold Date.DateFromTime. rewrite Hwithin, Hyear, Hmonth. lia.
Qed.

Section LocalDates.
Context {rt : Runtime}.

(** A date built from calendar components shows these components in local
    time, in every time zone. *)
Lemma local_midnight_fields (y m d : Z) :
  100 <= y -> 1 <= m <= 12 -> 1 <= d <= Date.DaysInMonth y (m - 1) ->
  let t := Spec.local_midnight y m d in
  Date.getFullYear t = y /\ Date.getMonth t = m - 1 /\ Date.getDate t = d.
Proof.
  intros Hy Hm Hd t.
  unfold Date.getFullYear, Date.getMonth, Date.getDate.
  replace (Date.LocalTime t) with (Date.MakeDay y (m - 1) d * Date.msPerDay).
  - apply MakeDay_fields; [lia | exact Hd].
  - unfold t, Spec.local_midnight, Date.LocalTime.
    destruct (Z.ltb_spec y 100); lia.
Qed.

(** [new Date(y, m - 1, d)] on the components of a [YYYY-MM-DD] string is
    always a valid date: local midnight of that calendar day. *)
Lemma of_local_ymd_valid (y m d : Z) :
  Z.abs LocalTZA <= Date.msPerDay ->
  0 <= y <= 9999 -> 0 <= m <= 99 -> 0 <= d <= 99 ->
  Date.of_local_ymd (Js.Num y) (Js.Num (m - 1)) (Js.Num d)
  = Some (Spec.local_midnight y m d).
Proof.
  intros Htz Hy Hm Hd.
  unfold Date.of_local_ymd, Spec.local_midnight, Date.UTC, Date.MakeDate,
    Date.TimeClip.
  replace ((0 <=? y) && (y <=? 99)) with (y <? 100)
    by (destruct (Z.ltb_spec y 100), (Z.leb_spec 0 y), (Z.leb_spec y 99);
        simpl; lia).
  set (yr := if y <? 100 then 1900 + y else y).
  assert (Hyr : 0 <= yr <= 9999)
    by (unfold yr; destruct (Z.ltb_spec y 100); lia).
  pose proof (MakeDay_bounds yr (m - 1) d Hyr ltac:(lia) Hd) as Hday.
  unfold Date.msPerDay in *.
  rewrite Z.add_0_r.
  destruct (Z.leb_spec
              (Z.abs (Date.MakeDay yr (m - 1) d * 86400000 - LocalTZA))
              8640000000000000); [reflexivity | lia].
Qed.

(** The date value of a [YYYY-MM-DD] string on the Web3 page. *)
Lemma exploitDate_ymd (s : string) :
  Z.abs LocalTZA <= Date.msPerDay ->
  Str.is_ymd_pattern s = true ->
  Web3.exploitDate s
  = Some (Spec.local_midnight (Spec.year_of s) (Spec.month_of s)
                              (Spec.day_of s)).
Proof.
  intros Htz Hp. unfold Web3.exploitDate. rewrite Hp.
  destruct (ymd_components s Hp) as (-> & -> & -> & Hy & Hm & Hd).
  cbn [Web3.minus_one]. now apply of_local_ymd_valid.
Qed.

Lemma exploitDate_other (s : string) :
  Str.is_ymd_pattern s = false -> Web3.exploitDate s = Date.parse s.
Proof.
  intros Hp. unfold Web3.exploitDate. now rewrite Hp.
Qed.

End LocalDates.

(* ===================================================================== *)
(** ** The date value behind range filtering and sorting *)
(* ===================================================================== *)

Section DateValues.
Context {rt : Runtime}.

Lemma ymd_truthy (s : string) :
  Str.is_ymd_pattern s = true -> Str.truthy s = true.
Proof.
  destruct s; [discriminate | reflexivity].
Qed.

(** The time-range filter on a record dated by a [YYYY-MM-DD] string. *)
Lemma inTimeRange_ymd (start : option Z) (e : Web3.ExploitDetail) (s : string) :
  Z.abs LocalTZA <= Date.msPerDay ->
  Str.is_ymd_pattern s = true ->
  Web3.date e = Some s ->
  Web3.inTimeRange start e
  = negb (Spec.year_of s <? 2015)
    && Js.ge (Js.Num (Spec.local_midnight (Spec.year_of s) (Spec.month_of s)
                                          (Spec.day_of s)))
             (Js.of_time start).
Proof.
  intros Htz Hp He. unfold Web3.inTimeRange. rewrite He.
  rewrite (ymd_truthy s Hp). cbn [negb].
  unfold Web3.leading_year.
  destruct (ymd_components s Hp) as (Hy & _).
  rewrite Hy. cbn [Js.lt].
  rewrite (exploitDate_ymd s Htz Hp).
  now destruct (Spec.year_of s <? 2015).
Qed.

(** The date comparator on two records dated by [YYYY-MM-DD] strings. *)
Lemma compare_ymd (d : direction) (a b : Web3.ExploitDetail) (s s' : string) :
  Z.abs LocalTZA <= Date.msPerDay ->
  Str.is_ymd_pattern s = true -> Str.is_ymd_pattern s' = true ->
  Web3.date a = Some s -> Web3.date b = Some s' ->
  let t := Spec.local_midnight (Spec.year_of s) (Spec.month_of s)
                               (Spec.day_of s) in
  let t' := Spec.local_midnight (Spec.year_of s') (Spec.month_of s')
                                (Spec.day_of s') in
  Web3.compare {| Web3.key := "date"; Web3.dir := d |} a b
  = match d with asc => t - t' | desc => t' - t end.
Proof.
  intros Htz Hp Hp' Ha Hb t t'.
  unfold Web3.compare, Web3.get, Web3.date_string. cbn.
  rewrite Ha, Hb. cbn.
  rewrite (exploitDate_ymd s Htz Hp), (exploitDate_ymd s' Htz Hp').
  reflexivity.
Qed.

Lemma inTimeRange_unparsable (start : option Z) (e : Web3.ExploitDetail) :
  (forall s, Web3.date e = Some s -> Web3.exploitDate s = None) ->
  Web3.inTimeRange start e = false.
Proof.
  intros Hbad. unfold Web3.inTimeRange.
  destruct (Web3.date e) as [s|]; [|reflexivity].
  rewrite (Hbad s eq_refl).
  destruct (negb (Str.truthy s)); [reflexivity|].
  now destruct (Js.lt (Web3.leading_year s) (Js.Num 2015)).
Qed.

End DateValues.

(** C4 (as amended).  On the Web3 page, for every record whose date string
    matches [YYYY-MM-DD], the date value used by the time-range filter and by
    the date sort is local midnight of the calendar date built from the
    year, month and day components, whatever the generic parser would make
    of the string: when the components name a day of the calendar, the local
    year, month and day of that value are these components in every time
    zone.  Every other string is parsed generically and, when it
    does not parse, the record is excluded by the time-range filter.  On the
    data-breach page every date string, [YYYY-MM-DD] included, is parsed
    generically by the range filter and by the sort. *)
Theorem date_value_by_page (rt : Runtime) (s s' other : string)
    (start : option Z) (d : direction) (bound : string) :
  Z.abs LocalTZA <= Date.msPerDay ->
  Str.is_ymd_pattern s = true ->
  Str.is_ymd_pattern s' = true ->
  Str.is_ymd_pattern other = false ->
  let t := Spec.local_midnight (Spec.year_of s) (Spec.month_of s)
                               (Spec.day_of s) in
  let t' := Spec.local_midnight (Spec.year_of s') (Spec.month_of s')
                                (Spec.day_of s') in
  Web3.exploitDate s = Some t
  /\ (Spec.calendar_date s = true ->
      Date.getFullYear t = Spec.year_of s
      /\ Date.getMonth t = Spec.month_of s - 1
      /\ Date.getDate t = Spec.day_of s)
  /\ (forall e, Web3.date e = Some s ->
        Web3.inTimeRange start e
        = negb (Spec.year_of s <? 2015) && Js.ge (Js.Num t) (Js.of_time start))
  /\ (forall a b, Web3.date a = Some s -> Web3.date b = Some s' ->
        Web3.compare {| Web3.key := "date"; Web3.dir := d |} a b
        = match d with asc => t - t' | desc => t' - t end)
  /\ Web3.exploitDate other = Date.parse other
  /\ (forall e, Web3.date e = Some other -> Date.parse other = None ->
        Web3.inTimeRange start e = false)
  /\ (forall leak, Leaks.breach_date leak = Js.Text s ->
        Leaks.sort_value "breach_date" leak
        = Some (PNum (Js.of_time (Date.parse s)))
        /\ Leaks.onOrAfter bound leak
           = Js.ge (Js.of_time (Date.parse s)) (Js.of_time (Date.parse bound))
        /\ Leaks.onOrBefore bound leak
           = Js.le (Js.of_time (Date.parse s)) (Js.of_time (Date.parse bound))).
Proof.
  intros Htz Hs Hs' Hother t t'.
  split; [|split; [|split; [|split; [|split; [|split]]]]].
  - now apply exploitDate_ymd.
  - unfold Spec.calendar_date. intros Hcal.
    repeat match goal with
           | E : _ && _ = true |- _ => apply andb_prop in E; destruct E
           end.
    apply local_midnight_fields; lia.
  - intros e He. now apply inTimeRange_ymd.
  - intros a b Ha Hb. now apply compare_ymd.
  - now apply exploitDate_other.
  - intros e He Hnone. apply inTimeRange_unparsable.
    intros s0 Hs0. rewrite He in Hs0. injection Hs0 as <-.
    now rewrite exploitDate_other.
  - intros leak Hleak.
    unfold Leaks.sort_value, Leaks.onOrAfter, Leaks.onOrBefore.
    rewrite Hleak. repeat split.
Qed.

(** In New York, 15 January 2024 on the Web3 page, next to a date in
    another format. *)
Lemma date_value_by_page_witness :
  Web3.exploitDate (rt := Engine.new_york) "2024-01-15" = Some 1705294800000
  /\ Date.getDate (rt := Engine.new_york) 1705294800000 = 15
  /\ Web3.exploitDate (rt := Engine.new_york) "Jan 2024"
     = Date.parse (rt := Engine.new_york) "Jan 2024".
Proof.
  destruct (date_value_by_page Engine.new_york "2024-01-15" "2023-12-01"
              "Jan 2024" (Some 0) asc "2024-01-01")
    as (Hymd & Hfields & _ & _ & Hother & _).
  - vm_compute. discriminate.
  - reflexivity.
  - reflexivity.
  - reflexivity.
  - split; [exact Hymd|]. split; [|exact Hother].
    destruct (Hfields eq_refl) as (_ & _ & Hday). exact Hday.
Defined.

(** C4 (as stated) fails on the data-breach page.  In New York the breach
    date "2024-01-15" is parsed generically, as midnight UTC, by the range
    filter and by the sort: five hours before the local midnight that the
    components give and that the Web3 page uses, and on the 14th in local
    time. *)
Lemma breach_dates_are_parsed_generically :
  Str.is_ymd_pattern "2024-01-15" = true
  /\ Leaks.sort_value (rt := Engine.new_york) "breach_date"
       (Sample.leak "x" (Some "2024-01-15"))
     = Some (PNum (Js.Num 1705276800000))
  /\ Spec.local_midnight (rt := Engine.new_york) 2024 1 15 = 1705294800000
  /\ Date.getDate (rt := Engine.new_york) 1705276800000 = 14.
Proof.
  repeat split; reflexivity.
Qed.

(* ===================================================================== *)
(** ** Records without a usable date and the date-range filter *)
(* ===================================================================== *)

Section DateRange.
Context {rt : Runtime}.

Lemma In_sort (A : Type) (cmp : A -> A -> Z) (x : A) (l : list A) :
  In x (Js.sort cmp l) <-> In x l.
Proof.
  split; apply Permutation_in;
    [apply sort_perm | apply Permutation_sym, sort_perm].
Qed.

Lemma In_filter_if (A : Type) (active : bool) (p : A -> bool) (x : A)
      (l : list A) :
  In x (if active then filter p l else l)
  <-> In x l /\ (if active then p x else true) = true.
Proof.
  destruct active.
  - apply filter_In.
  - tauto.
Qed.

(** The records that the filter effect of the data-breach page keeps. *)
Lemma In_filteredLeaks (s : Leaks.State) (leak : Leaks.DataLeak) :
  In leak (Leaks.filteredLeaks s)
  <-> In leak (Leaks.dataLeaks s)
      /\ Spec.leaks_other_criteria s leak = true
      /\ Leaks.inDateRange (Leaks.dateRangeFilter s) leak = true.
Proof.
  unfold Leaks.filteredLeaks, Spec.leaks_other_criteria, Leaks.inDateRange.
  rewrite In_sort, !In_filter_if, !andb_true_iff. tauto.
Qed.

Lemma not_onOrAfter (bound : string) (leak : Leaks.DataLeak) :
  Date.of_field (Leaks.breach_date leak) = None ->
  Leaks.onOrAfter bound leak = false.
Proof.
  unfold Leaks.onOrAfter. now intros ->.
Qed.

Lemma not_onOrBefore (bound : string) (leak : Leaks.DataLeak) :
  Date.of_field (Leaks.breach_date leak) = None ->
  Leaks.onOrBefore bound leak = false.
Proof.
  unfold Leaks.onOrBefore, Js.le. intros ->.
  now destruct (Js.of_time (Date.parse bound)).
Qed.

(** Without a usable date a record is in the range exactly when no bound
    is set. *)
Lemma inDateRange_unparsable (s : Leaks.State) (leak : Leaks.DataLeak) :
  Date.of_field (Leaks.breach_date leak) = None ->
  Leaks.inDateRange (Leaks.dateRangeFilter s) leak
  = negb (Spec.bound_active s).
Proof.
  intros Hbad. unfold Leaks.inDateRange, Spec.bound_active.
  rewrite (not_onOrAfter _ leak Hbad), (not_onOrBefore _ leak Hbad).
  now destruct (Str.truthy (Leaks.startDate (Leaks.dateRangeFilter s))),
               (Str.truthy (Leaks.endDate (Leaks.dateRangeFilter s))).
Qed.

(** A [null] breach date is the first instant of 1970. *)
Lemma inDateRange_null (s : Leaks.State) (leak : Leaks.DataLeak) :
  Leaks.breach_date leak = Js.Null ->
  Leaks.inDateRange (Leaks.dateRangeFilter s) leak = Spec.within_bounds 0 s.
Proof.
  intros Hnull.
  unfold Leaks.inDateRange, Spec.within_bounds, Leaks.onOrAfter,
    Leaks.onOrBefore, Js.le.
  rewrite Hnull. cbn [Date.of_field Js.of_time].
  destruct (Leaks.startDate (Leaks.dateRangeFilter s)) as [|c lower];
    destruct (Leaks.endDate (Leaks.dateRangeFilter s)) as [|c' upper];
    cbn [Str.truthy String.eqb andb];
    repeat match goal with
           | |- context [Date.parse ?b] => destruct (Date.parse b)
           end; reflexivity.
Qed.

Lemma getFilteredData_filter (now : Z) (s : Web3.State) :
  Web3.getFilteredData now s
  = filter (Web3.inTimeRange (Web3.getStartDate now (Web3.timeFilter s)))
           (Web3.exploits s).
Proof.
  unfold Web3.getFilteredData. now destruct (Web3.exploits s).
Qed.

Lemma inTimeRange_unusable (start : option Z) (e : Web3.ExploitDetail) :
  Spec.web3_date_unusable e = true -> Web3.inTimeRange start e = false.
Proof.
  unfold Spec.web3_date_unusable, Web3.inTimeRange.
  destruct (Web3.date e) as [d|]; [|reflexivity].
  destruct (negb (Str.truthy d)); [reflexivity|]. cbn [orb].
  destruct (Web3.exploitDate d); [discriminate|].
  now destruct (Js.lt (Web3.leading_year d) (Js.Num 2015)).
Qed.

End DateRange.

(** C5 (as amended).  On the data-breach page a leak whose [breach_date]
    key is absent or holds a string that does not parse is excluded by the
    date-range filter whenever a start or an end bound is active, and
    passes the date criterion when no bound is active: it is then kept
    exactly when it meets the other criteria.  A leak whose [breach_date]
    is [null] is read as the first instant of 1970 and is kept exactly
    when that instant lies within the active bounds.  On the Web3 page a
    record whose date is missing, empty or unparsable is excluded under
    every time range, "all" included.  The filters are made of date
    constructions and comparisons, which throw nothing; [formatDate], which
    renders the date cell of a row, returns for every string. *)
Theorem unparsable_date_and_range_bounds (rt : Runtime)
    (format_parseISO : string -> option string)
    (s : Leaks.State) (leak : Leaks.DataLeak)
    (now : Z) (u : Web3.State) (e : Web3.ExploitDetail) :
  Spec.leaks_date_unreadable leak = true ->
  Spec.web3_date_unusable e = true ->
  (Spec.bound_active s = true -> ~ In leak (Leaks.filteredLeaks s))
  /\ (Spec.bound_active s = false ->
      (In leak (Leaks.filteredLeaks s)
       <-> In leak (Leaks.dataLeaks s)
           /\ Spec.leaks_other_criteria s leak = true))
  /\ (forall nulled, Leaks.breach_date nulled = Js.Null ->
        (In nulled (Leaks.filteredLeaks s)
         <-> In nulled (Leaks.dataLeaks s)
             /\ Spec.leaks_other_criteria s nulled = true
             /\ Spec.within_bounds 0 s = true))
  /\ ~ In e (Web3.filteredExploits now u)
  /\ (forall text,
        LeaksPage.formatDate format_parseISO (Js.Text text) <> None).
Proof.
  intros Hleak He.
  assert (Hbad : Date.of_field (Leaks.breach_date leak) = None).
  { unfold Spec.leaks_date_unreadable in Hleak. unfold Date.of_field.
    destruct (Leaks.breach_date leak) as [| |text]; try discriminate;
      [reflexivity|].
    now destruct (Date.parse text). }
  pose proof (inDateRange_unparsable s leak Hbad) as Hrange.
  split; [|split; [|split; [|split]]].
  - intros Hactive Hin. apply In_filteredLeaks in Hin as (_ & _ & Hin).
    rewrite Hrange, Hactive in Hin. discriminate.
  - intros Hnone. rewrite In_filteredLeaks, Hrange, Hnone. cbn. tauto.
  - intros nulled Hnull. rewrite In_filteredLeaks.
    rewrite (inDateRange_null s nulled Hnull). tauto.
  - unfold Web3.filteredExploits. rewrite getFilteredData_filter.
    intros Hin. apply filter_In in Hin as (_ & Hin).
    rewrite (inTimeRange_unusable _ e He) in Hin. discriminate.
  - intros text. unfold LeaksPage.formatDate.
    destruct (format_parseISO text); discriminate.
Qed.

(** A leak without a [breach_date] key under an active start bound, and an
    exploit without a date under the "all" time range. *)
Lemma unparsable_date_and_range_bounds_witness :
  ~ In Sample.undated_leak
       (Leaks.filteredLeaks (rt := Engine.utc) Sample.leaks_since_2024)
  /\ ~ In Sample.undated_exploit
          (Web3.filteredExploits (rt := Engine.utc) Sample.now
             (Sample.web3_state (Sample.undated_exploit :: Sample.five_null_one)
                "date" desc)).
Proof.
  destruct (unparsable_date_and_range_bounds Engine.utc (fun _ => None)
              Sample.leaks_since_2024 Sample.undated_leak Sample.now
              (Sample.web3_state (Sample.undated_exploit :: Sample.five_null_one)
                 "date" desc)
              Sample.undated_exploit eq_refl eq_refl)
    as (Hbound & _ & _ & Hweb3 & _).
  split; [apply Hbound; reflexivity | exact Hweb3].
Defined.

(** C5 (as stated) fails in three places.  On the data-breach page a leak
    whose [breach_date] is [null] is kept under an active end bound,
    because [new Date(null)] is the first instant of 1970.  On the Web3
    page an exploit without a date is excluded under "all", where no bound
    is meant to be active.  And rendering the row of a leak whose
    [breach_date] is [null] throws: [formatDate] ends in
    [dateString.split] on [null]. *)
Lemma null_date_passes_an_end_bound :
  Spec.bound_active Sample.leaks_until_2024 = true
  /\ Leaks.breach_date Sample.null_dated_leak = Js.Null
  /\ In Sample.null_dated_leak
        (Leaks.filteredLeaks (rt := Engine.utc) Sample.leaks_until_2024)
  /\ Web3.timeFilter
       (Sample.web3_state (Sample.undated_exploit :: Sample.five_null_one)
          "date" desc) = Web3.All
  /\ ~ In Sample.undated_exploit
          (Web3.filteredExploits (rt := Engine.utc) Sample.now
             (Sample.web3_state (Sample.undated_exploit :: Sample.five_null_one)
                "date" desc))
  /\ (forall format_parseISO,
        LeaksPage.formatDate format_parseISO
          (Leaks.breach_date Sample.null_dated_leak) = None).
Proof.
  split; [reflexivity|]. split; [reflexivity|]. split; [|split; [|split]].
  - vm_compute. auto.
  - reflexivity.
  - vm_compute. intros [H|[H|[H|[]]]]; discriminate H.
  - intros format_parseISO. reflexivity.
Qed.

(* ===================================================================== *)
(** ** Aggregates of the Web3 page *)
(* ===================================================================== *)

Section Aggregates.
Context {rt : Runtime}.

Lemma filter_filter_and (A : Type) (p q : A -> bool) (l : list A) :
  filter q (filter p l) = filter (fun x => p x && q x) l.
Proof.
  induction l as [|x l IH]; simpl; [reflexivity|].
  destruct (p x); simpl; [destruct (q x)|]; now rewrite IH.
Qed.

(** The chain of filters of the page keeps the exploits that meet every
    active filter. *)
Lemma projectFilteredExploits_matches (now : Z) (s : Web3.State) :
  Web3.projectFilteredExploits now s
  = filter (Spec.web3_matches now s) (Web3.exploits s).
Proof.
  unfold Web3.projectFilteredExploits, Web3.categoryFilteredExploits,
    Web3.typeFilteredExploits, Web3.searchFilteredExploits,
    Web3.filteredExploits.
  rewrite getFilteredData_filter, !filter_filter_and.
  apply filter_ext. intros e. unfold Spec.web3_matches.
  now rewrite !andb_assoc.
Qed.

End Aggregates.

(** C6 (as amended).  On the Web3 page the total of funds lost is the sum
    of [funds_lost] (0 for a missing amount), added up from left to right
    in the order of the feed, over exactly the exploits that meet every
    active filter, before pagination; it is the same for every page size
    and every current page.  The sums of the losses chart are taken over
    the exploits of the selected time range, whatever is typed into the
    search box or selected as type or category, and on whatever page. *)
Theorem totalLosses_over_filtered_records (rt : Runtime)
    (now : Z) (s : Web3.State) (size page : Z) (q f c : string) :
  Web3.losses (Web3.render size now (Web3.with_currentPage page s))
  = fold_left (fun sum exploit => sum + Web3.funds exploit)
              (filter (Spec.web3_matches now s) (Web3.exploits s)) 0
  /\ Web3.chart
       (Web3.render size now
          (Web3.with_currentPage page
             (Web3.with_searchQuery q
                (Web3.with_typeFilter f (Web3.with_categoryFilter c s)))))
     = Web3.lossesOverTime
         (filter (Web3.inTimeRange
                    (Web3.getStartDate now (Web3.timeFilter s)))
                 (Web3.exploits s)).
Proof.
  split.
  - cbn [Web3.losses Web3.render]. unfold Web3.totalLosses, Web3.sum_funds.
    rewrite projectFilteredExploits_matches. reflexivity.
  - cbn [Web3.chart Web3.render].
    unfold Web3.lossesOverTimeData, Web3.filteredExploits.
    rewrite getFilteredData_filter. reflexivity.
Qed.

(** C6 (as stated) fails for the sums of the chart.  With "dec" in the
    search box only the exploit of December matches the active filters and
    the total of funds lost is its 3; the chart still shows 5 for January
    2024, the amount of an exploit that the search excludes. *)
Lemma chart_sums_ignore_the_search :
  filter (Spec.web3_matches (rt := Engine.utc) Sample.now Sample.searched_dec)
         (Web3.exploits Sample.searched_dec)
  = [Sample.exploit "dec" (Some 3) (Some "2023-12-01")]
  /\ Web3.losses
       (Web3.render (rt := Engine.utc) Web3.pageSize Sample.now
                    Sample.searched_dec) = 3
  /\ Web3.chart
       (Web3.render (rt := Engine.utc) Web3.pageSize Sample.now
                    Sample.searched_dec)
     = [ {| Web3.label := "Dec 2023"; Web3.value := 3 |};
         {| Web3.label := "Jan 2024"; Web3.value := 5 |} ].
Proof.
  repeat split; reflexivity.
Qed.

(* ===================================================================== *)
(** ** The 2015 guard of the Web3 page *)
(* ===================================================================== *)

Section Guard2015.
Context {rt : Runtime}.

Lemma In_slice (A : Type) (a b : Z) (x : A) (l : list A) :
  In x (Js.slice a b l) -> In x l.
Proof.
  unfold Js.slice. intros H.
  set (k := Z.to_nat (Js.slice_index (Z.of_nat (length l)) a)) in *.
  rewrite <- (firstn_skipn k l). apply in_or_app. right.
  set (tail := skipn k l) in *.
  match type of H with In _ (firstn ?n _) =>
    rewrite <- (firstn_skipn n tail); apply in_or_app; now left
  end.
Qed.

Lemma inTimeRange_not_before_2015 (start : option Z) (e : Web3.ExploitDetail) :
  Web3.inTimeRange start e = true -> Spec.before_2015 e = false.
Proof.
  unfold Web3.inTimeRange, Spec.before_2015, Web3.leading_year,
    Web3.component.
  destruct (Web3.date e) as [s|]; [|discriminate].
  destruct (negb (Str.truthy s)); [discriminate|].
  destruct (Str.split "-" s) as [|year rest]; cbn [nth_error].
  - reflexivity.
  - now destruct (Js.lt (Number year) (Js.Num 2015)).
Qed.

Lemma filteredExploits_pruned (now : Z) (s : Web3.State) :
  Web3.filteredExploits now
    (Web3.with_exploits
       (filter (fun e => negb (Spec.before_2015 e)) (Web3.exploits s)) s)
  = Web3.filteredExploits now s.
Proof.
  unfold Web3.filteredExploits. rewrite !getFilteredData_filter.
  cbn [Web3.exploits Web3.timeFilter Web3.with_exploits].
  rewrite filter_filter_and. apply filter_ext. intros e.
  destruct (Web3.inTimeRange _ e) eqn:Hin.
  - now rewrite (inTimeRange_not_before_2015 _ e Hin).
  - apply andb_false_r.
Qed.

Lemma rows_from_filteredExploits (size now : Z) (s : Web3.State)
      (e : Web3.ExploitDetail) :
  In e (Web3.rows (Web3.render size now s)) ->
  In e (Web3.filteredExploits now s).
Proof.
  cbn [Web3.rows Web3.render]. unfold Web3.paginatedExploits. intros H.
  apply In_slice in H. unfold Web3.sortedExploits in H.
  apply In_sort in H.
  unfold Web3.projectFilteredExploits, Web3.categoryFilteredExploits,
    Web3.typeFilteredExploits, Web3.searchFilteredExploits in H.
  repeat (apply filter_In in H as [H _]).
  exact H.
Qed.

End Guard2015.

(** C9.  On the Web3 page, for every setting of the time filter, a record
    whose date string has a leading component that reads as a number below
    2015 is not in the filtered set; it is in no row of the table, and the
    table, the statistics and the chart are what they would be had the
    record never been loaded. *)
Theorem records_before_2015_are_excluded (rt : Runtime)
    (now : Z) (s : Web3.State) (size : Z) (e : Web3.ExploitDetail) :
  Spec.before_2015 e = true ->
  ~ In e (Web3.filteredExploits now s)
  /\ ~ In e (Web3.rows (Web3.render size now s))
  /\ Web3.render size now
       (Web3.with_exploits
          (filter (fun x => negb (Spec.before_2015 x)) (Web3.exploits s)) s)
     = Web3.render size now s.
Proof.
  intros Hold.
  assert (Hout : ~ In e (Web3.filteredExploits now s)).
  { unfold Web3.filteredExploits. rewrite getFilteredData_filter.
    intros Hin. apply filter_In in Hin as (_ & Hin).
    apply inTimeRange_not_before_2015 in Hin. congruence. }
  split; [exact Hout|]. split.
  - intros Hin. apply Hout. now apply rows_from_filteredExploits in Hin.
  - unfold Web3.render, Web3.paginatedExploits, Web3.totalPages,
      Web3.sortedExploits, Web3.totalLosses, Web3.lossesOverTimeData,
      Web3.projectFilteredExploits, Web3.categoryFilteredExploits,
      Web3.typeFilteredExploits, Web3.searchFilteredExploits.
    rewrite filteredExploits_pruned. reflexivity.
Qed.

(** An exploit dated June 2014 under the "all" time range. *)
Lemma records_before_2015_are_excluded_witness :
  ~ In Sample.exploit_of_2014
       (Web3.filteredExploits (rt := Engine.utc) Sample.now
          (Sample.web3_state (Sample.exploit_of_2014 :: Sample.five_null_one)
             "date" desc)).
Proof.
  destruct (records_before_2015_are_excluded Engine.utc Sample.now
              (Sample.web3_state (Sample.exploit_of_2014 :: Sample.five_null_one)
                 "date" desc)
              Web3.pageSize Sample.exploit_of_2014 eq_refl)
    as (Hout & _).
  exact Hout.
Defined.

(* ===================================================================== *)
(** ** Status of a version that ends today *)
(* ===================================================================== *)

Section EolStatus.
Context {rt : Runtime}.

Lemma below_zero_days (bound : Z) : Eol.below (Some (Js.Num 0)) bound = false.
Proof. reflexivity. Qed.

Lemma flatten_in_processData (today : Z)
      (data : list (string * list Eol.SoftwareVersion))
      (nm : string) (versions : list Eol.SoftwareVersion)
      (v : Eol.SoftwareVersion) :
  In (nm, versions) data -> In v versions ->
  In (Eol.flatten_version today nm v) (Eol.processData today data).
Proof.
  intros Hd Hv. unfold Eol.processData. apply in_flat_map.
  exists (nm, versions). split; [exact Hd|].
  cbn [fst snd]. now apply in_map.
Qed.

End EolStatus.

(** C10.  On the end-of-life page a version whose [eol] is a date string
    with no whole day left until today ([daysRemaining] is 0) gets the
    status "Active": each threshold test asks first that [daysRemaining] be
    truthy, and 0 is not. *)
Theorem eol_today_is_active (rt : Runtime) (today : Z)
    (data : list (string * list Eol.SoftwareVersion))
    (nm : string) (versions : list Eol.SoftwareVersion)
    (v : Eol.SoftwareVersion) (s : string) :
  In (nm, versions) data -> In v versions ->
  Eol.eol v = Some (PStr s) ->
  differenceInDays (Date.parse s) (Some today) = Js.Num 0 ->
  let r := Eol.flatten_version today nm v in
  In r (Eol.processData today data)
  /\ Eol.daysRemaining r = Js.Num 0
  /\ Eol.status r = "Active"
  /\ Eol.status r <> "Expired"
  /\ Eol.status r <> "Critical".
Proof.
  intros Hd Hv Heol Hdays r.
  assert (Hr : Eol.daysRemaining_of today v = Some (Js.Num 0)).
  { unfold Eol.daysRemaining_of, Eol.eolDate_of. now rewrite Heol, Hdays. }
  assert (Hs : Eol.status r = "Active").
  { unfold r. cbn [Eol.status Eol.flatten_version].
    unfold Eol.status_of, Eol.eolDate_of, Eol.eol_is_false.
    rewrite Hr, Heol. now rewrite !below_zero_days. }
  split; [now apply flatten_in_processData with (versions := versions)|].
  split.
  - unfold r. cbn [Eol.daysRemaining Eol.flatten_version]. now rewrite Hr.
  - rewrite Hs. repeat split; discriminate.
Qed.

(** A version whose end of life is 1 March 2024, seen at noon that day. *)
Lemma eol_today_is_active_witness :
  Eol.status (Eol.flatten_version (rt := Engine.utc) Sample.now "django"
                Sample.ends_today) = "Active".
Proof.
  destruct (eol_today_is_active Engine.utc Sample.now
              [("django", [Sample.ends_today])] "django" [Sample.ends_today]
              Sample.ends_today "2024-03-01")
    as (_ & _ & Hstatus & _).
  - now left.
  - now left.
  - reflexivity.
  - reflexivity.
  - exact Hstatus.
Defined.

(* ===================================================================== *)
(** ** The edge proxy *)
(* ===================================================================== *)

Section ProxyFacts.

Lemma truthy_not_empty (s : string) : Str.truthy s = negb (s == "").
Proof. now destruct s. Qed.

Lemma unauthorized_token_rejected (request : Proxy.Request) (env : Proxy.Env) :
  Proxy.unauthorized request env = Spec.token_rejected request env.
Proof.
  unfold Proxy.unauthorized, Spec.token_rejected.
  destruct (Proxy.UPSTREAM_PROXY_TOKEN env) as [token|]; [|reflexivity].
  rewrite truthy_not_empty.
  destruct (String.eqb_spec token "") as [-> | Htoken]; [reflexivity|].
  cbn [negb andb].
  destruct (Proxy.x_upstream_token request) as [provided|]; [|reflexivity].
  destruct (String.eqb_spec provided token) as [-> | Hne].
  - rewrite truthy_not_empty.
    destruct (String.eqb_spec token ""); [contradiction | reflexivity].
  - apply orb_true_r.
Qed.

Lemma headers_get_delete (name : string) (h : Proxy.Headers) :
  Proxy.headers_get name (Proxy.headers_delete name h) = None.
Proof.
  unfold Proxy.headers_get, Proxy.headers_delete.
  induction h as [|entry h IH]; simpl; [reflexivity|].
  destruct (fst entry == name) eqn:E; simpl; [exact IH|].
  now rewrite E.
Qed.

Lemma headers_get_delete_other (name other : string) (h : Proxy.Headers) :
  name <> other ->
  Proxy.headers_get name (Proxy.headers_delete other h)
  = Proxy.headers_get name h.
Proof.
  intros Hne. unfold Proxy.headers_get, Proxy.headers_delete.
  induction h as [|entry h IH]; simpl; [reflexivity|].
  destruct (String.eqb_spec (fst entry) other) as [Ho | Ho]; simpl.
  - destruct (String.eqb_spec (fst entry) name); [congruence | exact IH].
  - destruct (fst entry == name); [reflexivity | exact IH].
Qed.

Lemma headers_get_set (name value : string) (h : Proxy.Headers) :
  Proxy.headers_get name (Proxy.headers_set name value h) = Some value.
Proof.
  unfold Proxy.headers_get.
  induction h as [|entry h IH]; simpl.
  - now rewrite String.eqb_refl.
  - destruct (fst entry == name) eqn:E; simpl.
    + now rewrite String.eqb_refl.
    + now rewrite E.
Qed.

Lemma headers_get_set_other (name other value : string) (h : Proxy.Headers) :
  name <> other ->
  Proxy.headers_get name (Proxy.headers_set other value h)
  = Proxy.headers_get name h.
Proof.
  intros Hne.
  induction h as [|entry h IH]; simpl.
  - unfold Proxy.headers_get. simpl.
    destruct (String.eqb_spec other name); [congruence | reflexivity].
  - destruct (String.eqb_spec (fst entry) other) as [Ho | Ho].
    + pose proof (headers_get_delete_other name other h Hne) as Hd.
      unfold Proxy.headers_get in *. simpl.
      destruct (String.eqb_spec other name); [congruence|].
      destruct (String.eqb_spec (fst entry) name); [congruence|].
      exact Hd.
    + unfold Proxy.headers_get in *. simpl.
      destruct (fst entry == name); [reflexivity | exact IH].
Qed.

(** What [relay] makes of the answer of the origin. *)
Lemma relay_ok (upstream : Proxy.Upstream) :
  Proxy.ok upstream = true ->
  exists response,
    Proxy.relay upstream = Proxy.Returns response
    /\ Proxy.status response = 200
    /\ Proxy.body response = Proxy.up_body upstream
    /\ Proxy.headers_get "set-cookie" (Proxy.headers response) = None
    /\ Proxy.headers_get "cache-control" (Proxy.headers response)
       = Some "public, max-age=300"
    /\ forall name, name <> "set-cookie" -> name <> "cache-control" ->
         Proxy.headers_get name (Proxy.headers response)
         = Proxy.headers_get name (Proxy.up_headers upstream).
Proof.
  intros Hok. unfold Proxy.relay. rewrite Hok. cbn [negb].
  eexists. split; [reflexivity|]. cbn.
  repeat split.
  - apply headers_get_delete.
  - rewrite headers_get_delete_other by discriminate.
    apply headers_get_set.
  - intros name Hc Hcc.
    rewrite headers_get_delete_other by assumption.
    now apply headers_get_set_other.
Qed.

Lemma relay_not_ok (upstream : Proxy.Upstream) :
  Proxy.ok upstream = false ->
  Proxy.relay upstream
  = if Spec.relayed_status (Proxy.up_status upstream)
    then Proxy.Returns (Proxy.plain "Upstream unavailable"
                                    (Proxy.up_status upstream))
    else Proxy.Throws (if Proxy.up_status upstream =? 304
                       then Proxy.TypeError else Proxy.RangeError).
Proof.
  unfold Proxy.ok, Proxy.relay, Proxy.new_Response, Proxy.null_body_status,
    Spec.relayed_status.
  intros Hok. unfold Proxy.ok. rewrite Hok. cbn [negb].
  set (code := Proxy.up_status upstream) in *.
  destruct (Z.leb_spec 200 code), (Z.leb_spec code 299); try discriminate;
    destruct (Z.leb_spec code 599); destruct (Z.leb_spec 300 code);
    try lia; cbn [andb negb orb];
    repeat match goal with
           | |- context [code =? ?n] => destruct (Z.eqb_spec code n)
           end; try lia; reflexivity.
Qed.

(** Every path of the literal form [/{4 digits}.json] passes the test of
    the worker. *)
Lemma year_file_path_accepted (pathname : string) :
  Spec.year_file_path pathname = true ->
  Str.is_year_json (Str.drop_leading "/" pathname) = true.
Proof.
  unfold Spec.year_file_path.
  destruct pathname as [|c file]; [discriminate|].
  destruct (Ascii.eqb_spec c "/") as [-> | Hc].
  - intros Hfile. cbn [Str.drop_leading]. rewrite Ascii.eqb_refl.
    destruct file as [|d rest]; [discriminate|].
    cbn [Str.drop_leading].
    destruct (Ascii.eqb_spec d "/") as [-> | _]; [|exact Hfile].
    unfold Str.is_year_json in Hfile.
    do 8 (destruct rest as [|? rest]; [discriminate|]).
    destruct rest; discriminate.
  - intros H. exfalso.
    destruct c as [[] [] [] [] [] [] [] []]; try discriminate H.
    now apply Hc.
Qed.

End ProxyFacts.

(** C8 (as amended).  For every request to the edge proxy: if a token is
    configured and the [x-upstream-token] header is missing or unequal to
    it, the status is 401; otherwise, if the request path with its leading
    slashes removed does not match [{4 digits}.json], the status is 404;
    otherwise, if no origin base URL is configured, the status is 500;
    otherwise the request is forwarded to the origin base URL (without
    trailing slashes), a slash and that path.  When the origin answers, a
    status from 300 to 599 other than 304 is passed through, and a
    successful response has status 200, the upstream body, no [set-cookie]
    header, [Cache-Control: public, max-age=300] and every other header of
    the upstream response. *)
Theorem proxy_responses (request : Proxy.Request) (env : Proxy.Env)
    (net : string -> option Proxy.Upstream) :
  let outcome := Proxy.run net (Proxy.fetch request env) in
  let path := Str.drop_leading "/" (Proxy.pathname request) in
  let answers code :=
    exists response,
      outcome = Proxy.Returns response /\ Proxy.status response = code in
  if Spec.token_rejected request env then answers 401
  else if negb (Str.is_year_json path) then answers 404
  else if negb (Spec.origin_configured env) then answers 500
  else
    exists origin,
      Proxy.ORIGIN_BASE_URL env = Some origin
      /\ let target := (Str.drop_trailing "/" origin ++ "/" ++ path)%string in
         Proxy.fetch request env = Proxy.Forward target Proxy.relay
         /\ match net target with
            | None => True
            | Some upstream =>
                if Proxy.ok upstream
                then exists response,
                    outcome = Proxy.Returns response
                    /\ Proxy.status response = 200
                    /\ Proxy.body response = Proxy.up_body upstream
                    /\ Proxy.headers_get "set-cookie" (Proxy.headers response)
                       = None
                    /\ Proxy.headers_get "cache-control"
                         (Proxy.headers response)
                       = Some "public, max-age=300"
                    /\ forall name,
                         name <> "set-cookie" -> name <> "cache-control" ->
                         Proxy.headers_get name (Proxy.headers response)
                         = Proxy.headers_get name (Proxy.up_headers upstream)
                else if Spec.relayed_status (Proxy.up_status upstream)
                then answers (Proxy.up_status upstream)
                else True
            end.
Proof.
  intros outcome path answers. unfold answers, outcome, Proxy.fetch.
  rewrite unauthorized_token_rejected.
  destruct (Spec.token_rejected request env);
    [eexists; split; reflexivity|].
  fold path. unfold Proxy.path_of. fold path.
  destruct (negb (Str.is_year_json path)); [eexists; split; reflexivity|].
  unfold Spec.origin_configured.
  destruct (Proxy.ORIGIN_BASE_URL env) as [origin|];
    [|eexists; split; reflexivity].
  rewrite truthy_not_empty.
  destruct (negb (origin == "")); [|eexists; split; reflexivity].
  cbn [negb]. exists origin. split; [reflexivity|].
  cbn zeta. split; [reflexivity|].
  cbn [Proxy.run].
  destruct (net _) as [upstream|]; [|exact I].
  destruct (Proxy.ok upstream) eqn:Hok.
  - now apply relay_ok.
  - rewrite (relay_not_ok upstream Hok).
    destruct (Spec.relayed_status (Proxy.up_status upstream)); [|exact I].
    eexists. split; reflexivity.
Qed.

(** C8 (as stated) fails on a path with a doubled slash: [//2026.json] does
    not match [/{4 digits}.json], yet the worker strips the leading slashes,
    forwards the request to the origin and answers 200, not 404. *)
Lemma doubled_slash_is_forwarded :
  Spec.token_rejected Sample.doubled_slash Sample.open_proxy = false
  /\ Spec.year_file_path (Proxy.pathname Sample.doubled_slash) = false
  /\ Proxy.fetch Sample.doubled_slash Sample.open_proxy
     = Proxy.Forward "https://origin.example/2026.json" Proxy.relay
  /\ exists response,
       Proxy.run Sample.origin_ok
         (Proxy.fetch Sample.doubled_slash Sample.open_proxy)
       = Proxy.Returns response
       /\ Proxy.status response = 200
       /\ Proxy.status response <> 404.
Proof.
  split; [reflexivity|]. split; [reflexivity|]. split; [reflexivity|].
  eexists. split; [reflexivity|]. split; [reflexivity|]. discriminate.
Qed.

(* ===================================================================== *)
(** ** Months in chronological order *)
(* ===================================================================== *)

Lemma DayFromYear_next (y : Z) :
  Date.DayFromYear y + 365 <= Date.DayFromYear (y + 1).
Proof.
  unfold Date.DayFromYear. Z.div_mod_to_equations. lia.
Qed.

Lemma month_offset_next (leap m : Z) :
  0 <= leap <= 1 -> 0 <= m < 11 ->
  Date.month_offset leap m < Date.month_offset leap (m + 1).
Proof.
  intros Hl Hm.
  unfold Date.month_offset.
  repeat match goal with
         | |- context [?a =? ?b] => destruct (Z.eqb_spec a b)
         end; lia.
Qed.

(** The first day of a month comes before the first day of the next. *)
Lemma MakeDay_next_month (k : Z) : Date.MakeDay 0 k 1 < Date.MakeDay 0 (k + 1) 1.
Proof.
  unfold Date.MakeDay. rewrite !Z.add_0_l.
  pose proof (Z.mod_pos_bound k 12 ltac:(lia)) as Hm.
  pose proof (InLeapYear_bounds (k / 12)) as Hleap.
  destruct (Z.eq_dec (k mod 12) 11) as [Hlast | Hnot].
  - assert (Hq : (k + 1) / 12 = k / 12 + 1) by (Z.div_mod_to_equations; lia).
    assert (Hr : (k + 1) mod 12 = 0) by (Z.div_mod_to_equations; lia).
    rewrite Hq, Hr, Hlast.
    pose proof (DayFromYear_next (k / 12)).
    pose proof (month_offset_bounds (Date.InLeapYear (k / 12)) 11 Hleap).
    change (Date.month_offset (Date.InLeapYear (k / 12 + 1)) 0) with 0.
    lia.
  - assert (Hq : (k + 1) / 12 = k / 12) by (Z.div_mod_to_equations; lia).
    assert (Hr : (k + 1) mod 12 = k mod 12 + 1)
      by (Z.div_mod_to_equations; lia).
    rewrite Hq, Hr.
    pose proof (month_offset_next (Date.InLeapYear (k / 12)) (k mod 12)
                  Hleap ltac:(lia)).
    lia.
Qed.

Lemma MakeDay_months_increase (k k' : Z) :
  k < k' -> Date.MakeDay 0 k 1 < Date.MakeDay 0 k' 1.
Proof.
  intros Hlt. replace k' with (k + 1 + (k' - k - 1)) by lia.
  assert (Hn : 0 <= k' - k - 1) by lia.
  revert Hn. generalize (k' - k - 1). clear k' Hlt.
  apply natlike_ind.
  - rewrite Z.add_0_r. apply MakeDay_next_month.
  - intros n Hn IH.
    pose proof (MakeDay_next_month (k + 1 + n)) as Hstep.
    replace (k + 1 + Z.succ n) with (k + 1 + n + 1) by lia. lia.
Qed.

Section Months.
Context {rt : Runtime}.


Lemma MonthFromTime_range (t : Z) : 0 <= Date.MonthFromTime t < 12.
Proof.
  unfold Date.MonthFromTime.
  repeat match goal with
         | |- context [if ?b then _ else _] => destruct b
         end; lia.
Qed.


End Months.


(* ===================================================================== *)
(** ** The losses chart *)
(* ===================================================================== *)

Section FirstSeen.





End FirstSeen.

Section SortedMonths.



End SortedMonths.

Section Chart.
Context {rt : Runtime}.


















End Chart.



(** C7 at a failing input.  The exploits dated 2024-01-15 and 2023-12-01
    pass the time-range filter, which reads "2023-12-01" as 1 December,
    local time.  The chart reads the same string with [new Date(string)],
    as midnight UTC: five hours behind UTC that instant is 30 November, and
    the series is "Nov 2023", "Jan 2024".  At UTC it is "Dec 2023",
    "Jan 2024". *)
Lemma chart_month_shifts_west_of_utc :
  Web3.filteredExploits (rt := Engine.new_york) Sample.now
    (Sample.web3_state Sample.jan_then_dec "date" desc)
  = Sample.jan_then_dec
  /\ Web3.lossesOverTimeData (rt := Engine.new_york) Sample.now
       (Sample.web3_state Sample.jan_then_dec "date" desc)
     = [ {| Web3.label := "Nov 2023"; Web3.value := 3 |};
         {| Web3.label := "Jan 2024"; Web3.value := 5 |} ]
  /\ option_map (fun t => (Date.getFullYear (rt := Engine.new_york) t,
                           Date.getMonth (rt := Engine.new_york) t,
                           Date.getDate (rt := Engine.new_york) t))
                (Web3.exploitDate (rt := Engine.new_york) "2023-12-01")
     = Some (2023, 11, 1)
  /\ option_map (fun t => (Date.getFullYear (rt := Engine.new_york) t,
                           Date.getMonth (rt := Engine.new_york) t,
                           Date.getDate (rt := Engine.new_york) t))
                (Date.parse (rt := Engine.new_york) "2023-12-01")
     = Some (2023, 10, 30)
  /\ Web3.lossesOverTimeData (rt := Engine.utc) Sample.now
       (Sample.web3_state Sample.jan_then_dec "date" desc)
     = [ {| Web3.label := "Dec 2023"; Web3.value := 3 |};
         {| Web3.label := "Jan 2024"; Web3.value := 5 |} ].
Proof.
  repeat split; reflexivity.
Qed.

(* ===================================================================== *)
(** * The rest of the pages *)
(* ===================================================================== *)

(* ===================================================================== *)
(** ** The pagination controls *)
(* ===================================================================== *)

Lemma from_length_In (A : Type) (n : Z) (f : Z -> A) (x : A) :
  In x (Arr.from_length n f) <-> exists i, 0 <= i < n /\ x = f i.
Proof.
  unfold Arr.from_length. rewrite in_map_iff. split.
  - intros [i [Hx Hi]]. apply in_seq in Hi. exists (Z.of_nat i). split; [lia|].
    now symmetry.
  - intros [i [Hi Hx]]. exists (Z.to_nat i). split.
    + rewrite Z2Nat.id by lia. now symmetry.
    + apply in_seq. lia.
Qed.

Lemma from_length_length (A : Type) (n : Z) (f : Z -> A) :
  length (Arr.from_length n f) = Z.to_nat n.
Proof. unfold Arr.from_length. now rewrite length_map, length_seq. Qed.

Lemma pageNum_from_first (totalPages currentPage i : Z) :
  Pager.pageNum totalPages currentPage i
  = Pager.pageNum totalPages currentPage 0 + i.
Proof.
  unfold Pager.pageNum.
  destruct (totalPages <=? 5); [lia|].
  destruct (currentPage <=? 3); [lia|].
  destruct (totalPages - 2 <=? currentPage); lia.
Qed.

Lemma pageOptions_In (totalPages p : Z) :
  In p (Pager.pageOptions totalPages) <-> 1 <= p <= totalPages.
Proof.
  unfold Pager.pageOptions. rewrite from_length_In. split.
  - intros [i [Hi Hp]]. lia.
  - intros Hp. exists (p - 1). lia.
Qed.

Lemma pageButtons_In (totalPages currentPage p : Z) :
  In p (Pager.pageButtons totalPages currentPage)
  <-> Pager.pageNum totalPages currentPage 0 <= p
      < Pager.pageNum totalPages currentPage 0 + Z.min 5 totalPages.
Proof.
  unfold Pager.pageButtons. rewrite from_length_In. split.
  - intros [i [Hi Hp]]. rewrite pageNum_from_first in Hp. lia.
  - intros Hp. exists (p - Pager.pageNum totalPages currentPage 0).
    split; [lia|]. rewrite pageNum_from_first. lia.
Qed.

Lemma pageButtons_range (totalPages currentPage p : Z) :
  1 <= currentPage <= totalPages ->
  In p (Pager.pageButtons totalPages currentPage) -> 1 <= p <= totalPages.
Proof.
  intros Hc Hp. apply pageButtons_In in Hp. revert Hp.
  unfold Pager.pageNum.
  destruct (Z.leb_spec totalPages 5); [lia|].
  destruct (Z.leb_spec currentPage 3); [lia|].
  destruct (Z.leb_spec (totalPages - 2) currentPage); lia.
Qed.

Lemma selectable_range (totalPages currentPage p : Z) :
  1 <= currentPage <= totalPages ->
  Pager.selectable totalPages currentPage p -> 1 <= p <= totalPages.
Proof.
  intros Hc [[Hp _]|[Hp|Hp]].
  - lia.
  - now apply pageButtons_range with currentPage.
  - now apply pageOptions_In.
Qed.

(** The page buttons: on a page of the table there are five of them (one
    per page when there are fewer than five pages), they carry consecutive
    page numbers, each of them is a page of the table, and one of them is
    the current page. *)
Theorem page_buttons_around_current (totalPages currentPage : Z) :
  1 <= currentPage <= totalPages ->
  let buttons := Pager.pageButtons totalPages currentPage in
  Z.of_nat (length buttons) = Z.min 5 totalPages
  /\ (exists first,
        forall p, In p buttons <-> first <= p < first + Z.min 5 totalPages)
  /\ (forall p, In p buttons -> 1 <= p <= totalPages)
  /\ In currentPage buttons.
Proof.
  intros Hc buttons. unfold buttons. split; [|split; [|split]].
  - unfold Pager.pageButtons. rewrite from_length_length. lia.
  - exists (Pager.pageNum totalPages currentPage 0). intros p.
    apply pageButtons_In.
  - intros p. now apply pageButtons_range.
  - apply pageButtons_In. unfold Pager.pageNum.
    destruct (Z.leb_spec totalPages 5); [lia|].
    destruct (Z.leb_spec currentPage 3); [lia|].
    destruct (Z.leb_spec (totalPages - 2) currentPage); lia.
Qed.

Lemma page_buttons_around_current_witness :
  let buttons := Pager.pageButtons 9 7 in
  Z.of_nat (length buttons) = Z.min 5 9
  /\ (exists first, forall p, In p buttons <-> first <= p < first + Z.min 5 9)
  /\ (forall p, In p buttons -> 1 <= p <= 9)
  /\ In 7 buttons.
Proof. apply (page_buttons_around_current 9 7). lia. Defined.

Section Pages.
Variable A : Type.

Lemma firstn_add_skipn (a b : nat) (l : list A) :
  firstn (a + b) l = firstn a l ++ firstn b (skipn a l).
Proof.
  revert l. induction a as [|a IH]; intros l; [reflexivity|].
  destruct l as [|x l]; simpl.
  - now rewrite firstn_nil.
  - now rewrite IH.
Qed.

Lemma windows_prefix (size : nat) (l : list A) (k : nat) :
  concat (map (fun i => firstn size (skipn (i * size) l)) (seq 0 k))
  = firstn (k * size) l.
Proof.
  induction k as [|k IH]; [reflexivity|].
  rewrite seq_S, map_app, concat_app, IH. simpl.
  rewrite app_nil_r.
  replace (size + k * size)%nat with (k * size + size)%nat by lia.
  now rewrite firstn_add_skipn.
Qed.

(** The pages of a list, one after the other, are the list. *)
Lemma pages_concat (size : Z) (l : list A) :
  1 <= size ->
  concat (map (fun p => Js.slice ((p - 1) * size) (p * size) l)
              (Pager.pageOptions
                 (Js.Math_ceil_div (Z.of_nat (length l)) size)))
  = l.
Proof.
  intros Hsize.
  rewrite Math_ceil_div_ceiling by lia.
  pose proof (ceiling_spec (Z.of_nat (length l)) size ltac:(lia)) as Hc.
  set (pages := Spec.ceiling (Z.of_nat (length l)) size) in *.
  assert (0 <= pages) by nia.
  unfold Pager.pageOptions, Arr.from_length. rewrite map_map.
  rewrite map_ext_in
    with (g := fun i => firstn (Z.to_nat size)
                               (skipn (i * Z.to_nat size) l)).
  - rewrite windows_prefix. apply firstn_all2. nia.
  - intros i Hi. apply in_seq in Hi.
    rewrite window_is_slice by lia. unfold Spec.window.
    do 2 f_equal. nia.
Qed.

Lemma slice_page (page size : Z) (l : list A) :
  1 <= size ->
  1 <= page <= Js.Math_ceil_div (Z.of_nat (length l)) size ->
  let from := Pager.showingFrom page size in
  let to := Pager.showingTo page size (length l) in
  let shown := Js.slice ((page - 1) * size) (page * size) l in
  1 <= from <= to /\ to <= Z.of_nat (length l)
  /\ Z.of_nat (length shown) = to - from + 1
  /\ shown = firstn (Z.to_nat (to - from + 1)) (skipn (Z.to_nat (from - 1)) l).
Proof.
  intros Hsize Hpage from to shown.
  rewrite Math_ceil_div_ceiling in Hpage by lia.
  pose proof (ceiling_spec (Z.of_nat (length l)) size ltac:(lia)) as Hc.
  set (pages := Spec.ceiling (Z.of_nat (length l)) size) in *.
  unfold from, to, shown, Pager.showingFrom, Pager.showingTo.
  rewrite window_is_slice by lia. unfold Spec.window.
  assert (Hlow : (page - 1) * size < Z.of_nat (length l)) by nia.
  assert (0 <= (page - 1) * size) by nia.
  replace ((page - 1) * size + 1 - 1) with ((page - 1) * size) by lia.
  rewrite length_firstn, length_skipn.
  destruct (Z.min_spec (page * size) (Z.of_nat (length l))) as [[Hm ->]|[Hm ->]].
  - split; [lia|]. split; [lia|]. split; [lia|].
    f_equal. lia.
  - split; [lia|]. split; [lia|]. split; [lia|].
    rewrite firstn_all2 by (rewrite length_skipn; lia).
    symmetry. apply firstn_all2. rewrite length_skipn. lia.
Qed.

End Pages.


(** The pages of a table partition its rows: the rows of page 1, page 2,
    ... up to the last page of the page select, one after the other, are
    the sorted rows, each exactly once and in order.  So it is on the
    end-of-life page, on the data-breach page and on the Web3 page. *)
Theorem pages_partition_rows (rt : Runtime) (now : Z) (e : Eol.State)
    (k : Leaks.State) (w : Web3.State) :
  1 <= Eol.itemsPerPage e -> 1 <= Leaks.itemsPerPage k ->
  concat (map (fun p => Eol.paginatedData (Eol.with_currentPage p e))
              (Pager.pageOptions (Eol.totalPages e)))
  = Eol.sortedData e
  /\ concat (map (fun p => Leaks.paginatedData (Leaks.with_currentPage p k))
                 (Pager.pageOptions (Leaks.totalPages k)))
     = Leaks.filteredLeaks k
  /\ concat (map (fun p => Web3.paginatedExploits Web3.pageSize now
                             (Web3.with_currentPage p w))
                 (Pager.pageOptions (Web3.totalPages Web3.pageSize now w)))
     = Web3.sortedExploits now w.
Proof.
  intros He Hk. split; [|split].
  - unfold Eol.totalPages.
    rewrite <- (sort_length _ (Eol.compare (Eol.sortConfig e))).
    exact (pages_concat _ (Eol.itemsPerPage e) (Eol.sortedData e) He).
  - exact (pages_concat _ (Leaks.itemsPerPage k) (Leaks.filteredLeaks k) Hk).
  - apply (pages_concat _ Web3.pageSize (Web3.sortedExploits now w)).
    unfold Web3.pageSize. lia.
Qed.

Lemma pages_partition_rows_witness :
  concat (map (fun p => Eol.paginatedData (rt := Engine.utc)
                          (Eol.with_currentPage p Sample.eol_page_two))
              (Pager.pageOptions
                 (Eol.totalPages (rt := Engine.utc) Sample.eol_page_two)))
  = Eol.sortedData (rt := Engine.utc) Sample.eol_page_two
  /\ concat (map (fun p => Leaks.paginatedData (rt := Engine.utc)
                             (Leaks.with_currentPage p Sample.leaks_page_two))
                 (Pager.pageOptions
                    (Leaks.totalPages (rt := Engine.utc)
                                      Sample.leaks_page_two)))
     = Leaks.filteredLeaks (rt := Engine.utc) Sample.leaks_page_two
  /\ concat (map (fun p => Web3.paginatedExploits (rt := Engine.utc)
                             Web3.pageSize Sample.now
                             (Web3.with_currentPage p
                                (Web3.initial Sample.jan_then_dec)))
                 (Pager.pageOptions
                    (Web3.totalPages (rt := Engine.utc) Web3.pageSize
                       Sample.now (Web3.initial Sample.jan_then_dec))))
     = Web3.sortedExploits (rt := Engine.utc) Sample.now
         (Web3.initial Sample.jan_then_dec).
Proof.
  apply (pages_partition_rows Engine.utc Sample.now Sample.eol_page_two
           Sample.leaks_page_two (Web3.initial Sample.jan_then_dec));
    vm_compute; discriminate.
Defined.

(** The line "Showing X to Y of N" above the page buttons of the
    end-of-life and data-breach tables: on a page of the table, X and Y
    are the positions of the first and of the last row shown, counted from
    1 in the sorted rows, both within 1..N, and the table shows Y - X + 1
    rows. *)
Theorem showing_line_matches_rows (rt : Runtime) (e : Eol.State)
    (k : Leaks.State) :
  1 <= Eol.itemsPerPage e -> 1 <= Eol.currentPage e <= Eol.totalPages e ->
  1 <= Leaks.itemsPerPage k ->
  1 <= Leaks.currentPage k <= Leaks.totalPages k ->
  (let from := Pager.showingFrom (Eol.currentPage e) (Eol.itemsPerPage e) in
   let to := Pager.showingTo (Eol.currentPage e) (Eol.itemsPerPage e)
                             (length (Eol.filteredData e)) in
   1 <= from <= to /\ to <= Z.of_nat (length (Eol.filteredData e))
   /\ Z.of_nat (length (Eol.paginatedData e)) = to - from + 1
   /\ Eol.paginatedData e
      = firstn (Z.to_nat (to - from + 1))
               (skipn (Z.to_nat (from - 1)) (Eol.sortedData e)))
  /\ (let from := Pager.showingFrom (Leaks.currentPage k)
                                    (Leaks.itemsPerPage k) in
      let to := Pager.showingTo (Leaks.currentPage k) (Leaks.itemsPerPage k)
                                (length (Leaks.filteredLeaks k)) in
      1 <= from <= to /\ to <= Z.of_nat (length (Leaks.filteredLeaks k))
      /\ Z.of_nat (length (Leaks.paginatedData k)) = to - from + 1
      /\ Leaks.paginatedData k
         = firstn (Z.to_nat (to - from + 1))
                  (skipn (Z.to_nat (from - 1)) (Leaks.filteredLeaks k))).
Proof.
  intros He Hpe Hk Hpk. split.
  - unfold Eol.totalPages in Hpe.
    rewrite <- (sort_length _ (Eol.compare (Eol.sortConfig e))) in Hpe |- *.
    exact (slice_page _ (Eol.currentPage e) (Eol.itemsPerPage e)
             (Eol.sortedData e) He Hpe).
  - exact (slice_page _ (Leaks.currentPage k) (Leaks.itemsPerPage k)
             (Leaks.filteredLeaks k) Hk Hpk).
Qed.

Lemma showing_line_matches_rows_witness :
  Z.of_nat (length (Eol.paginatedData (rt := Engine.utc) Sample.eol_page_two))
  = 25 - 21 + 1
  /\ Z.of_nat (length (Leaks.paginatedData (rt := Engine.utc)
                         Sample.leaks_page_two))
     = 11 - 11 + 1.
Proof.
  assert (He : 1 <= Eol.itemsPerPage Sample.eol_page_two)
    by (vm_compute; discriminate).
  assert (Hpe : 1 <= Eol.currentPage Sample.eol_page_two
                <= Eol.totalPages (rt := Engine.utc) Sample.eol_page_two)
    by (vm_compute; split; discriminate).
  assert (Hk : 1 <= Leaks.itemsPerPage Sample.leaks_page_two)
    by (vm_compute; discriminate).
  assert (Hpk : 1 <= Leaks.currentPage Sample.leaks_page_two
                <= Leaks.totalPages (rt := Engine.utc) Sample.leaks_page_two)
    by (vm_compute; split; discriminate).
  pose proof (showing_line_matches_rows Engine.utc Sample.eol_page_two
                Sample.leaks_page_two He Hpe Hk Hpk) as Hshown.
  vm_compute in Hshown. vm_compute.
  split; [apply Hshown | apply Hshown].
Defined.


(* ===================================================================== *)
(** ** The current page on the end-of-life and data-breach pages *)
(* ===================================================================== *)

Section CurrentPage.
Context {rt : Runtime}.

Lemma eol_totalPages_congr (s s' : Eol.State) :
  Eol.flattenedData s' = Eol.flattenedData s ->
  Eol.itemsPerPage s' = Eol.itemsPerPage s ->
  Eol.filters_changed s s' = false ->
  Eol.totalPages s' = Eol.totalPages s.
Proof.
  intros Hdata Hsize Hsame. apply eol_filters_unchanged in Hsame.
  unfold Spec.eol_filters in Hsame. injection Hsame as Hq Hst Hsw.
  unfold Eol.totalPages, Eol.filteredData.
  now rewrite Hdata, Hsize, Hq, Hst, Hsw.
Qed.

Lemma eol_handle_keeps_data (s : Eol.State) (e : Eol.Event) :
  Eol.flattenedData (Eol.handle e s) = Eol.flattenedData s
  /\ Eol.itemsPerPage (Eol.handle e s) = Eol.itemsPerPage s.
Proof. destruct e; split; reflexivity. Qed.

Lemma eol_page_step (s : Eol.State) (e : Eol.Event) :
  1 <= Eol.currentPage s <= Z.max 1 (Eol.totalPages s) ->
  EolPage.offered s e ->
  1 <= Eol.currentPage (Eol.step s e) <= Z.max 1 (Eol.totalPages (Eol.step s e)).
Proof.
  intros Hpage Hoffered. unfold Eol.step.
  destruct (eol_handle_keeps_data s e) as [Hdata Hsize].
  destruct (Eol.filters_changed s (Eol.handle e s)) eqn:Hchanged.
  - cbn [Eol.with_currentPage Eol.currentPage]. lia.
  - rewrite (eol_totalPages_congr s (Eol.handle e s) Hdata Hsize Hchanged).
    destruct e; cbn [Eol.handle Eol.with_currentPage Eol.with_searchQuery
                     Eol.with_statusFilter Eol.with_softwareFilter
                     Eol.handleSortChange Eol.with_sortConfig
                     Eol.currentPage];
      try exact Hpage; cbn [EolPage.offered] in Hoffered.
    + destruct Hoffered as [Hpages Hp].
      apply selectable_range in Hp; lia.
    + lia.
    + lia.
    + lia.
Qed.

Lemma eol_no_data_no_pages (s : Eol.State) :
  Eol.flattenedData s = [] -> 1 <= Eol.itemsPerPage s -> Eol.totalPages s = 0.
Proof.
  intros Hdata Hsize. unfold Eol.totalPages, Eol.filteredData.
  rewrite Hdata. cbn [filter length Z.of_nat].
  rewrite Math_ceil_div_ceiling by lia. apply ceiling_zero. lia.
Qed.

Lemma eol_reachable_invariant (s : Eol.State) :
  EolPage.reachable s ->
  Eol.itemsPerPage s = 20
  /\ 1 <= Eol.currentPage s <= Z.max 1 (Eol.totalPages s).
Proof.
  induction 1 as [|s data _ [Hsize Hpage] Hempty|s e _ [Hsize Hpage] Hoffered].
  - split; [reflexivity|]. cbn [Eol.initial Eol.currentPage]. lia.
  - split; [exact Hsize|].
    rewrite (eol_no_data_no_pages s Hempty) in Hpage by lia.
    cbn [EolPage.with_flattenedData Eol.currentPage]. lia.
  - split.
    + unfold Eol.step.
      destruct (Eol.filters_changed s (Eol.handle e s));
        cbn [Eol.with_currentPage Eol.itemsPerPage];
        now rewrite (proj2 (eol_handle_keeps_data s e)).
    + now apply eol_page_step.
Qed.

Lemma leaks_length_congr (s s' : Leaks.State) :
  Leaks.dataLeaks s' = Leaks.dataLeaks s ->
  Spec.leaks_filters s' = Spec.leaks_filters s ->
  length (Leaks.filteredLeaks s') = length (Leaks.filteredLeaks s).
Proof.
  intros Hdata Hsame. unfold Spec.leaks_filters in Hsame.
  injection Hsame as Hq Ht Hstart Hend.
  unfold Leaks.filteredLeaks. rewrite !sort_length.
  now rewrite Hdata, Hq, Ht, Hstart, Hend.
Qed.

Lemma leaks_totalPages_congr (s s' : Leaks.State) :
  Leaks.dataLeaks s' = Leaks.dataLeaks s ->
  Leaks.itemsPerPage s' = Leaks.itemsPerPage s ->
  Leaks.filters_changed s s' = false ->
  Leaks.totalPages s' = Leaks.totalPages s.
Proof.
  intros Hdata Hsize Hsame. apply leaks_filters_unchanged in Hsame.
  unfold Leaks.totalPages.
  now rewrite (leaks_length_congr s s' Hdata Hsame), Hsize.
Qed.

Lemma leaks_handle_keeps_data (s : Leaks.State) (e : Leaks.Event) :
  Leaks.dataLeaks (Leaks.handle e s) = Leaks.dataLeaks s
  /\ Leaks.itemsPerPage (Leaks.handle e s) = Leaks.itemsPerPage s.
Proof. destruct e; split; reflexivity. Qed.

Lemma leaks_page_step (s : Leaks.State) (e : Leaks.Event) :
  1 <= Leaks.currentPage s <= Z.max 1 (Leaks.totalPages s) ->
  LeaksPage.offered s e ->
  1 <= Leaks.currentPage (Leaks.step s e)
    <= Z.max 1 (Leaks.totalPages (Leaks.step s e)).
Proof.
  intros Hpage Hoffered. unfold Leaks.step.
  destruct (leaks_handle_keeps_data s e) as [Hdata Hsize].
  destruct (Leaks.filters_changed s (Leaks.handle e s)) eqn:Hchanged.
  - cbn [Leaks.with_currentPage Leaks.currentPage]. lia.
  - rewrite (leaks_totalPages_congr s (Leaks.handle e s) Hdata Hsize Hchanged).
    destruct e; cbn [Leaks.handle Leaks.with_currentPage Leaks.with_filters
                     Leaks.handleSortChange Leaks.with_sortConfig
                     Leaks.currentPage];
      try exact Hpage; cbn [LeaksPage.offered] in Hoffered.
    + destruct Hoffered as [Hpages Hp].
      apply selectable_range in Hp; lia.
    + lia.
    + lia.
    + lia.
Qed.

Lemma leaks_no_data_no_pages (s : Leaks.State) :
  Leaks.dataLeaks s = [] -> 1 <= Leaks.itemsPerPage s ->
  Leaks.totalPages s = 0.
Proof.
  intros Hdata Hsize. unfold Leaks.totalPages.
  replace (length (Leaks.filteredLeaks s)) with 0%nat.
  - rewrite Math_ceil_div_ceiling by lia. apply ceiling_zero. lia.
  - unfold Leaks.filteredLeaks. rewrite sort_length, Hdata.
    repeat match goal with
           | |- context [if ?b then _ else _] => destruct b
           end; reflexivity.
Qed.

Lemma leaks_reachable_invariant (s : Leaks.State) :
  LeaksPage.reachable s ->
  Leaks.itemsPerPage s = 10
  /\ 1 <= Leaks.currentPage s <= Z.max 1 (Leaks.totalPages s).
Proof.
  induction 1 as [|s data _ [Hsize Hpage] Hempty|s e _ [Hsize Hpage] Hoffered].
  - split; [reflexivity|]. cbn [Leaks.initial Leaks.currentPage]. lia.
  - split; [exact Hsize|].
    rewrite (leaks_no_data_no_pages s Hempty) in Hpage by lia.
    cbn [LeaksPage.with_dataLeaks Leaks.currentPage]. lia.
  - split.
    + unfold Leaks.step.
      destruct (Leaks.filters_changed s (Leaks.handle e s));
        cbn [Leaks.with_currentPage Leaks.itemsPerPage];
        now rewrite (proj2 (leaks_handle_keeps_data s e)).
    + now apply leaks_page_step.
Qed.

End CurrentPage.

(** The current page of the end-of-life table never leaves the table.  In
    every state the page reaches (it starts without data, the data arrive,
    and the user types, selects, sorts and uses the pagination controls
    that are rendered and enabled), the current page is between 1 and the
    number of pages (page 1 when nothing matches), and the table is not
    empty as long as a record matches the filters. *)
Theorem eol_current_page_in_range (rt : Runtime) (s : Eol.State) :
  EolPage.reachable s ->
  1 <= Eol.currentPage s <= Z.max 1 (Eol.totalPages s)
  /\ (Eol.filteredData s <> [] -> Eol.paginatedData s <> []).
Proof.
  intros Hreach.
  destruct (eol_reachable_invariant s Hreach) as [Hsize Hpage].
  split; [exact Hpage|].
  intros Hrows Hnone.
  assert (Hpos : 0 < Z.of_nat (length (Eol.filteredData s))).
  { destruct (Eol.filteredData s); [congruence|]. cbn [length]. lia. }
  unfold Eol.totalPages in Hpage.
  pose proof (ceiling_positive (Z.of_nat (length (Eol.filteredData s)))
                (Eol.itemsPerPage s) ltac:(lia) Hpos) as Hpages.
  rewrite <- Math_ceil_div_ceiling in Hpages by lia.
  rewrite <- (sort_length _ (Eol.compare (Eol.sortConfig s))) in Hpage, Hpages.
  fold (Eol.sortedData s) in Hpage, Hpages.
  assert (Hin : 1 <= Eol.currentPage s
                <= Js.Math_ceil_div (Z.of_nat (length (Eol.sortedData s)))
                                    (Eol.itemsPerPage s)) by lia.
  destruct (slice_page _ (Eol.currentPage s) (Eol.itemsPerPage s)
              (Eol.sortedData s) ltac:(lia) Hin)
    as [Hfrom [_ [Hshown _]]].
  fold (Eol.paginatedData s) in Hshown. rewrite Hnone in Hshown.
  cbn [length Z.of_nat] in Hshown. lia.
Qed.

Lemma eol_current_page_in_range_witness :
  1 <= Eol.currentPage Sample.eol_page_two
    <= Z.max 1 (Eol.totalPages (rt := Engine.utc) Sample.eol_page_two)
  /\ (Eol.filteredData (rt := Engine.utc) Sample.eol_page_two <> [] ->
      Eol.paginatedData (rt := Engine.utc) Sample.eol_page_two <> []).
Proof.
  apply (eol_current_page_in_range Engine.utc Sample.eol_page_two).
  apply (@EolPage.reach_step Engine.utc
           (Eol.initial Sample.many_releases) Eol.Next).
  - apply (@EolPage.reach_load Engine.utc (Eol.initial [])
             Sample.many_releases).
    + apply (@EolPage.reach_start Engine.utc).
    + reflexivity.
  - vm_compute. split; [reflexivity | discriminate].
Defined.

(** The same on the data-breach page: in every state the page reaches, the
    current page is between 1 and the number of pages (page 1 when nothing
    matches), and the table is not empty as long as a leak matches the
    filters. *)
Theorem leaks_current_page_in_range (rt : Runtime) (s : Leaks.State) :
  LeaksPage.reachable s ->
  1 <= Leaks.currentPage s <= Z.max 1 (Leaks.totalPages s)
  /\ (Leaks.filteredLeaks s <> [] -> Leaks.paginatedData s <> []).
Proof.
  intros Hreach.
  destruct (leaks_reachable_invariant s Hreach) as [Hsize Hpage].
  split; [exact Hpage|].
  intros Hrows Hnone.
  assert (Hpos : 0 < Z.of_nat (length (Leaks.filteredLeaks s))).
  { destruct (Leaks.filteredLeaks s); [congruence|]. cbn [length]. lia. }
  unfold Leaks.totalPages in Hpage.
  pose proof (ceiling_positive (Z.of_nat (length (Leaks.filteredLeaks s)))
                (Leaks.itemsPerPage s) ltac:(lia) Hpos) as Hpages.
  rewrite <- Math_ceil_div_ceiling in Hpages by lia.
  assert (Hin : 1 <= Leaks.currentPage s
                <= Js.Math_ceil_div (Z.of_nat (length (Leaks.filteredLeaks s)))
                                    (Leaks.itemsPerPage s)) by lia.
  destruct (slice_page _ (Leaks.currentPage s) (Leaks.itemsPerPage s)
              (Leaks.filteredLeaks s) ltac:(lia) Hin)
    as [Hfrom [_ [Hshown _]]].
  fold (Leaks.paginatedData s) in Hshown. rewrite Hnone in Hshown.
  cbn [length Z.of_nat] in Hshown. lia.
Qed.

Lemma leaks_current_page_in_range_witness :
  1 <= Leaks.currentPage Sample.leaks_page_two
    <= Z.max 1 (Leaks.totalPages (rt := Engine.utc) Sample.leaks_page_two)
  /\ (Leaks.filteredLeaks (rt := Engine.utc) Sample.leaks_page_two <> [] ->
      Leaks.paginatedData (rt := Engine.utc) Sample.leaks_page_two <> []).
Proof.
  apply (leaks_current_page_in_range Engine.utc Sample.leaks_page_two).
  apply (@LeaksPage.reach_step Engine.utc
           (Leaks.initial Sample.many_leaks) Leaks.Next).
  - apply (@LeaksPage.reach_load Engine.utc (Leaks.initial [])
             Sample.many_leaks).
    + apply (@LeaksPage.reach_start Engine.utc).
    + reflexivity.
  - vm_compute. split; [reflexivity | discriminate].
Defined.


(* ===================================================================== *)
(** ** When [sort] sorts *)
(* ===================================================================== *)

Section SortedBy.
Variable A : Type.
Variable cmp : A -> A -> Z.
(** The elements the list is made of, and the order the comparator is
    meant to follow on them. *)
Variable P : A -> Prop.
Variable le : A -> A -> Prop.
Hypothesis le_trans :
  forall a b c, P a -> P b -> P c -> le a b -> le b c -> le a c.
Hypothesis behind : forall a b, P a -> P b -> 0 < cmp a b -> le b a.
Hypothesis ahead : forall a b, P a -> P b -> cmp a b <= 0 -> le a b.

Lemma insert_sorted (x : A) (l : list A) :
  P x -> Forall P l -> StronglySorted le l ->
  StronglySorted le (Js.insert cmp x l).
Proof.
  intros Hx Hl Hsorted. induction Hsorted as [|y l Hsorted IH Hy]; simpl.
  - constructor; constructor.
  - inversion Hl as [|? ? Py Pl]; subst.
    destruct (Z.ltb_spec 0 (cmp x y)) as [Hpos|Hnot].
    + constructor; [now apply IH|].
      apply insert_Forall; [now apply behind | exact Hy].
    + constructor; [now constructor|].
      constructor; [now apply ahead|].
      rewrite Forall_forall in *. intros z Hz.
      apply le_trans with y; auto.
Qed.

Lemma sort_sorted (l : list A) :
  Forall P l -> StronglySorted le (Js.sort cmp l).
Proof.
  induction 1 as [|x l Hx Hl IH]; [constructor|].
  cbn [Js.sort fold_right]. apply insert_sorted; [exact Hx| |exact IH].
  apply (Permutation_Forall (Permutation_sym (sort_perm _ cmp l))), Hl.
Qed.

End SortedBy.

(* ===================================================================== *)
(** ** The status of a release and the cards of the end-of-life page *)
(* ===================================================================== *)

Section EolCards.
Context {rt : Runtime}.

Lemma In_processData (today : Z)
      (data : list (string * list Eol.SoftwareVersion))
      (r : Eol.FlattenedSoftwareVersion) :
  In r (Eol.processData today data) ->
  exists nm v, r = Eol.flatten_version today nm v.
Proof.
  unfold Eol.processData. rewrite in_flat_map.
  intros [[nm versions] [_ Hr]]. apply in_map_iff in Hr as [v [Hr _]].
  now exists nm, v.
Qed.

(** The threshold table of [processData]. *)
Lemma flatten_version_status (today : Z) (nm : string)
      (v : Eol.SoftwareVersion) :
  Eol.status (Eol.flatten_version today nm v)
  = match Eol.daysRemaining (Eol.flatten_version today nm v) with
    | Js.Num d =>
        if d <? 0 then "Expired"
        else if d =? 0 then "Active"
        else if d <? 30 then "Critical"
        else if d <? 90 then "Warning"
        else if d <? 180 then "Notice"
        else "Active"
    | _ => "Active"
    end.
Proof.
  cbn [Eol.flatten_version Eol.status Eol.daysRemaining].
  unfold Eol.status_of, Eol.daysRemaining_of, Eol.eolDate_of, Eol.eol_is_false.
  destruct (Eol.eol v) as [[b|n|s|l]|]; try reflexivity.
  unfold Eol.below.
  destruct (differenceInDays (Date.parse s) (Some today)) as [|d|];
    try reflexivity.
  cbn [Js.truthy Js.lt].
  destruct (Z.eqb_spec d 0) as [->|Hd]; [reflexivity|].
  cbn [negb andb].
  destruct (Z.ltb_spec d 0); [reflexivity|].
  destruct (Z.ltb_spec d 30); [reflexivity|].
  destruct (Z.ltb_spec d 90); [reflexivity|].
  destruct (Z.ltb_spec d 180); reflexivity.
Qed.

Lemma processData_expired (today : Z)
      (data : list (string * list Eol.SoftwareVersion))
      (r : Eol.FlattenedSoftwareVersion) :
  In r (Eol.processData today data) ->
  (Eol.status r == "Expired") = true ->
  exists d, Eol.daysRemaining r = Js.Num d /\ d < 0.
Proof.
  intros Hr Hstatus. apply In_processData in Hr as [nm [v ->]].
  rewrite flatten_version_status in Hstatus.
  destruct (Eol.daysRemaining _) as [|d|]; try discriminate.
  exists d. split; [reflexivity|].
  destruct (Z.ltb_spec d 0); [assumption|].
  repeat match type of Hstatus with
         | context [if ?b then _ else _] => destruct b
         end; discriminate.
Qed.

Lemma processData_critical (today : Z)
      (data : list (string * list Eol.SoftwareVersion))
      (r : Eol.FlattenedSoftwareVersion) :
  In r (Eol.processData today data) ->
  (Eol.status r == "Critical") = true ->
  exists d, Eol.daysRemaining r = Js.Num d /\ 0 < d < 30.
Proof.
  intros Hr Hstatus. apply In_processData in Hr as [nm [v ->]].
  rewrite flatten_version_status in Hstatus.
  destruct (Eol.daysRemaining _) as [|d|]; try discriminate.
  exists d. split; [reflexivity|].
  destruct (Z.ltb_spec d 0); [discriminate|].
  destruct (Z.eqb_spec d 0); [discriminate|].
  destruct (Z.ltb_spec d 30); [lia|].
  repeat match type of Hstatus with
         | context [if ?b then _ else _] => destruct b
         end; discriminate.
Qed.

End EolCards.

(** The status of every record [processData] builds follows from its days
    remaining by one table: Expired below 0 days, Critical from 1 to 29,
    Warning from 30 to 89, Notice from 90 to 179, and Active otherwise,
    that is from 180 days on, at exactly 0 days, when the number of days
    is not a number, and when the end of life is not a date string (the
    days remaining are then infinite). *)
Theorem status_follows_days_remaining (rt : Runtime) (today : Z)
    (data : list (string * list Eol.SoftwareVersion)) :
  Forall (fun r =>
            (Eol.status r = "Expired"
             <-> exists d, Eol.daysRemaining r = Js.Num d /\ d < 0)
            /\ (Eol.status r = "Critical"
                <-> exists d, Eol.daysRemaining r = Js.Num d /\ 0 < d < 30)
            /\ (Eol.status r = "Warning"
                <-> exists d, Eol.daysRemaining r = Js.Num d /\ 30 <= d < 90)
            /\ (Eol.status r = "Notice"
                <-> exists d, Eol.daysRemaining r = Js.Num d /\ 90 <= d < 180)
            /\ (Eol.status r = "Active"
                <-> forall d, Eol.daysRemaining r = Js.Num d ->
                              d = 0 \/ 180 <= d)
            /\ (match Eol.eol (Eol.version r) with
                | Some (PStr _) => True
                | _ => Eol.daysRemaining r = Js.Infinity
                end))
         (Eol.processData today data).
Proof.
  apply Forall_forall. intros r Hr.
  apply In_processData in Hr as [nm [v ->]].
  rewrite flatten_version_status.
  assert (Hother : match Eol.eol v with
                   | Some (PStr _) => True
                   | _ => Eol.daysRemaining (Eol.flatten_version today nm v)
                          = Js.Infinity
                   end).
  { cbn [Eol.flatten_version Eol.daysRemaining].
    unfold Eol.daysRemaining_of, Eol.eolDate_of.
    destruct (Eol.eol v) as [[b|n|s|l]|]; reflexivity || exact I. }
  cbn [Eol.flatten_version Eol.version].
  destruct (Eol.daysRemaining (Eol.flatten_version today nm v)) as [|d|].
  - repeat split; try discriminate; try (intros [d [Hd _]]; discriminate);
      try (intros; discriminate); try exact Hother.
  - destruct (Z.ltb_spec d 0);
      [|destruct (Z.eqb_spec d 0);
        [|destruct (Z.ltb_spec d 30);
          [|destruct (Z.ltb_spec d 90);
            [|destruct (Z.ltb_spec d 180)]]]];
      (repeat split;
       try discriminate; try exact Hother;
       try (intros [d' [Hd ?]]; injection Hd as <-; lia);
       try (intros _; exists d; split; [reflexivity|lia]);
       try (intros Hall; specialize (Hall d eq_refl); lia);
       try (intros _ d' Hd; injection Hd as <-; lia)).
  - repeat split; try discriminate; try (intros [d [Hd _]]; discriminate);
      try (intros; discriminate); try exact Hother.
Qed.


Lemma filter_length_mono (A : Type) (p q : A -> bool) (l : list A) :
  (forall x, p x = true -> q x = true) ->
  (length (filter p l) <= length (filter q l))%nat.
Proof.
  intros Hpq. induction l as [|x l IH]; [reflexivity|]. simpl.
  destruct (p x) eqn:Hp.
  - rewrite (Hpq x Hp). simpl. lia.
  - destruct (q x); simpl; lia.
Qed.

Lemma filter_length_parts (A : Type) (p : A -> bool) (l : list A) :
  (length (filter (fun x => negb (p x)) l) + length (filter p l))%nat
  = length l.
Proof.
  induction l as [|x l IH]; [reflexivity|]. simpl.
  destruct (p x); simpl; lia.
Qed.

(** The three statistics cards of the end-of-life page: every loaded
    record is counted either as active or as expired, never as both, and
    the records counted as expiring soon are among the active ones. *)
Theorem stat_cards_partition (s : Eol.State) :
  (EolPage.totalActiveSoftware s + EolPage.totalExpired s)%nat
  = length (Eol.flattenedData s)
  /\ (EolPage.totalExpiringSoon s <= EolPage.totalActiveSoftware s)%nat
  /\ (forall r, In r (EolPage.expiringSoon s) ->
                ~ In r (EolPage.expiredSoftware s)).
Proof.
  unfold EolPage.totalActiveSoftware, EolPage.totalExpired,
    EolPage.totalExpiringSoon, EolPage.expiredSoftware, EolPage.expiringSoon.
  rewrite !sort_length. split; [|split].
  - apply (filter_length_parts _ (fun r => Eol.status r == "Expired")).
  - apply filter_length_mono. intros r Hr.
    apply String.eqb_eq in Hr. now rewrite Hr.
  - intros r Hsoon Hexpired.
    apply In_sort, filter_In in Hsoon as [_ Hsoon].
    apply In_sort, filter_In in Hexpired as [_ Hexpired].
    apply String.eqb_eq in Hsoon. rewrite Hsoon in Hexpired. discriminate.
Qed.

(** The two card lists of the end-of-life page, for the records
    [processData] builds: "Recently Expired" holds the records with a
    negative number of days remaining, the most recently expired first,
    and "Expiring Soon" the records with 1 to 29 days remaining, the one
    that expires soonest first. *)
Theorem cards_sorted_by_urgency (rt : Runtime) (today : Z)
    (data : list (string * list Eol.SoftwareVersion)) (s : Eol.State) :
  let loaded := EolPage.with_flattenedData (Eol.processData today data) s in
  Forall (fun r => exists d, Eol.daysRemaining r = Js.Num d /\ d < 0)
         (EolPage.expiredSoftware loaded)
  /\ StronglySorted
       (fun a b => exists x y, Eol.daysRemaining a = Js.Num x
                               /\ Eol.daysRemaining b = Js.Num y /\ y <= x)
       (EolPage.expiredSoftware loaded)
  /\ Forall (fun r => exists d, Eol.daysRemaining r = Js.Num d /\ 0 < d < 30)
            (EolPage.expiringSoon loaded)
  /\ StronglySorted
       (fun a b => exists x y, Eol.daysRemaining a = Js.Num x
                               /\ Eol.daysRemaining b = Js.Num y /\ x <= y)
       (EolPage.expiringSoon loaded).
Proof.
  intros loaded. unfold loaded, EolPage.expiredSoftware, EolPage.expiringSoon.
  cbn [EolPage.with_flattenedData Eol.flattenedData].
  assert (Hexpired :
            Forall (fun r => exists d, Eol.daysRemaining r = Js.Num d /\ d < 0)
                   (filter (fun software => Eol.status software == "Expired")
                           (Eol.processData today data))).
  { apply Forall_forall. intros r Hr. apply filter_In in Hr as [Hr Hstatus].
    now apply (processData_expired today data). }
  assert (Hsoon :
            Forall (fun r => exists d, Eol.daysRemaining r = Js.Num d
                                       /\ 0 < d < 30)
                   (filter (fun software => Eol.status software == "Critical")
                           (Eol.processData today data))).
  { apply Forall_forall. intros r Hr. apply filter_In in Hr as [Hr Hstatus].
    now apply (processData_critical today data). }
  split; [|split; [|split]].
  - apply (Permutation_Forall (Permutation_sym (sort_perm _ _ _))), Hexpired.
  - apply sort_sorted
      with (P := fun r => exists d, Eol.daysRemaining r = Js.Num d /\ d < 0);
      [| | |exact Hexpired].
    + intros a b c _ _ _ [x [y [Ha [Hb Hxy]]]] [y' [z [Hb' [Hc Hyz]]]].
      exists x, z. rewrite Hb in Hb'. injection Hb' as <-.
      repeat split; [assumption..|lia].
    + intros a b [x [Ha Hx]] [y [Hb Hy]] Hcmp. exists y, x.
      unfold EolPage.days in Hcmp. rewrite Ha, Hb in Hcmp.
      unfold Arr.or_zero in Hcmp. cbn [Js.truthy] in Hcmp.
      destruct (Z.eqb_spec x 0); [lia|]. destruct (Z.eqb_spec y 0); [lia|].
      cbn [negb Arr.minus] in Hcmp. repeat split; [assumption..|lia].
    + intros a b [x [Ha Hx]] [y [Hb Hy]] Hcmp. exists x, y.
      unfold EolPage.days in Hcmp. rewrite Ha, Hb in Hcmp.
      unfold Arr.or_zero in Hcmp. cbn [Js.truthy] in Hcmp.
      destruct (Z.eqb_spec x 0); [lia|]. destruct (Z.eqb_spec y 0); [lia|].
      cbn [negb Arr.minus] in Hcmp. repeat split; [assumption..|lia].
  - apply (Permutation_Forall (Permutation_sym (sort_perm _ _ _))), Hsoon.
  - apply sort_sorted
      with (P := fun r => exists d, Eol.daysRemaining r = Js.Num d
                                    /\ 0 < d < 30);
      [| | |exact Hsoon].
    + intros a b c _ _ _ [x [y [Ha [Hb Hxy]]]] [y' [z [Hb' [Hc Hyz]]]].
      exists x, z. rewrite Hb in Hb'. injection Hb' as <-.
      repeat split; [assumption..|lia].
    + intros a b [x [Ha Hx]] [y [Hb Hy]] Hcmp. exists y, x.
      unfold EolPage.days in Hcmp. rewrite Ha, Hb in Hcmp.
      unfold Arr.or_zero in Hcmp. cbn [Js.truthy] in Hcmp.
      destruct (Z.eqb_spec x 0); [lia|]. destruct (Z.eqb_spec y 0); [lia|].
      cbn [negb Arr.minus] in Hcmp. repeat split; [assumption..|lia].
    + intros a b [x [Ha Hx]] [y [Hb Hy]] Hcmp. exists x, y.
      unfold EolPage.days in Hcmp. rewrite Ha, Hb in Hcmp.
      unfold Arr.or_zero in Hcmp. cbn [Js.truthy] in Hcmp.
      destruct (Z.eqb_spec x 0); [lia|]. destruct (Z.eqb_spec y 0); [lia|].
      cbn [negb Arr.minus] in Hcmp. repeat split; [assumption..|lia].
Qed.

(** The buttons "View All Expiring Soon" and "View All Expired Software"
    set the status filter of the table through [scrollToTableWithFilter].
    While the search box is empty and no software is selected, the table
    then lists the very records of the card, and it is back on page 1
    when the status filter was a different one before. *)
Theorem view_all_lists_the_card (rt : Runtime) (s : Eol.State) :
  Eol.searchQuery s = "" -> Eol.softwareFilter s = "all" ->
  let critical := Eol.step s (Eol.SetStatusFilter "critical") in
  let expired := Eol.step s (Eol.SetStatusFilter "expired") in
  Permutation (Eol.filteredData critical) (EolPage.expiringSoon s)
  /\ Permutation (Eol.filteredData expired) (EolPage.expiredSoftware s)
  /\ (Eol.statusFilter s <> "critical" -> Eol.currentPage critical = 1)
  /\ (Eol.statusFilter s <> "expired" -> Eol.currentPage expired = 1).
Proof.
  intros Hq Hsw critical expired.
  assert (Hdata : forall f,
             Eol.filteredData (Eol.step s (Eol.SetStatusFilter f))
             = filter (fun r => Eol.matchesStatus f r) (Eol.flattenedData s)).
  { intros f. unfold Eol.step. cbn [Eol.handle].
    destruct (Eol.filters_changed _ _);
      unfold Eol.filteredData;
      cbn [Eol.with_currentPage Eol.with_statusFilter Eol.flattenedData
           Eol.searchQuery Eol.statusFilter Eol.softwareFilter];
      rewrite Hq, Hsw; apply filter_ext; intros r;
      unfold Eol.matchesSearch, Eol.matchesSoftware;
      cbn; now rewrite andb_true_r. }
  assert (Hpage : forall f,
             Eol.statusFilter s <> f ->
             Eol.currentPage (Eol.step s (Eol.SetStatusFilter f)) = 1).
  { intros f Hf. unfold Eol.step, Eol.filters_changed. cbn [Eol.handle].
    cbn [Eol.with_statusFilter Eol.searchQuery Eol.statusFilter
         Eol.softwareFilter].
    rewrite !String.eqb_refl.
    destruct (String.eqb_spec (Eol.statusFilter s) f) as [Heq|_];
      [contradiction|].
    reflexivity. }
  unfold critical, expired. rewrite !Hdata.
  split; [|split; [|split]].
  - apply Permutation_sym. apply sort_perm.
  - apply Permutation_sym. apply sort_perm.
  - apply Hpage.
  - apply Hpage.
Qed.

(** On the second page of a table of twenty-five releases, seven of them
    expiring soon and seven expired. *)
Lemma view_all_lists_the_card_witness :
  let s := Sample.mixed_page_two in
  let critical := Eol.step (rt := Engine.utc) s
                           (Eol.SetStatusFilter "critical") in
  let expired := Eol.step (rt := Engine.utc) s
                          (Eol.SetStatusFilter "expired") in
  Eol.currentPage s = 2
  /\ length (EolPage.expiringSoon s) = 7%nat
  /\ length (EolPage.expiredSoftware s) = 7%nat
  /\ Permutation (Eol.filteredData (rt := Engine.utc) critical)
                 (EolPage.expiringSoon s)
  /\ Permutation (Eol.filteredData (rt := Engine.utc) expired)
                 (EolPage.expiredSoftware s)
  /\ Eol.currentPage critical = 1
  /\ Eol.currentPage expired = 1.
Proof.
  intros s critical expired.
  assert (Hq : Eol.searchQuery s = "") by reflexivity.
  assert (Hsw : Eol.softwareFilter s = "all") by reflexivity.
  pose proof (view_all_lists_the_card Engine.utc s Hq Hsw)
    as (Hcritical & Hexpired & Hpc & Hpe).
  split; [vm_compute; reflexivity|].
  split; [vm_compute; reflexivity|].
  split; [vm_compute; reflexivity|].
  split; [exact Hcritical|]. split; [exact Hexpired|].
  split; [apply Hpc | apply Hpe]; discriminate.
Defined.


(* ===================================================================== *)
(** ** The order of the Web3 table *)
(* ===================================================================== *)

Section Web3Order.
Context {rt : Runtime}.

Lemma compare_funds_lost (d : direction) (a b : Web3.ExploitDetail) :
  Web3.compare {| Web3.key := "funds_lost"; Web3.dir := d |} a b
  = match Web3.funds_lost a, Web3.funds_lost b with
    | None, _ => match d with asc => -1 | desc => 1 end
    | Some _, None => match d with asc => 1 | desc => -1 end
    | Some x, Some y => match d with asc => x - y | desc => y - x end
    end.
Proof.
  unfold Web3.compare, Web3.get, Web3.funds. cbn.
  destruct (Web3.funds_lost a), (Web3.funds_lost b); reflexivity.
Qed.

Lemma compare_date (d : direction) (a b : Web3.ExploitDetail) (x y : Z) :
  Ord.dated a x -> Ord.dated b y ->
  Web3.compare {| Web3.key := "date"; Web3.dir := d |} a b
  = match d with asc => x - y | desc => y - x end.
Proof.
  intros [sa [Ha Hx]] [sb [Hb Hy]].
  unfold Web3.compare, Web3.get, Web3.date_string. cbn.
  rewrite Ha, Hb. cbn. now rewrite Hx, Hy.
Qed.

Lemma inTimeRange_dated (start : option Z) (e : Web3.ExploitDetail) :
  Web3.inTimeRange start e = true -> exists t, Ord.dated e t.
Proof.
  unfold Web3.inTimeRange, Ord.dated.
  destruct (Web3.date e) as [s|]; [|discriminate].
  destruct (negb (Str.truthy s)); [discriminate|].
  destruct (Js.lt _ _); [discriminate|].
  destruct (Web3.exploitDate s) as [t|] eqn:Ht; [|discriminate].
  intros _. exists t, s. now split.
Qed.

Lemma projectFilteredExploits_dated (now : Z) (s : Web3.State) :
  Forall (fun e => exists t, Ord.dated e t)
         (Web3.projectFilteredExploits now s).
Proof.
  apply Forall_forall. intros e He.
  rewrite projectFilteredExploits_matches in He.
  apply filter_In in He as [_ He]. unfold Spec.web3_matches in He.
  repeat match goal with
         | E : _ && _ = true |- _ => apply andb_prop in E; destruct E
         end.
  now apply inTimeRange_dated with (Web3.getStartDate now (Web3.timeFilter s)).
Qed.

Lemma dated_unique (e : Web3.ExploitDetail) (x y : Z) :
  Ord.dated e x -> Ord.dated e y -> x = y.
Proof.
  intros [s [Hs Hx]] [s' [Hs' Hy]]. congruence.
Qed.

End Web3Order.

(** The Web3 table sorted by amount lost or by date: after a click on the
    "Amount Lost" header the rows are in the order of their amounts, the
    rows without an amount first when ascending and last when descending;
    after a click on the "Date" header (and when the page opens: newest
    first) the rows are in the order of the days their date strings stand
    for. *)
Theorem web3_rows_in_order (rt : Runtime) (now : Z) (s : Web3.State)
    (d : direction) :
  StronglySorted
    (Ord.directed d (fun a b => Ord.amount_le (Web3.funds_lost a)
                                              (Web3.funds_lost b)))
    (Web3.sortedExploits now
       (Web3.with_sortConfig {| Web3.key := "funds_lost"; Web3.dir := d |} s))
  /\ StronglySorted
       (Ord.directed d Ord.date_le)
       (Web3.sortedExploits now
          (Web3.with_sortConfig {| Web3.key := "date"; Web3.dir := d |} s)).
Proof.
  split.
  - unfold Web3.sortedExploits.
    cbn [Web3.with_sortConfig Web3.sortConfig].
    apply sort_sorted with (P := fun _ => True).
    + intros a b c _ _ _. unfold Ord.directed, Ord.amount_le.
      destruct d, (Web3.funds_lost a), (Web3.funds_lost b),
        (Web3.funds_lost c); try tauto; lia.
    + intros a b _ _. rewrite compare_funds_lost.
      unfold Ord.directed, Ord.amount_le.
      destruct d, (Web3.funds_lost a), (Web3.funds_lost b); try tauto; lia.
    + intros a b _ _. rewrite compare_funds_lost.
      unfold Ord.directed, Ord.amount_le.
      destruct d, (Web3.funds_lost a), (Web3.funds_lost b); try tauto; lia.
    + apply Forall_forall. intros; exact I.
  - unfold Web3.sortedExploits.
    cbn [Web3.with_sortConfig Web3.sortConfig].
    apply sort_sorted with (P := fun e => exists t, Ord.dated e t).
    + intros a b c _ _ _. unfold Ord.directed, Ord.date_le.
      destruct d.
      * intros [x [y [Ha [Hb Hxy]]]] [y' [z [Hb' [Hc Hyz]]]].
        rewrite (dated_unique b y' y Hb' Hb) in Hyz.
        exists x, z. repeat split; [assumption..|lia].
      * intros [y [x [Hb [Ha Hxy]]]] [z [y' [Hc [Hb' Hyz]]]].
        rewrite (dated_unique b y' y Hb' Hb) in Hyz.
        exists z, x. repeat split; [assumption..|lia].
    + intros a b [x Ha] [y Hb]. rewrite (compare_date d a b x y Ha Hb).
      unfold Ord.directed, Ord.date_le. destruct d; intros Hcmp.
      * exists y, x. repeat split; [assumption..|lia].
      * exists x, y. repeat split; [assumption..|lia].
    + intros a b [x Ha] [y Hb]. rewrite (compare_date d a b x y Ha Hb).
      unfold Ord.directed, Ord.date_le. destruct d; intros Hcmp.
      * exists x, y. repeat split; [assumption..|lia].
      * exists y, x. repeat split; [assumption..|lia].
    + pose proof (projectFilteredExploits_dated now s) as Hdated.
      unfold Web3.projectFilteredExploits, Web3.categoryFilteredExploits,
        Web3.typeFilteredExploits, Web3.searchFilteredExploits,
        Web3.filteredExploits, Web3.getFilteredData in *.
      exact Hdated.
Qed.


(* ===================================================================== *)
(** ** [Set] and the default [sort()]: the drop-down lists *)
(* ===================================================================== *)

Section SetFacts.
Variable A : Type.
Variable same : A -> A -> bool.
Hypothesis same_eq : forall x y, same x y = true <-> x = y.

Lemma existsb_same_In (x : A) (l : list A) :
  existsb (same x) l = true <-> In x l.
Proof.
  rewrite existsb_exists. split.
  - intros [y [Hy Hxy]]. apply same_eq in Hxy. now subst.
  - intros Hx. exists x. split; [exact Hx|]. now apply same_eq.
Qed.

Lemma add_In (set : list A) (x y : A) :
  In y (Arr.add same set x) <-> In y set \/ y = x.
Proof.
  unfold Arr.add. destruct (existsb (same x) set) eqn:Hx.
  - apply existsb_same_In in Hx. split; [tauto|].
    intros [Hy| ->]; assumption.
  - rewrite in_app_iff. cbn [In]. split; intros [H|H]; auto.
    + destruct H as [H|[]]. now right.
Qed.

Lemma add_NoDup (set : list A) (x : A) :
  NoDup set -> NoDup (Arr.add same set x).
Proof.
  intros Hset. unfold Arr.add. destruct (existsb (same x) set) eqn:Hx.
  - exact Hset.
  - apply NoDup_app; [exact Hset| |].
    + constructor; [intros []|constructor].
    + intros y Hy [<-|[]].
      apply existsb_same_In in Hy. congruence.
Qed.

Lemma fold_add_In (l set : list A) (y : A) :
  In y (fold_left (Arr.add same) l set) <-> In y set \/ In y l.
Proof.
  revert set. induction l as [|x l IH]; intros set; cbn [fold_left In].
  - tauto.
  - rewrite IH, add_In. split; intros [H|H]; auto.
    + destruct H; auto.
    + destruct H as [<- | H]; auto.
Qed.

Lemma fold_add_NoDup (l set : list A) :
  NoDup set -> NoDup (fold_left (Arr.add same) l set).
Proof.
  revert set. induction l as [|x l IH]; intros set Hset; cbn [fold_left].
  - exact Hset.
  - apply IH. now apply add_NoDup.
Qed.

Lemma unique_In (l : list A) (y : A) : In y (Arr.unique same l) <-> In y l.
Proof. unfold Arr.unique. rewrite fold_add_In. cbn [In]. tauto. Qed.

Lemma unique_NoDup (l : list A) : NoDup (Arr.unique same l).
Proof. apply fold_add_NoDup. constructor. Qed.

End SetFacts.

Lemma same_field_eq (a b : option string) :
  Arr.same_field a b = true <-> a = b.
Proof.
  destruct a as [x|], b as [y|]; cbn [Arr.same_field].
  - rewrite String.eqb_eq. split; congruence.
  - split; discriminate.
  - split; discriminate.
  - tauto.
Qed.

Lemma truthy_strings_In (l : list (option string)) (v : string) :
  In v (Arr.truthy_strings l) <-> In (Some v) l /\ v <> "".
Proof.
  unfold Arr.truthy_strings. rewrite in_flat_map. split.
  - intros [[w|] [Hw Hv]]; [|destruct Hv].
    destruct w as [|c w]; cbn [Str.truthy] in Hv; [destruct Hv|].
    destruct Hv as [<-|[]]. split; [exact Hw|discriminate].
  - intros [Hv Hne]. exists (Some v). split; [exact Hv|].
    destruct v as [|c v]; [congruence|]. now left.
Qed.

Lemma truthy_strings_NoDup (l : list (option string)) :
  NoDup l -> NoDup (Arr.truthy_strings l).
Proof.
  induction 1 as [|field l Hfield Hl IH]; [constructor|].
  cbn [Arr.truthy_strings flat_map].
  fold (Arr.truthy_strings l).
  destruct field as [v|]; [|exact IH].
  destruct (Str.truthy v); [|exact IH].
  cbn [app]. constructor; [|exact IH].
  intros Hv. apply truthy_strings_In in Hv as [Hv _]. contradiction.
Qed.

Lemma ascii_compare_trans (a b c : ascii) (o : comparison) :
  Ascii.compare a b = o -> Ascii.compare b c = o -> Ascii.compare a c = o.
Proof.
  unfold Ascii.compare. destruct o; intros Hab Hbc.
  - apply N.compare_eq_iff in Hab. apply N.compare_eq_iff in Hbc.
    apply N.compare_eq_iff. congruence.
  - apply N.compare_lt_iff in Hab. apply N.compare_lt_iff in Hbc.
    apply N.compare_lt_iff. now apply N.lt_trans with (N_of_ascii b).
  - apply N.compare_gt_iff in Hab. apply N.compare_gt_iff in Hbc.
    apply N.compare_gt_iff. now apply N.lt_trans with (N_of_ascii b).
Qed.

Lemma string_compare_lt_trans (a b c : string) :
  String.compare a b = Lt -> String.compare b c = Lt ->
  String.compare a c = Lt.
Proof.
  revert b c. induction a as [|x a IH]; intros [|y b] [|z c];
    cbn [String.compare]; try discriminate; try reflexivity.
  destruct (Ascii.compare x y) eqn:Hxy; try discriminate;
    destruct (Ascii.compare y z) eqn:Hyz; try discriminate; intros Hab Hbc.
  - rewrite (ascii_compare_trans x y z Eq Hxy Hyz). now apply IH with b.
  - apply Ascii.compare_eq_iff in Hxy. subst y. now rewrite Hyz.
  - apply Ascii.compare_eq_iff in Hyz. subst z. now rewrite Hxy.
  - now rewrite (ascii_compare_trans x y z Lt Hxy Hyz).
Qed.

Lemma string_le_trans (a b c : string) :
  Ord.string_le a b -> Ord.string_le b c -> Ord.string_le a c.
Proof.
  unfold Ord.string_le. intros Hab Hbc.
  destruct (String.compare a b) eqn:Eab; [| |congruence].
  - apply String.compare_eq_iff in Eab. now subst b.
  - destruct (String.compare b c) eqn:Ebc; [| |congruence].
    + apply String.compare_eq_iff in Ebc. subst c. now rewrite Eab.
    + now rewrite (string_compare_lt_trans a b c Eab Ebc).
Qed.

(** The default [sort()] puts strings in order. *)
Lemma sort_strings_sorted (l : list string) :
  StronglySorted Ord.string_le (Arr.sort_strings l).
Proof.
  unfold Arr.sort_strings.
  apply sort_sorted with (P := fun _ => True).
  - intros a b c _ _ _. apply string_le_trans.
  - intros a b _ _. unfold Arr.SortCompare, Ord.string_le.
    rewrite (String.compare_antisym a b).
    destruct (String.compare b a); cbn; intros; try lia; discriminate.
  - intros a b _ _. unfold Arr.SortCompare, Ord.string_le.
    destruct (String.compare a b); intros; try lia; discriminate.
  - apply Forall_forall. intros; exact I.
Qed.

Lemma sort_strings_In (l : list string) (x : string) :
  In x (Arr.sort_strings l) <-> In x l.
Proof. apply In_sort. Qed.

Lemma sort_strings_NoDup (l : list string) :
  NoDup l -> NoDup (Arr.sort_strings l).
Proof.
  intros Hl.
  apply (Permutation_NoDup (Permutation_sym (sort_perm _ Arr.SortCompare l))).
  exact Hl.
Qed.

(** The software drop-down of the end-of-life page offers the name of
    every loaded record and nothing else, each name once, in the order of
    [sort()]; so every option it offers selects at least one record. *)
Theorem software_options (s : Eol.State) :
  let options := EolPage.uniqueSoftwareNames s in
  (forall n, In n options
             <-> exists r, In r (Eol.flattenedData s) /\ Eol.name r = n)
  /\ NoDup options
  /\ StronglySorted Ord.string_le options
  /\ (forall n, In n options ->
        exists r, In r (Eol.flattenedData s)
                  /\ Eol.matchesSoftware n r = true).
Proof.
  intros options.
  assert (Hin : forall n, In n options
                          <-> exists r, In r (Eol.flattenedData s)
                                        /\ Eol.name r = n).
  { intros n. unfold options, EolPage.uniqueSoftwareNames.
    rewrite sort_strings_In, (unique_In _ String.eqb String.eqb_eq).
    rewrite in_map_iff. split; intros [r Hr]; exists r; tauto. }
  split; [exact Hin|]. split; [|split].
  - apply sort_strings_NoDup, (unique_NoDup _ String.eqb String.eqb_eq).
  - apply sort_strings_sorted.
  - intros n Hn. apply Hin in Hn as [r [Hr Hname]]. exists r.
    split; [exact Hr|]. unfold Eol.matchesSoftware.
    destruct (negb (n == "all")); [|reflexivity].
    rewrite Hname. apply String.eqb_refl.
Qed.

(** The type and category drop-downs of the Web3 page are built from the
    exploits of the selected time range.  Each offers every non-empty
    value found there (a category is one of the comma-separated, trimmed
    parts of a non-empty [name_categories]) and nothing else, each value once, the
    categories in the order of [sort()]; and every option offered selects
    at least one exploit of the time range. *)
Theorem web3_filter_options (rt : Runtime) (now : Z) (s : Web3.State) :
  let shown := Web3.filteredExploits now s in
  let types := Web3Page.scamTypes now s in
  let cats := Web3Page.categories now s in
  (forall t, In t types
             <-> t <> "" /\ exists e, In e shown /\ Web3.scam_type e = Some t)
  /\ NoDup types
  /\ (forall t, In t types ->
                exists e, In e shown /\ Web3.matchesType t e = true)
  /\ (forall c, In c cats
                <-> c <> ""
                    /\ exists e cs, In e shown
                                    /\ Web3.name_categories e = Some cs
                                    /\ cs <> ""
                                    /\ In c (map trim (Str.split "," cs)))
  /\ NoDup cats
  /\ StronglySorted Ord.string_le cats
  /\ (forall c, In c cats ->
                exists e, In e shown /\ Web3.matchesCategory c e = true).
Proof.
  intros shown types cats.
  assert (Htypes : forall t,
             In t types
             <-> t <> "" /\ exists e, In e shown /\ Web3.scam_type e = Some t).
  { intros t. unfold types, Web3Page.scamTypes.
    rewrite truthy_strings_In, (unique_In _ Arr.same_field same_field_eq).
    rewrite in_map_iff. fold shown. split.
    - intros [[e [He Hin]] Hne]. split; [exact Hne|]. now exists e.
    - intros [Hne [e [He Hin]]]. split; [|exact Hne]. now exists e. }
  assert (Hcats : forall c,
             In c cats
             <-> c <> ""
                 /\ exists e cs, In e shown
                                 /\ Web3.name_categories e = Some cs
                                 /\ cs <> ""
                                 /\ In c (map trim (Str.split "," cs))).
  { intros c. unfold cats, Web3Page.categories.
    rewrite sort_strings_In, filter_In,
      (unique_In _ String.eqb String.eqb_eq), in_flat_map.
    fold shown. rewrite truthy_not_empty. split.
    - intros [[e [He Hc]] Hne]. split.
      + intros ->. discriminate.
      + unfold Web3Page.categories_of in Hc.
        destruct (Web3.name_categories e) as [cs|] eqn:Hcs; [|destruct Hc].
        destruct cs as [|ch cs]; [destruct Hc|].
        exists e, (String ch cs).
        split; [exact He|]. split; [exact Hcs|]. split; [discriminate|].
        exact Hc.
    - intros [Hne [e [cs [He [Hcs [Hcs' Hc]]]]]]. split.
      + exists e. split; [exact He|].
        unfold Web3Page.categories_of. rewrite Hcs.
        destruct cs as [|ch cs]; [congruence|exact Hc].
      + destruct (String.eqb_spec c ""); [contradiction|reflexivity]. }
  split; [exact Htypes|]. split; [|split; [|split; [exact Hcats|]]].
  - apply truthy_strings_NoDup, (unique_NoDup _ Arr.same_field same_field_eq).
  - intros t Ht. apply Htypes in Ht as [_ [e [He Ht]]]. exists e.
    split; [exact He|]. unfold Web3.matchesType, Web3.field_is.
    destruct (t == "all"); [reflexivity|].
    rewrite Ht. apply String.eqb_refl.
  - split; [|split].
    + apply sort_strings_NoDup, NoDup_filter,
        (unique_NoDup _ String.eqb String.eqb_eq).
    + apply sort_strings_sorted.
    + intros c Hc. apply Hcats in Hc as [_ [e [cs [He [Hcs [_ Hc]]]]]].
      exists e. split; [exact He|]. unfold Web3.matchesCategory.
      destruct (c == "all"); [reflexivity|].
      rewrite Hcs. apply existsb_exists.
      apply in_map_iff in Hc as [piece [Hpiece Hin]].
      exists piece. split; [exact Hin|]. rewrite Hpiece.
      apply String.eqb_refl.
Qed.

(** The data-type drop-down of the data-breach page offers the trimmed,
    comma-separated parts of the [data_leaked] fields of the loaded leaks
    and nothing else, each part once, in the order of [sort()]. *)
Theorem data_type_options (rt : Runtime) (s : Leaks.State) :
  let options := LeaksPage.getUniqueDataTypes s in
  (forall t, In t options
             <-> exists leak part,
                   In leak (Leaks.dataLeaks s)
                   /\ In part (Str.split "," (Leaks.data_leaked leak))
                   /\ trim part = t)
  /\ NoDup options
  /\ StronglySorted Ord.string_le options.
Proof.
  intros options. split; [|split].
  - intros t. unfold options, LeaksPage.getUniqueDataTypes.
    rewrite sort_strings_In, (unique_In _ String.eqb String.eqb_eq),
      in_flat_map.
    split.
    + intros [leak [Hleak Ht]]. apply in_map_iff in Ht as [part [Ht Hpart]].
      now exists leak, part.
    + intros [leak [part [Hleak [Hpart Ht]]]]. exists leak.
      split; [exact Hleak|]. apply in_map_iff. now exists part.
  - apply sort_strings_NoDup, (unique_NoDup _ String.eqb String.eqb_eq).
  - apply sort_strings_sorted.
Qed.


(* ===================================================================== *)
(** ** What the tables list *)
(* ===================================================================== *)

(** The rows of the end-of-life table: every row shown is a loaded record
    that passes the search box, the status filter and the software
    filter; sorting only reorders the matching records; and with the
    search box empty and both drop-downs on "all" no loaded record is
    left out. *)
Theorem eol_rows_match_filters (rt : Runtime) (s : Eol.State) :
  Permutation (Eol.sortedData s) (Eol.filteredData s)
  /\ (forall r, In r (Eol.paginatedData s) ->
        In r (Eol.flattenedData s)
        /\ Eol.matchesSearch (Eol.searchQuery s) r = true
        /\ Eol.matchesStatus (Eol.statusFilter s) r = true
        /\ Eol.matchesSoftware (Eol.softwareFilter s) r = true)
  /\ (forall data,
        Permutation (Eol.sortedData (Eol.initial data)) data).
Proof.
  split; [|split].
  - apply sort_perm.
  - intros r Hr. unfold Eol.paginatedData in Hr.
    apply In_slice, In_sort in Hr. unfold Eol.filteredData in Hr.
    apply filter_In in Hr as [Hr Hmatch].
    repeat match goal with
           | E : _ && _ = true |- _ => apply andb_prop in E; destruct E
           end.
    now repeat split.
  - intros data.
    apply Permutation_trans with (Eol.filteredData (Eol.initial data)).
    + apply sort_perm.
    + unfold Eol.filteredData. cbn [Eol.initial Eol.flattenedData
        Eol.searchQuery Eol.statusFilter Eol.softwareFilter].
      rewrite (filter_ext _ (fun _ => true)).
      * rewrite forallb_filter_id; [apply Permutation_refl|].
        apply forallb_forall. reflexivity.
      * intros r. reflexivity.
Qed.

(** The "Reset" button of the data-breach page: afterwards the table
    lists every loaded leak again, in the current sort order; the page
    goes back to 1 when a filter was set, and stays where it was when
    none was. *)
Theorem reset_filters_lists_every_leak (rt : Runtime) (s : Leaks.State) :
  let s' := Leaks.step s Leaks.ResetFilters in
  Leaks.filteredLeaks s'
  = Js.sort (Leaks.compare (Leaks.sortConfig s)) (Leaks.dataLeaks s)
  /\ Permutation (Leaks.filteredLeaks s') (Leaks.dataLeaks s)
  /\ Leaks.currentPage s'
     = (if Leaks.filters_changed s (Leaks.initial (Leaks.dataLeaks s))
        then 1 else Leaks.currentPage s).
Proof.
  intros s'.
  assert (Hrows : Leaks.filteredLeaks s'
                  = Js.sort (Leaks.compare (Leaks.sortConfig s))
                            (Leaks.dataLeaks s)).
  { unfold s', Leaks.step. cbn [Leaks.handle].
    destruct (Leaks.filters_changed _ _); reflexivity. }
  split; [exact Hrows|]. split.
  - rewrite Hrows. apply sort_perm.
  - unfold s', Leaks.step. cbn [Leaks.handle].
    unfold Leaks.filters_changed.
    cbn [Leaks.with_filters Leaks.initial Leaks.searchQuery
         Leaks.dataTypeFilter Leaks.dateRangeFilter Leaks.startDate
         Leaks.endDate].
    destruct (negb _); reflexivity.
Qed.

(** The "Total Incidents" card and the table of the Web3 page: the table
    never lists an exploit the card does not count; and while the search
    box is blank and the type and category drop-downs are on "all", the
    table lists exactly the exploits the card counts and the "Total
    Losses" card adds up their amounts. *)
Theorem web3_table_and_cards_agree (rt : Runtime) (now : Z)
    (s : Web3.State) :
  (length (Web3.sortedExploits now s)
   <= Web3.incidents (Web3.render Web3.pageSize now s))%nat
  /\ (Str.truthy (trim (Web3.searchQuery s)) = false ->
      Web3.typeFilter s = "all" -> Web3.categoryFilter s = "all" ->
      Web3.projectFilter s = "all" ->
      Permutation (Web3.sortedExploits now s) (Web3.filteredExploits now s)
      /\ Web3.totalLosses now s = Web3.sum_funds (Web3.filteredExploits now s)).
Proof.
  split.
  - unfold Web3.sortedExploits. rewrite sort_length.
    cbn [Web3.render Web3.incidents].
    unfold Web3.projectFilteredExploits, Web3.categoryFilteredExploits,
      Web3.typeFilteredExploits, Web3.searchFilteredExploits.
    repeat (eapply Nat.le_trans; [apply List.filter_length_le|]).
    apply Nat.le_refl.
  - intros Hq Ht Hc Hp.
    assert (Hsame : Web3.projectFilteredExploits now s
                    = Web3.filteredExploits now s).
    { unfold Web3.projectFilteredExploits, Web3.categoryFilteredExploits,
        Web3.typeFilteredExploits, Web3.searchFilteredExploits.
      rewrite Hp, Hc, Ht.
      unfold Web3.matchesProject, Web3.matchesCategory, Web3.matchesType,
        Web3.matchesSearch.
      rewrite Hq. cbn.
      repeat (rewrite forallb_filter_id;
              [|apply forallb_forall; reflexivity]).
      reflexivity. }
    split.
    + unfold Web3.sortedExploits. rewrite Hsame. apply sort_perm.
    + unfold Web3.totalLosses. now rewrite Hsame.
Qed.

Lemma web3_table_and_cards_agree_witness :
  let s := Web3.initial Sample.jan_then_dec in
  Permutation (Web3.sortedExploits (rt := Engine.utc) Sample.now s)
              (Web3.filteredExploits (rt := Engine.utc) Sample.now s)
  /\ Web3.totalLosses (rt := Engine.utc) Sample.now s
     = Web3.sum_funds (Web3.filteredExploits (rt := Engine.utc) Sample.now s).
Proof.
  intros s.
  apply (web3_table_and_cards_agree Engine.utc Sample.now s); reflexivity.
Defined.

(* ===================================================================== *)
(** ** Clicks on a column header *)
(* ===================================================================== *)

(** A click on a sortable column header, on each of the three pages: the
    table is then sorted by that column, ascending when it was sorted by
    another column or descending by this one, descending when it was
    sorted ascending by this one; so a second click on the same header
    reverses the direction of the first.  The click does not change which
    records the table lists. *)
Theorem header_click_sorts_and_reverses (rt : Runtime) (now : Z)
    (k : string) (e : Eol.State) (l : Leaks.State) (w : Web3.State) :
  let flip d := match d with asc => desc | desc => asc end in
  let e1 := Eol.step e (Eol.SortBy k) in
  let l1 := Leaks.step l (Leaks.SortBy k) in
  let w1 := Web3.step w (Web3.SortBy k) in
  (Eol.key (Eol.sortConfig e1) = k
   /\ Eol.dir (Eol.sortConfig e1)
      = (if (Eol.key (Eol.sortConfig e) == k)
         then flip (Eol.dir (Eol.sortConfig e)) else asc)
   /\ Eol.dir (Eol.sortConfig (Eol.step e1 (Eol.SortBy k)))
      = flip (Eol.dir (Eol.sortConfig e1))
   /\ Permutation (Eol.sortedData e1) (Eol.sortedData e))
  /\ (Leaks.key (Leaks.sortConfig l1) = k
      /\ Leaks.dir (Leaks.sortConfig l1)
         = (if (Leaks.key (Leaks.sortConfig l) == k)
            then flip (Leaks.dir (Leaks.sortConfig l)) else asc)
      /\ Leaks.dir (Leaks.sortConfig (Leaks.step l1 (Leaks.SortBy k)))
         = flip (Leaks.dir (Leaks.sortConfig l1))
      /\ Permutation (Leaks.filteredLeaks l1) (Leaks.filteredLeaks l))
  /\ (Web3.key (Web3.sortConfig w1) = k
      /\ Web3.dir (Web3.sortConfig w1)
         = (if (Web3.key (Web3.sortConfig w) == k)
            then flip (Web3.dir (Web3.sortConfig w)) else asc)
      /\ Web3.dir (Web3.sortConfig (Web3.step w1 (Web3.SortBy k)))
         = flip (Web3.dir (Web3.sortConfig w1))
      /\ Permutation (Web3.sortedExploits now w1) (Web3.sortedExploits now w)).
Proof.
  intros flip e1 l1 w1.
  assert (He : Eol.step e (Eol.SortBy k) = Eol.handleSortChange k e).
  { unfold Eol.step. cbn [Eol.handle].
    unfold Eol.filters_changed.
    cbn [Eol.handleSortChange Eol.with_sortConfig Eol.searchQuery
         Eol.statusFilter Eol.softwareFilter].
    now rewrite !String.eqb_refl. }
  assert (He1 : Eol.step e1 (Eol.SortBy k) = Eol.handleSortChange k e1).
  { unfold Eol.step. cbn [Eol.handle].
    unfold Eol.filters_changed.
    cbn [Eol.handleSortChange Eol.with_sortConfig Eol.searchQuery
         Eol.statusFilter Eol.softwareFilter].
    now rewrite !String.eqb_refl. }
  assert (Hl : Leaks.step l (Leaks.SortBy k) = Leaks.handleSortChange k l).
  { unfold Leaks.step. cbn [Leaks.handle].
    unfold Leaks.filters_changed.
    cbn [Leaks.handleSortChange Leaks.with_sortConfig Leaks.searchQuery
         Leaks.dataTypeFilter Leaks.dateRangeFilter].
    now rewrite !String.eqb_refl. }
  assert (Hl1 : Leaks.step l1 (Leaks.SortBy k) = Leaks.handleSortChange k l1).
  { unfold Leaks.step. cbn [Leaks.handle].
    unfold Leaks.filters_changed.
    cbn [Leaks.handleSortChange Leaks.with_sortConfig Leaks.searchQuery
         Leaks.dataTypeFilter Leaks.dateRangeFilter].
    now rewrite !String.eqb_refl. }
  split; [|split].
  - rewrite He1. unfold e1. rewrite He.
    cbn [Eol.handleSortChange Eol.with_sortConfig Eol.sortConfig Eol.toggle
         Eol.key Eol.dir].
    rewrite String.eqb_refl.
    split; [reflexivity|]. split; [|split].
    + destruct (Eol.key (Eol.sortConfig e) == k),
        (Eol.dir (Eol.sortConfig e)); reflexivity.
    + destruct (Eol.key (Eol.sortConfig e) == k),
        (Eol.dir (Eol.sortConfig e)); reflexivity.
    + apply Permutation_trans with (Eol.filteredData e).
      * apply sort_perm.
      * apply Permutation_sym, sort_perm.
  - rewrite Hl1. unfold l1. rewrite Hl.
    cbn [Leaks.handleSortChange Leaks.with_sortConfig Leaks.sortConfig
         Leaks.toggle Leaks.key Leaks.dir].
    rewrite String.eqb_refl.
    split; [reflexivity|]. split; [|split].
    + destruct (Leaks.key (Leaks.sortConfig l) == k),
        (Leaks.dir (Leaks.sortConfig l)); reflexivity.
    + destruct (Leaks.key (Leaks.sortConfig l) == k),
        (Leaks.dir (Leaks.sortConfig l)); reflexivity.
    + unfold Leaks.filteredLeaks.
      cbn [Leaks.with_sortConfig Leaks.dataLeaks Leaks.searchQuery
           Leaks.dataTypeFilter Leaks.dateRangeFilter Leaks.sortConfig].
      eapply Permutation_trans; [apply sort_perm|].
      apply Permutation_sym, sort_perm.
  - unfold w1. cbn [Web3.step Web3.handleSortChange Web3.with_currentPage
                    Web3.with_sortConfig Web3.sortConfig Web3.toggle
                    Web3.key Web3.dir].
    rewrite String.eqb_refl.
    split; [reflexivity|]. split; [|split].
    + destruct (Web3.key (Web3.sortConfig w) == k),
        (Web3.dir (Web3.sortConfig w)); reflexivity.
    + destruct (Web3.key (Web3.sortConfig w) == k),
        (Web3.dir (Web3.sortConfig w)); reflexivity.
    + unfold Web3.sortedExploits.
      eapply Permutation_trans; [apply sort_perm|].
      apply Permutation_sym, sort_perm.
Qed.


(* ===================================================================== *)
(** ** The time ranges of the Web3 page *)
(* ===================================================================== *)

Lemma MakeDay_total_months (y m d : Z) :
  Date.MakeDay y m d = Date.MakeDay 0 (12 * y + m) 1 + d - 1.
Proof.
  unfold Date.MakeDay.
  replace (12 * y + m) with (m + y * 12) by lia.
  rewrite Z.div_add, Z.mod_add by lia.
  replace (0 + (m / 12 + y)) with (y + m / 12) by lia.
  lia.
Qed.

Lemma MakeDay_earlier_month (y m y' m' d : Z) :
  12 * y + m <= 12 * y' + m' -> Date.MakeDay y m d <= Date.MakeDay y' m' d.
Proof.
  intros Hle. rewrite (MakeDay_total_months y m d), (MakeDay_total_months y' m' d).
  destruct (Z.eq_dec (12 * y + m) (12 * y' + m')) as [->|Hne]; [lia|].
  pose proof (MakeDay_months_increase (12 * y + m) (12 * y' + m') ltac:(lia)).
  lia.
Qed.

Lemma TimeClip_Some (t v : Z) : Date.TimeClip t = Some v -> v = t.
Proof.
  unfold Date.TimeClip. destruct (_ <=? _); congruence.
Qed.

Section TimeRanges.
Context {rt : Runtime}.

Lemma setMonth_value (now m v : Z) :
  Date.setMonth now m = Some v ->
  v = Date.MakeDay (Date.getFullYear now) m (Date.getDate now)
      * Date.msPerDay
      + Date.TimeWithinDay (Date.LocalTime now) - LocalTZA.
Proof.
  unfold Date.setMonth. cbn zeta. intros H. apply TimeClip_Some in H.
  rewrite H. reflexivity.
Qed.

Lemma setFullYear_value (now y v : Z) :
  Date.setFullYear now y = Some v ->
  v = Date.MakeDay y (Date.getMonth now) (Date.getDate now) * Date.msPerDay
      + Date.TimeWithinDay (Date.LocalTime now) - LocalTZA.
Proof.
  unfold Date.setFullYear. cbn zeta. intros H. apply TimeClip_Some in H.
  rewrite H. reflexivity.
Qed.

Lemma days_to_ms (a b : Z) :
  a <= b -> a * Date.msPerDay <= b * Date.msPerDay.
Proof.
  intros Hle. apply Z.mul_le_mono_nonneg_r; [|exact Hle].
  unfold Date.msPerDay. lia.
Qed.

(** The start of a shorter range is not before the start of a longer
    one. *)
Lemma start_dates_ordered (now s3 s6 s1 : Z) :
  (Web3.getStartDate now Web3.M3 = Some s3 ->
   Web3.getStartDate now Web3.M6 = Some s6 -> s6 <= s3)
  /\ (Web3.getStartDate now Web3.M6 = Some s6 ->
      Web3.getStartDate now Web3.Y1 = Some s1 -> s1 <= s6).
Proof.
  cbn [Web3.getStartDate].
  pose proof (MonthFromTime_range (Date.LocalTime now)) as Hm.
  fold (Date.getMonth now) in Hm.
  split; intros Ha Hb.
  - apply setMonth_value in Ha, Hb. rewrite Ha, Hb.
    assert (Hmonths : 12 * Date.getFullYear now + (Date.getMonth now - 6)
                      <= 12 * Date.getFullYear now + (Date.getMonth now - 3))
      by lia.
    apply (MakeDay_earlier_month _ _ _ _ (Date.getDate now)) in Hmonths.
    apply days_to_ms in Hmonths. lia.
  - apply setMonth_value in Ha. apply setFullYear_value in Hb.
    rewrite Ha, Hb.
    assert (Hmonths : 12 * (Date.getFullYear now - 1) + Date.getMonth now
                      <= 12 * Date.getFullYear now + (Date.getMonth now - 6))
      by lia.
    apply (MakeDay_earlier_month _ _ _ _ (Date.getDate now)) in Hmonths.
    apply days_to_ms in Hmonths. lia.
Qed.

Lemma inTimeRange_earlier_start (a b : Z) (e : Web3.ExploitDetail) :
  b <= a ->
  Web3.inTimeRange (Some a) e = true -> Web3.inTimeRange (Some b) e = true.
Proof.
  intros Hle. unfold Web3.inTimeRange.
  destruct (Web3.date e) as [s|]; [|discriminate].
  destruct (negb (Str.truthy s)); [discriminate|].
  destruct (Js.lt _ _); [discriminate|].
  destruct (Web3.exploitDate s) as [t|]; [|discriminate].
  cbn [Js.of_time Js.ge]. intros Ht.
  apply Z.leb_le in Ht. apply Z.leb_le. lia.
Qed.

Lemma inTimeRange_no_start (e : Web3.ExploitDetail) :
  Web3.inTimeRange None e = false.
Proof.
  unfold Web3.inTimeRange.
  destruct (Web3.date e) as [s|]; [|reflexivity].
  destruct (negb (Str.truthy s)); [reflexivity|].
  destruct (Js.lt _ _); [reflexivity|].
  destruct (Web3.exploitDate s) as [t|]; reflexivity.
Qed.

Lemma range_within (now : Z) (s : Web3.State) (short long : Web3.TimeFilter)
      (b : Z) :
  Web3.getStartDate now long = Some b ->
  (forall a, Web3.getStartDate now short = Some a -> b <= a) ->
  forall e,
    Web3.inTimeRange (Web3.getStartDate now short) e = true ->
    Web3.inTimeRange (Web3.getStartDate now long) e = true.
Proof.
  intros Hlong Hle e. rewrite Hlong.
  destruct (Web3.getStartDate now short) as [a|].
  - apply inTimeRange_earlier_start. now apply Hle.
  - now rewrite inTimeRange_no_start.
Qed.

End TimeRanges.

(** The time-range buttons of the Web3 page select nested ranges: as long
    as the start dates of the six-month and one-year ranges are valid
    dates, and the one-year range starts after 1 January 1970, every
    exploit counted under "3M" is counted under "6M", every exploit
    counted under "6M" is counted under "1Y", and every exploit counted
    under "1Y" is counted under "All"; so the "Total Incidents" card
    never shrinks when a longer range is selected. *)
Theorem time_ranges_nested (rt : Runtime) (now : Z) (s : Web3.State)
    (s6 s1 : Z) :
  Web3.getStartDate now Web3.M6 = Some s6 ->
  Web3.getStartDate now Web3.Y1 = Some s1 ->
  0 <= s1 ->
  let shown tf := Web3.filteredExploits now (Web3.with_timeFilter tf s) in
  incl (shown Web3.M3) (shown Web3.M6)
  /\ incl (shown Web3.M6) (shown Web3.Y1)
  /\ incl (shown Web3.Y1) (shown Web3.All)
  /\ (length (shown Web3.M3) <= length (shown Web3.M6))%nat
  /\ (length (shown Web3.M6) <= length (shown Web3.Y1))%nat
  /\ (length (shown Web3.Y1) <= length (shown Web3.All))%nat.
Proof.
  intros H6 H1 Hepoch shown.
  assert (Hshown : forall tf,
             shown tf
             = filter (Web3.inTimeRange (Web3.getStartDate now tf))
                      (Web3.exploits s)).
  { intros tf. unfold shown, Web3.filteredExploits.
    now rewrite getFilteredData_filter. }
  assert (H36 : forall e,
             Web3.inTimeRange (Web3.getStartDate now Web3.M3) e = true ->
             Web3.inTimeRange (Web3.getStartDate now Web3.M6) e = true).
  { apply (range_within now s Web3.M3 Web3.M6 s6 H6).
    intros a Ha. now apply (proj1 (start_dates_ordered now a s6 s1)). }
  assert (H61 : forall e,
             Web3.inTimeRange (Web3.getStartDate now Web3.M6) e = true ->
             Web3.inTimeRange (Web3.getStartDate now Web3.Y1) e = true).
  { apply (range_within now s Web3.M6 Web3.Y1 s1 H1).
    intros a Ha. rewrite H6 in Ha. injection Ha as <-.
    now apply (proj2 (start_dates_ordered now 0 s6 s1)). }
  assert (H1a : forall e,
             Web3.inTimeRange (Web3.getStartDate now Web3.Y1) e = true ->
             Web3.inTimeRange (Web3.getStartDate now Web3.All) e = true).
  { apply (range_within now s Web3.Y1 Web3.All 0 eq_refl).
    intros a Ha. rewrite H1 in Ha. injection Ha as <-. exact Hepoch. }
  rewrite !Hshown.
  repeat split;
    try (intros e He; apply filter_In in He as [He Hin]; apply filter_In;
         split; [exact He|]; auto);
    try (apply filter_length_mono; assumption).
Qed.

Lemma time_ranges_nested_witness :
  let shown tf :=
    Web3.filteredExploits (rt := Engine.utc) Sample.now
      (Web3.with_timeFilter tf (Web3.initial Sample.jan_then_dec)) in
  incl (shown Web3.M3) (shown Web3.M6)
  /\ incl (shown Web3.M6) (shown Web3.Y1)
  /\ incl (shown Web3.Y1) (shown Web3.All)
  /\ (length (shown Web3.M3) <= length (shown Web3.M6))%nat
  /\ (length (shown Web3.M6) <= length (shown Web3.Y1))%nat
  /\ (length (shown Web3.Y1) <= length (shown Web3.All))%nat.
Proof.
  assert (H6 : Web3.getStartDate (rt := Engine.utc) Sample.now Web3.M6
               = Some 1693569600000) by (vm_compute; reflexivity).
  assert (H1 : Web3.getStartDate (rt := Engine.utc) Sample.now Web3.Y1
               = Some 1677672000000) by (vm_compute; reflexivity).
  exact (time_ranges_nested Engine.utc Sample.now
           (Web3.initial Sample.jan_then_dec) 1693569600000 1677672000000
           H6 H1 ltac:(lia)).
Defined.

Section Periods.
Context {rt : Runtime}.

Lemma inTimeRange_current (start : option Z) (e : Web3.ExploitDetail) :
  Web3.inTimeRange start e
  = Web3Page.inCurrentPeriod start e && negb (Spec.before_2015 e).
Proof.
  unfold Web3.inTimeRange, Web3Page.inCurrentPeriod, Spec.before_2015,
    Web3.leading_year, Web3.component.
  destruct (Web3.date e) as [s|]; [|reflexivity].
  destruct (negb (Str.truthy s)); [reflexivity|].
  destruct (Str.split "-" s) as [|year parts]; cbn [nth_error].
  - cbn [Js.lt negb]. now rewrite andb_true_r.
  - destruct (Js.lt (Number year) (Js.Num 2015)); cbn [negb].
    + now rewrite andb_false_r.
    + now rewrite andb_true_r.
Qed.

Lemma periods_exclusive (prev cur : option Z) (e : Web3.ExploitDetail) :
  Web3Page.inPreviousPeriod prev cur e = true ->
  Web3Page.inCurrentPeriod cur e = false.
Proof.
  unfold Web3Page.inPreviousPeriod, Web3Page.inCurrentPeriod.
  destruct (Web3.date e) as [s|]; [|reflexivity].
  destruct (negb (Str.truthy s)); [reflexivity|].
  destruct (Web3.exploitDate s) as [t|]; [|reflexivity].
  intros H. apply andb_prop in H as [_ H].
  destruct cur as [c|]; cbn [Js.of_time Js.lt Js.ge] in *; [|reflexivity].
  apply Z.ltb_lt in H. apply Z.leb_gt. lia.
Qed.

End Periods.

(** The periods [calculateDelta] compares.  For '3m', '6m' and '1y' the
    current period starts where the selected time range starts and the
    previous period where the next longer range starts.  The current
    period holds every exploit the "Total Incidents" card counts,
    together with the exploits of the range whose year reads as below
    2015, which the card leaves out; and no exploit is in both periods. *)
Theorem delta_periods (rt : Runtime) (now : Z) (s : Web3.State)
    (currentStartDate prevStartDate : option Z) :
  Web3Page.periodStarts now (Web3.timeFilter s)
  = Some (currentStartDate, prevStartDate) ->
  let current :=
    Web3Page.currentPeriodExploits currentStartDate (Web3.exploits s) in
  let previous :=
    Web3Page.previousPeriodExploits prevStartDate currentStartDate
      (Web3.exploits s) in
  currentStartDate = Web3.getStartDate now (Web3.timeFilter s)
  /\ Web3.filteredExploits now s
     = filter (fun e => negb (Spec.before_2015 e)) current
  /\ (length (Web3.filteredExploits now s) <= length current)%nat
  /\ (forall e, In e previous -> ~ In e current).
Proof.
  intros Hstarts current previous.
  assert (Hcur : currentStartDate = Web3.getStartDate now (Web3.timeFilter s)).
  { unfold Web3Page.periodStarts in Hstarts.
    destruct (Web3.timeFilter s); cbv beta iota in Hstarts;
      [| | |discriminate Hstarts];
      injection Hstarts as Hc _; symmetry; exact Hc. }
  assert (Hshown : Web3.filteredExploits now s
                   = filter (fun e => negb (Spec.before_2015 e)) current).
  { unfold Web3.filteredExploits. rewrite getFilteredData_filter.
    unfold current, Web3Page.currentPeriodExploits.
    rewrite filter_filter_and, <- Hcur.
    apply filter_ext. intros e. apply inTimeRange_current. }
  split; [exact Hcur|]. split; [exact Hshown|]. split.
  - rewrite Hshown. apply List.filter_length_le.
  - intros e Hprev Hnow. unfold previous, current,
      Web3Page.previousPeriodExploits, Web3Page.currentPeriodExploits in *.
    apply filter_In in Hprev as [_ Hprev]. apply filter_In in Hnow as [_ Hnow].
    apply periods_exclusive in Hprev. congruence.
Qed.

Lemma delta_periods_witness :
  let s := Web3.initial Sample.jan_then_dec in
  let current :=
    Web3Page.currentPeriodExploits (rt := Engine.utc)
      (Some 1701432000000) (Web3.exploits s) in
  let previous :=
    Web3Page.previousPeriodExploits (rt := Engine.utc)
      (Some 1693569600000) (Some 1701432000000) (Web3.exploits s) in
  Some 1701432000000
  = Web3.getStartDate (rt := Engine.utc) Sample.now (Web3.timeFilter s)
  /\ Web3.filteredExploits (rt := Engine.utc) Sample.now s
     = filter (fun e => negb (Spec.before_2015 (rt := Engine.utc) e)) current
  /\ (length (Web3.filteredExploits (rt := Engine.utc) Sample.now s)
      <= length current)%nat
  /\ (forall e, In e previous -> ~ In e current).
Proof.
  intros s.
  assert (Hstarts : Web3Page.periodStarts (rt := Engine.utc) Sample.now
                      (Web3.timeFilter s)
                    = Some (Some 1701432000000, Some 1693569600000))
    by (vm_compute; reflexivity).
  exact (delta_periods Engine.utc Sample.now s _ _ Hstarts).
Defined.


(* ===================================================================== *)
(** ** What the proxy lets through *)
(* ===================================================================== *)

(** The proxy answers with a success status only for what the origin
    served.  Whenever a response with a status from 200 to 299 leaves the
    worker, the request was authorised, its path named a year file, an
    origin was configured, the origin was asked for that file and answered
    with a success status, and the response has status 200 and the body of
    the origin.  Every other response of the worker has one of its four
    fixed texts as body and the content type of a plain text as its only
    header: no body and no header of a failed origin response reaches the
    client.  The worker throws instead of answering exactly when the
    request was forwarded and the origin could not be reached or answered
    with status 304 or a status outside 200..599. *)
Theorem proxy_passes_only_success (request : Proxy.Request) (env : Proxy.Env)
    (net : string -> option Proxy.Upstream) :
  let outcome := Proxy.run net (Proxy.fetch request env) in
  let forwarded upstream :=
    Proxy.unauthorized request env = false
    /\ Str.is_year_json (Proxy.path_of request) = true
    /\ exists origin,
         Proxy.ORIGIN_BASE_URL env = Some origin /\ origin <> ""
         /\ net (Str.drop_trailing "/" origin ++ "/"
                 ++ Proxy.path_of request)%string = upstream in
  let unanswerable upstream :=
    Proxy.up_status upstream = 304
    \/ Proxy.up_status upstream < 200
    \/ 599 < Proxy.up_status upstream in
  match outcome with
  | Proxy.Returns response =>
      if (200 <=? Proxy.status response) && (Proxy.status response <=? 299)
      then
        exists upstream,
          forwarded (Some upstream)
          /\ Proxy.ok upstream = true
          /\ Proxy.status response = 200
          /\ Proxy.body response = Proxy.up_body upstream
      else
        In (Proxy.body response)
           ["Unauthorized"; "Not Found"; "Proxy not configured";
            "Upstream unavailable"]
        /\ Proxy.headers response
           = [("content-type", "text/plain;charset=UTF-8")]
  | Proxy.Throws e =>
      (forwarded None /\ e = Proxy.Rejected)
      \/ exists upstream, forwarded (Some upstream) /\ unanswerable upstream
  end
  /\ (forwarded None -> outcome = Proxy.Throws Proxy.Rejected)
  /\ (forall upstream,
        forwarded (Some upstream) -> unanswerable upstream ->
        exists e, outcome = Proxy.Throws e).
Proof.
  intros outcome forwarded unanswerable.
  unfold outcome, forwarded, unanswerable, Proxy.fetch.
  destruct (Proxy.unauthorized request env).
  { cbn. split; [split; [now left|reflexivity]|].
    split; [intros [H _]; discriminate H|intros ? [H _]; discriminate H]. }
  destruct (Str.is_year_json (Proxy.path_of request)); cbn [negb].
  2:{ cbn. split; [split; [now right; left|reflexivity]|].
      split; [intros (_ & H & _); discriminate H
             |intros ? (_ & H & _); discriminate H]. }
  destruct (Proxy.ORIGIN_BASE_URL env) as [origin|].
  2:{ cbn. split; [split; [now right; right; left|reflexivity]|].
      split; [intros (_ & _ & o & H & _); discriminate H
             |intros ? (_ & _ & o & H & _); discriminate H]. }
  destruct origin as [|c origin].
  { cbn. split; [split; [now right; right; left|reflexivity]|].
    split; [intros (_ & _ & o & H & Ho & _); injection H as <-;
            exfalso; now apply Ho
           |intros ? (_ & _ & o & H & Ho & _); injection H as <-;
            exfalso; now apply Ho]. }
  cbn [Str.truthy negb Proxy.run].
  set (target := (Str.drop_trailing "/" (String c origin) ++ "/"
                  ++ Proxy.path_of request)%string).
  assert (Hforwarded : forall upstream,
             net target = upstream ->
             false = false /\ true = true
             /\ exists origin0,
                  Some (String c origin) = Some origin0 /\ origin0 <> ""
                  /\ net (Str.drop_trailing "/" origin0 ++ "/"
                          ++ Proxy.path_of request)%string = upstream).
  { intros upstream Hnet. split; [reflexivity|]. split; [reflexivity|].
    exists (String c origin). split; [reflexivity|].
    split; [discriminate|exact Hnet]. }
  assert (Hnet : forall upstream,
             (false = false /\ true = true
              /\ exists origin0,
                   Some (String c origin) = Some origin0 /\ origin0 <> ""
                   /\ net (Str.drop_trailing "/" origin0 ++ "/"
                           ++ Proxy.path_of request)%string = upstream) ->
             net target = upstream).
  { intros upstream (_ & _ & o & Ho & _ & Hnet). injection Ho as <-.
    exact Hnet. }
  destruct (net target) as [upstream|] eqn:Htarget.
  2:{ split; [left; split; [now apply Hforwarded|reflexivity]|].
      split; [reflexivity|].
      intros upstream Hup. apply Hnet in Hup. discriminate Hup. }
  split; [|split].
  - destruct (Proxy.ok upstream) eqn:Hok.
    + unfold Proxy.relay. rewrite Hok. cbn [negb Proxy.status].
      cbn [Z.leb Z.compare Pos.compare Pos.compare_cont andb].
      exists upstream. split; [now apply Hforwarded|]. now repeat split.
    + rewrite (relay_not_ok upstream Hok).
      unfold Spec.relayed_status.
      unfold Proxy.ok in Hok.
      destruct (Z.leb_spec 300 (Proxy.up_status upstream));
        destruct (Z.leb_spec (Proxy.up_status upstream) 599);
        destruct (Z.eqb_spec (Proxy.up_status upstream) 304);
        cbn [andb negb];
        try (right; exists upstream; split; [now apply Hforwarded|lia]).
      unfold Proxy.plain. cbn [Proxy.status Proxy.body Proxy.headers].
      rewrite Hok. split; [now right; right; right; left|reflexivity].
  - intros Hup. apply Hnet in Hup. discriminate Hup.
  - intros upstream' Hup Hbad. apply Hnet in Hup. injection Hup as <-.
    assert (Hok : Proxy.ok upstream = false).
    { unfold Proxy.ok. apply andb_false_iff.
      destruct (Z.leb_spec 200 (Proxy.up_status upstream)); [|now left].
      right. apply Z.leb_gt. lia. }
    rewrite (relay_not_ok upstream Hok).
    replace (Spec.relayed_status (Proxy.up_status upstream)) with false.
    + eexists. reflexivity.
    + symmetry. unfold Spec.relayed_status.
      destruct (Z.leb_spec 300 (Proxy.up_status upstream));
        destruct (Z.leb_spec (Proxy.up_status upstream) 599);
        destruct (Z.eqb_spec (Proxy.up_status upstream) 304);
        cbn [andb negb]; try reflexivity; lia.
Qed.


(* ===================================================================== *)
(** ** Tables sorted by a number column *)
(* ===================================================================== *)

Section NumberOrder.
Variable A : Type.
Variable key : A -> Js.number.
Variable cmp : A -> A -> Z.
Variable d : direction.
Hypothesis cmp_key :
  forall a b,
    cmp a b
    = if Js.lt (key a) (key b) then match d with asc => -1 | desc => 1 end
      else if Js.lt (key b) (key a)
           then match d with asc => 1 | desc => -1 end
           else 0.

Lemma sort_by_number (l : list A) :
  Forall (fun a => key a <> Js.NaN) l ->
  StronglySorted
    (Ord.directed d (fun a b => Js.le (key a) (key b) = true))
    (Js.sort cmp l).
Proof.
  apply sort_sorted.
  - intros a b c Ha Hb Hc. unfold Ord.directed, Js.le, Js.ge.
    destruct d, (key a) as [|x|], (key b) as [|y|], (key c) as [|z|];
      try congruence; try reflexivity; try discriminate;
      rewrite ?Z.leb_le; lia.
  - intros a b Ha Hb. rewrite cmp_key.
    unfold Ord.directed, Js.le, Js.ge, Js.lt.
    destruct d, (key a) as [|x|], (key b) as [|y|];
      try congruence; try reflexivity; try lia;
      destruct (Z.ltb_spec x y); try lia;
      destruct (Z.ltb_spec y x); try lia;
      intros _; apply Z.leb_le; lia.
  - intros a b Ha Hb. rewrite cmp_key.
    unfold Ord.directed, Js.le, Js.ge, Js.lt.
    destruct d, (key a) as [|x|], (key b) as [|y|];
      try congruence; try reflexivity; try lia;
      destruct (Z.ltb_spec x y); try lia;
      destruct (Z.ltb_spec y x); try lia;
      intros _; apply Z.leb_le; lia.
Qed.

End NumberOrder.

(** The end-of-life table sorted by "Days Remaining", which is how the
    page opens (ascending): as long as no record has [NaN] days
    remaining, the rows are in the order of their days remaining, the
    records without an end-of-life date (infinitely many days) last when
    ascending and first when descending. *)
Theorem eol_rows_by_days_remaining (rt : Runtime) (s : Eol.State)
    (d : direction) :
  Forall (fun r => Eol.daysRemaining r <> Js.NaN) (Eol.flattenedData s) ->
  StronglySorted
    (Ord.directed d (fun a b => Js.le (Eol.daysRemaining a)
                                      (Eol.daysRemaining b) = true))
    (Eol.sortedData
       (Eol.with_sortConfig {| Eol.key := "daysRemaining"; Eol.dir := d |} s)).
Proof.
  intros Hdata. unfold Eol.sortedData.
  cbn [Eol.with_sortConfig Eol.sortConfig].
  apply sort_by_number.
  - intros a b. unfold Eol.compare, Eol.sort_value, Eol.get. cbn.
    destruct (Js.lt (Eol.daysRemaining a) (Eol.daysRemaining b));
      [reflexivity|].
    destruct (Js.lt (Eol.daysRemaining b) (Eol.daysRemaining a)); reflexivity.
  - rewrite Forall_forall in *. intros r Hr. apply Hdata.
    unfold Eol.filteredData in Hr. cbn [Eol.with_sortConfig] in Hr.
    now apply filter_In in Hr.
Qed.

Lemma eol_rows_by_days_remaining_witness :
  StronglySorted
    (Ord.directed asc (fun a b => Js.le (Eol.daysRemaining a)
                                        (Eol.daysRemaining b) = true))
    (Eol.sortedData (rt := Engine.utc)
       (Eol.with_sortConfig
          {| Eol.key := "daysRemaining"; Eol.dir := asc |}
          (Eol.initial Sample.dated_then_undated))).
Proof.
  apply (eol_rows_by_days_remaining Engine.utc
           (Eol.initial Sample.dated_then_undated) asc).
  repeat constructor; discriminate.
Defined.

(** The data-breach table sorted by "Breach Date", which is how the page
    opens (newest first), or by "Records Exposed": as long as every
    breach date of the loaded leaks parses, respectively no count is
    [NaN], the rows are in the order of the time values of their dates,
    respectively of their counts. *)
Theorem leaks_rows_by_date_and_count (rt : Runtime) (s : Leaks.State)
    (d : direction) :
  (Forall (fun leak => Date.of_field (Leaks.breach_date leak) <> None)
          (Leaks.dataLeaks s) ->
   StronglySorted
     (Ord.directed d
        (fun a b =>
           Js.le (Js.of_time (Date.of_field (Leaks.breach_date a)))
                 (Js.of_time (Date.of_field (Leaks.breach_date b))) = true))
     (Leaks.filteredLeaks
        (Leaks.with_sortConfig
           {| Leaks.key := "breach_date"; Leaks.dir := d |} s)))
  /\ (Forall (fun leak => Leaks.leak_count leak <> Js.NaN)
             (Leaks.dataLeaks s) ->
      StronglySorted
        (Ord.directed d (fun a b => Js.le (Leaks.leak_count a)
                                          (Leaks.leak_count b) = true))
        (Leaks.filteredLeaks
           (Leaks.with_sortConfig
              {| Leaks.key := "leak_count"; Leaks.dir := d |} s))).
Proof.
  assert (Hsub : forall (P : Leaks.DataLeak -> Prop) results,
             Forall P (Leaks.dataLeaks s) ->
             incl results (Leaks.dataLeaks s) -> Forall P results).
  { intros P results HP Hincl. rewrite Forall_forall in *. auto. }
  assert (Hif : forall (b : bool) (p : Leaks.DataLeak -> bool) results,
             incl results (Leaks.dataLeaks s) ->
             incl (if b then filter p results else results)
                  (Leaks.dataLeaks s)).
  { intros b p results Hincl. destruct b; [|exact Hincl].
    intros x Hx. apply filter_In in Hx as [Hx _]. now apply Hincl. }
  split; intros Hdata; unfold Leaks.filteredLeaks;
    cbn [Leaks.with_sortConfig Leaks.sortConfig Leaks.dataLeaks
         Leaks.searchQuery Leaks.dataTypeFilter Leaks.dateRangeFilter].
  - apply sort_by_number
      with (key := fun leak =>
                     Js.of_time (Date.of_field (Leaks.breach_date leak))).
    + intros a b. unfold Leaks.compare, Leaks.sort_value. cbn.
      reflexivity.
    + apply Hsub with
        (P := fun leak =>
                Js.of_time (Date.of_field (Leaks.breach_date leak)) <> Js.NaN).
      * rewrite Forall_forall in *. intros leak Hleak.
        specialize (Hdata leak Hleak).
        destruct (Date.of_field (Leaks.breach_date leak));
          [discriminate|congruence].
      * repeat apply Hif. apply incl_refl.
  - apply sort_by_number with (key := Leaks.leak_count).
    + intros a b. unfold Leaks.compare, Leaks.sort_value. cbn.
      reflexivity.
    + apply Hsub with (P := fun leak => Leaks.leak_count leak <> Js.NaN);
        [exact Hdata|].
      repeat apply Hif. apply incl_refl.
Qed.


(* ===================================================================== *)
(** ** Numbers with thousands separators *)
(* ===================================================================== *)

Lemma split_cons (sep : ascii) (s : string) :
  exists p ps, Str.split sep s = p :: ps.
Proof.
  destruct s as [|c s]; cbn [Str.split]; [now eexists; eexists|].
  destruct (Ascii.eqb c sep); [now eexists; eexists|].
  destruct (Str.split sep s); now eexists; eexists.
Qed.

Lemma split_other (sep c : ascii) (s p : string) (ps : list string) :
  Ascii.eqb c sep = false -> Str.split sep s = p :: ps ->
  Str.split sep (String c s) = String c p :: ps.
Proof. intros Hc Hs. cbn [Str.split]. now rewrite Hc, Hs. Qed.

Lemma concat_cons_char (c : ascii) (h : string) (t : list string) :
  String.concat "" (String c h :: t) = String c (String.concat "" (h :: t)).
Proof. destruct t; reflexivity. Qed.

Lemma split_sep (sep : ascii) (s : string) :
  Str.split sep (String sep s) = "" :: Str.split sep s.
Proof. cbn [Str.split]. now rewrite Ascii.eqb_refl. Qed.

Lemma digit_not_comma (c : ascii) :
  Str.is_digit c = true -> Ascii.eqb c "," = false.
Proof.
  intros Hc. destruct (Ascii.eqb_spec c ","); [|reflexivity].
  subst c. discriminate.
Qed.

Lemma digit_is_word (c : ascii) :
  Str.is_digit c = true -> LeaksPage.is_word c = true.
Proof. intros Hc. unfold LeaksPage.is_word. now rewrite Hc. Qed.

Lemma digit_run_all_digits (s : string) :
  Str.all_digits s = true -> LeaksPage.digit_run s = String.length s.
Proof.
  induction s as [|c s IH]; [reflexivity|].
  cbn [Str.all_digits LeaksPage.digit_run String.length].
  intros H. apply andb_prop in H as [Hc Hs]. rewrite Hc. now rewrite IH.
Qed.

(** The groups behind a word character: a first group that completes the
    number of digits to a multiple of three, then groups of three. *)
Lemma group_digits_groups (s : string) :
  Str.all_digits s = true ->
  exists h t,
    Str.split "," (LeaksPage.group_digits true s) = h :: t
    /\ Str.all_digits h = true
    /\ String.length h = (String.length s mod 3)%nat
    /\ Forall (fun p => Str.all_digits p = true /\ String.length p = 3%nat) t
    /\ String.concat "" (h :: t) = s.
Proof.
  induction s as [|c s IH]; intros Hs.
  - exists "", []. repeat split; constructor.
  - cbn [Str.all_digits] in Hs. apply andb_prop in Hs as [Hc Hs].
    destruct (IH Hs) as [h [t [Hsplit [Hh [Hlen [Ht Hcat]]]]]].
    cbn [LeaksPage.group_digits].
    rewrite (digit_is_word c Hc). cbn [Bool.eqb andb].
    unfold LeaksPage.groups_ahead.
    rewrite (digit_run_all_digits (String c s))
      by (cbn [Str.all_digits]; now rewrite Hc, Hs).
    cbn [String.length Nat.ltb Nat.leb andb].
    pose proof (split_other "," c _ h t (digit_not_comma c Hc) Hsplit) as Hrest.
    pose proof (Nat.div_mod_eq (String.length s) 3) as Hdiv.
    pose proof (Nat.mod_upper_bound (String.length s) 3 ltac:(lia)) as Hlt.
    pose proof (Nat.div_mod_eq (S (String.length s)) 3) as Hdiv'.
    pose proof (Nat.mod_upper_bound (S (String.length s)) 3 ltac:(lia)) as Hlt'.
    assert (Hcat' : String.concat "" (String c h :: t) = String c s).
    { now rewrite concat_cons_char, Hcat. }
    destruct (Nat.eqb_spec (S (String.length s) mod 3) 0) as [Hzero|Hnot].
    + exists "", (String c h :: t).
      split; [now rewrite split_sep, Hrest|].
      split; [reflexivity|]. split; [cbn [String.length]; lia|].
      split.
      * constructor; [|exact Ht]. cbn [Str.all_digits String.length].
        rewrite Hc, Hh. split; [reflexivity|lia].
      * cbn [String.concat String.append]. exact Hcat'.
    + exists (String c h), t.
      split; [exact Hrest|].
      split; [cbn [Str.all_digits]; now rewrite Hc, Hh|].
      split; [cbn [String.length]; lia|].
      split; [exact Ht|exact Hcat'].
Qed.

Lemma uint_digits (d : Decimal.uint) :
  Str.all_digits (NilEmpty.string_of_uint d) = true.
Proof.
  induction d; cbn [NilEmpty.string_of_uint Str.all_digits];
    try reflexivity; rewrite IHd; reflexivity.
Qed.

Lemma of_Z_digits (z : Z) :
  0 <= z ->
  exists c s, Str.of_Z z = String c s /\ Str.is_digit c = true
              /\ Str.all_digits s = true.
Proof.
  intros Hz. unfold Str.of_Z.
  assert (Huint : forall d,
             exists c s, NilZero.string_of_uint d = String c s
                         /\ Str.is_digit c = true
                         /\ Str.all_digits s = true).
  { intros d. pose proof (uint_digits d) as Hd.
    destruct d; cbn [NilZero.string_of_uint NilEmpty.string_of_uint] in *;
      try (cbn [Str.all_digits] in Hd; apply andb_prop in Hd as [Hc Hd]);
      eexists; eexists; repeat split; try eassumption; reflexivity. }
  destruct z as [|p|p]; [| |lia]; cbn [Z.to_int NilZero.string_of_int];
    apply Huint.
Qed.

(** The separators [formatNumber] puts into a leak count: for a count from
    0 to 2^53, where [toString] prints the digits of the count, the digits
    come out in groups separated by commas, a first group of one to three
    digits and then groups of exactly three digits, and the groups put
    together are the digits of the count. *)
Theorem formatNumber_groups_of_three (toString_large : Z -> string)
    (z : Z) :
  0 <= z <= 2 ^ 53 ->
  exists first rest,
    LeaksPage.groups (LeaksPage.formatNumber toString_large (Js.Num z))
    = first :: rest
    /\ Str.all_digits first = true
    /\ (1 <= String.length first <= 3)%nat
    /\ Forall (fun p => Str.all_digits p = true /\ String.length p = 3%nat)
              rest
    /\ String.concat "" (first :: rest) = Str.of_Z z.
Proof.
  intros Hz. destruct (of_Z_digits z (proj1 Hz)) as [c [s [Hof [Hc Hs]]]].
  unfold LeaksPage.groups, LeaksPage.formatNumber, LeaksPage.toString.
  replace (Z.abs z <=? 2 ^ 53) with true
    by (symmetry; apply Z.leb_le; lia).
  rewrite Hof. cbn [LeaksPage.group_digits].
  rewrite (digit_is_word c Hc). cbn [Bool.eqb andb].
  destruct (group_digits_groups s Hs) as [h [t [Hsplit [Hh [Hlen [Ht Hcat]]]]]].
  exists (String c h), t.
  split; [exact (split_other "," c _ h t (digit_not_comma c Hc) Hsplit)|].
  split; [cbn [Str.all_digits]; now rewrite Hc, Hh|].
  pose proof (Nat.mod_upper_bound (String.length s) 3 ltac:(lia)) as Hlt.
  split; [cbn [String.length]; lia|].
  split; [exact Ht|].
  now rewrite concat_cons_char, Hcat.
Qed.

(** A count of seven digits. *)
Lemma formatNumber_groups_of_three_witness :
  LeaksPage.formatNumber (fun _ => "") (Js.Num 1234567) = "1,234,567"
  /\ exists first rest,
       LeaksPage.groups (LeaksPage.formatNumber (fun _ => "") (Js.Num 1234567))
       = first :: rest
       /\ Str.all_digits first = true
       /\ (1 <= String.length first <= 3)%nat
       /\ Forall (fun p => Str.all_digits p = true
                           /\ String.length p = 3%nat) rest
       /\ String.concat "" (first :: rest) = Str.of_Z 1234567.
Proof.
  split; [reflexivity|].
  apply (formatNumber_groups_of_three (fun _ => "") 1234567). lia.
Defined.


(* ===================================================================== *)
(** ** The status filter and the "Showing" line of the Web3 table *)
(* ===================================================================== *)

(** The five status values of the status drop-down partition the records
    [processData] builds: every record is listed under exactly one of
    "expired", "critical", "warning", "notice" and "active". *)
Theorem status_filters_partition (rt : Runtime) (today : Z)
    (data : list (string * list Eol.SoftwareVersion)) :
  Forall (fun r =>
            length (filter (fun f => Eol.matchesStatus f r)
                           ["expired"; "critical"; "warning"; "notice";
                            "active"])
            = 1%nat)
         (Eol.processData today data).
Proof.
  apply Forall_forall. intros r Hr.
  apply In_processData in Hr as [nm [v ->]].
  unfold Eol.matchesStatus. cbn [filter].
  rewrite flatten_version_status.
  destruct (Eol.daysRemaining _) as [|d|]; try reflexivity.
  destruct (d <? 0); [reflexivity|].
  destruct (d =? 0); [reflexivity|].
  destruct (d <? 30); [reflexivity|].
  destruct (d <? 90); [reflexivity|].
  destruct (d <? 180); reflexivity.
Qed.

(** The line "Showing X to Y of N" of the Web3 table, which is rendered
    also when there is nothing to page through: it reads "0 to 0 of 0"
    when no exploit matches (on any page from 0 on), and on a page of the
    table X and Y are the positions of the first and of the last row
    shown, counted from 1, and the table shows Y - X + 1 rows. *)
Theorem web3_showing_line (rt : Runtime) (now : Z) (s : Web3.State) :
  let from := Web3Page.showingFrom Web3.pageSize now s in
  let to := Web3Page.showingTo Web3.pageSize now s in
  let n := length (Web3.sortedExploits now s) in
  (n = 0%nat -> 0 <= Web3.currentPage s -> from = 0 /\ to = 0)
  /\ (1 <= Web3.currentPage s <= Web3.totalPages Web3.pageSize now s ->
      1 <= from <= to /\ to <= Z.of_nat n
      /\ Z.of_nat (length (Web3.paginatedExploits Web3.pageSize now s))
         = to - from + 1
      /\ Web3.paginatedExploits Web3.pageSize now s
         = firstn (Z.to_nat (to - from + 1))
                  (skipn (Z.to_nat (from - 1)) (Web3.sortedExploits now s))).
Proof.
  intros from to n. split.
  - intros Hn Hpage. unfold from, to, Web3Page.showingFrom, Web3Page.showingTo.
    fold n. rewrite Hn. cbn [Z.of_nat Z.ltb Z.compare].
    unfold Web3.pageSize. split; [reflexivity|lia].
  - intros Hpage.
    pose proof (slice_page _ (Web3.currentPage s) Web3.pageSize
                  (Web3.sortedExploits now s)
                  ltac:(unfold Web3.pageSize; lia) Hpage) as Hslice.
    cbn zeta in Hslice.
    unfold Pager.showingFrom, Pager.showingTo in Hslice.
    assert (Hn : 0 < Z.of_nat n).
    { unfold Web3.totalPages in Hpage. fold n in Hpage.
      destruct n; [|lia]. cbn in Hpage. lia. }
    unfold from, to, Web3Page.showingFrom, Web3Page.showingTo.
    fold n in Hslice |- *.
    destruct (Z.ltb_spec 0 (Z.of_nat n)); [|lia].
    exact Hslice.
Qed.


(* ===================================================================== *)
(** ** Leak names in title case *)
(* ===================================================================== *)

Lemma string_pair_ind (P : string -> Prop) :
  P "" ->
  (forall a, P (String a "")) ->
  (forall a b rest, P rest -> P (String b rest) ->
                    P (String a (String b rest))) ->
  forall s, P s.
Proof.
  intros Hempty Hone Hstep s.
  assert (Hboth : P s /\ forall a, P (String a s)).
  { induction s as [|b s [IH IH']].
    - split; [exact Hempty|exact Hone].
    - split; [apply IH'|]. intros a. apply Hstep; [exact IH|apply IH']. }
  apply Hboth.
Qed.

Lemma adjacent_pair (X Y : ascii -> bool) (a b : ascii) (rest : string) :
  LeaksPage.adjacent X Y (String a (String b rest))
  = (X a && Y b) || LeaksPage.adjacent X Y (String b rest).
Proof. reflexivity. Qed.

Section SpaceBetween.
Variables X Y : ascii -> bool.

Lemma space_between_pair (a b : ascii) (rest : string) :
  LeaksPage.space_between X Y (String a (String b rest))
  = if X a && Y b
    then String a (String " " (String b (LeaksPage.space_between X Y rest)))
    else String a (LeaksPage.space_between X Y (String b rest)).
Proof. reflexivity. Qed.

Lemma space_between_head (a : ascii) (s : string) :
  exists rest, LeaksPage.space_between X Y (String a s) = String a rest.
Proof.
  cbn [LeaksPage.space_between]. destruct s as [|b s]; [now eexists|].
  destruct (X a && Y b); now eexists.
Qed.

(** Behind the replacement no character of the first class is directly
    followed by one of the second, as long as the classes are disjoint
    and do not hold the space. *)
Lemma space_between_separates (s : string) :
  (forall c, Y c = true -> X c = false) ->
  X " " = false -> Y " " = false ->
  LeaksPage.adjacent X Y (LeaksPage.space_between X Y s) = false.
Proof.
  intros Hdisjoint HX HY.
  induction s as [|a|a b rest IHrest IH] using string_pair_ind;
    try reflexivity.
  rewrite space_between_pair.
  destruct (X a && Y b) eqn:Hab.
  - apply andb_prop in Hab as [Ha Hb].
    rewrite !adjacent_pair, HY, HX, andb_false_r. cbn [andb orb].
    destruct (LeaksPage.space_between X Y rest) as [|c rest'] eqn:Hrest;
      [reflexivity|].
    rewrite adjacent_pair, (Hdisjoint b Hb). cbn [andb orb]. exact IHrest.
  - destruct (space_between_head b rest) as [rest' Hrest'].
    rewrite Hrest' in *. rewrite adjacent_pair, Hab. cbn [orb]. exact IH.
Qed.

(** A string without such a pair is left as it is. *)
Lemma space_between_unchanged (s : string) :
  LeaksPage.adjacent X Y s = false -> LeaksPage.space_between X Y s = s.
Proof.
  induction s as [|a|a b rest IHrest IH] using string_pair_ind;
    try reflexivity.
  rewrite adjacent_pair, space_between_pair. intros H.
  apply orb_false_elim in H as [Hab Hrest]. rewrite Hab.
  now rewrite (IH Hrest).
Qed.

Lemma space_between_unspaced (s : string) :
  LeaksPage.unspaced (LeaksPage.space_between X Y s) = LeaksPage.unspaced s.
Proof.
  induction s as [|a|a b rest IHrest IH] using string_pair_ind;
    try reflexivity.
  rewrite space_between_pair.
  destruct (X a && Y b).
  - cbn [LeaksPage.unspaced]. rewrite Ascii.eqb_refl, IHrest. reflexivity.
  - change (LeaksPage.unspaced (String a ?x))
      with (if Ascii.eqb a " " then LeaksPage.unspaced x
            else String a (LeaksPage.unspaced x)).
    now rewrite IH.
Qed.

(** Spaces put in for other classes bring no pair together. *)
Lemma space_between_keeps_apart (X' Y' : ascii -> bool) (s : string) :
  X' " "%char = false -> Y' " "%char = false ->
  LeaksPage.adjacent X' Y' s = false ->
  LeaksPage.adjacent X' Y' (LeaksPage.space_between X Y s) = false.
Proof.
  intros HX' HY'.
  induction s as [|a|a b rest IHrest IH] using string_pair_ind;
    try (intros; assumption).
  rewrite adjacent_pair. intros H.
  apply orb_false_elim in H as [Hab Hrest].
  rewrite space_between_pair.
  destruct (X a && Y b).
  - assert (Hb : LeaksPage.adjacent X' Y'
                   (String b (LeaksPage.space_between X Y rest)) = false).
    { destruct rest as [|c rest]; [reflexivity|].
      destruct (space_between_head c rest) as [rest' Hc]. rewrite Hc.
      rewrite adjacent_pair in Hrest |- *.
      apply orb_false_elim in Hrest as [Hbc Hrest].
      rewrite Hbc. cbn [orb]. rewrite <- Hc. now apply IHrest. }
    rewrite !adjacent_pair, HY', HX', andb_false_r. cbn [andb orb]. exact Hb.
  - destruct (space_between_head b rest) as [rest' Hrest'].
    rewrite Hrest' in *. rewrite adjacent_pair, Hab. cbn [orb]. now apply IH.
Qed.

End SpaceBetween.

(** [camelCaseToTitleCase] only puts spaces into a leak name and
    capitalises its first character: in the spaced name no lower-case
    letter is directly followed by an upper-case letter and no letter by
    a digit; apart from spaces it is the name; spacing it again changes
    nothing; and the title is the spaced name with [toUpperCase] applied
    to its first character. *)
Theorem camelCase_spacing (toUpperCase : string -> string) (str : string) :
  let result := LeaksPage.spaced str in
  LeaksPage.adjacent LeaksPage.is_lower LeaksPage.is_upper result = false
  /\ LeaksPage.adjacent LeaksPage.is_letter Str.is_digit result = false
  /\ LeaksPage.unspaced result = LeaksPage.unspaced str
  /\ LeaksPage.spaced result = result
  /\ (forall c rest,
        result = String c rest ->
        LeaksPage.camelCaseToTitleCase toUpperCase str
        = (toUpperCase (String c "") ++ rest)%string).
Proof.
  intros result.
  assert (Hdigit : forall c, Str.is_digit c = true ->
                             LeaksPage.is_letter c = false).
  { intros c. unfold Str.is_digit, Str.digit_value, LeaksPage.is_letter,
      LeaksPage.is_lower, LeaksPage.is_upper.
    cbn zeta.
    destruct (Z.leb_spec 48 (Z.of_N (N_of_ascii c)));
      destruct (Z.leb_spec (Z.of_N (N_of_ascii c)) 57); cbn [andb];
      try discriminate.
    intros _.
    destruct (Z.leb_spec 97 (Z.of_N (N_of_ascii c))); [lia|].
    destruct (Z.leb_spec 65 (Z.of_N (N_of_ascii c))); [lia|].
    reflexivity. }
  assert (Hupper : forall c, LeaksPage.is_upper c = true ->
                             LeaksPage.is_lower c = false).
  { intros c. unfold LeaksPage.is_lower, LeaksPage.is_upper. cbn zeta.
    intros H. apply andb_prop in H as [_ H]. apply Z.leb_le in H.
    destruct (Z.leb_spec 97 (Z.of_N (N_of_ascii c))); [lia|reflexivity]. }
  assert (Hcamel : LeaksPage.adjacent LeaksPage.is_lower LeaksPage.is_upper
                     result = false).
  { unfold result, LeaksPage.spaced.
    apply space_between_keeps_apart; try reflexivity.
    apply space_between_separates; try reflexivity. exact Hupper. }
  assert (Hnumber : LeaksPage.adjacent LeaksPage.is_letter Str.is_digit
                      result = false).
  { unfold result, LeaksPage.spaced.
    apply space_between_separates; try reflexivity. exact Hdigit. }
  split; [exact Hcamel|]. split; [exact Hnumber|]. split; [|split].
  - unfold result, LeaksPage.spaced. now rewrite !space_between_unspaced.
  - unfold LeaksPage.spaced at 1.
    rewrite (space_between_unchanged _ _ result Hcamel).
    apply space_between_unchanged, Hnumber.
  - intros c rest Hresult. unfold LeaksPage.camelCaseToTitleCase.
    fold result. rewrite Hresult.
    cbn [String.length].
    replace (S (String.length rest) - 1)%nat with (String.length rest) by lia.
    f_equal.
    + now destruct rest.
    + change (substring 1 (String.length rest) (String c rest))
        with (substring 0 (String.length rest) rest).
      clear. induction rest as [|d rest IH]; [reflexivity|].
      cbn [substring String.length]. now rewrite IH.
Qed.
